(** * The Ralph loop engine: toolkit, completion detector and loop agent

    A shallow embedding of [src/ai-agent/src/ralph] ([models.py], [tools.py],
    [completion.py], [loop_agent.py]) and of the creation of a task in
    [src/ai-agent/src/api/ralph.py], and the properties proved about them.

    Conventions of the embedding.
    - A Python [str] is a [string], one [ascii] per character: the code
      points below 256. [str.lower], [str.isspace], [str.strip], [\s] and
      [re.IGNORECASE] are what Python defines on these code points.
    - A Python [int] is a [Z]; [len] is [Z.of_nat (length _)]; a Python [float]
      is a binary64 [float], so sums and comparisons round as they do in the
      interpreter.
    - An [Optional[T]] is an [option T]; truthiness of an optional string is
      [truthy] (neither [None] nor empty).
    - A raised exception is the [Raise] outcome of the toolkit monad; state
      written before the raise stays written. The text of an exception the
      interpreter or the operating system raises is representative.
    - The files are a finite map from link-free absolute paths to nodes;
      [Path.resolve] follows symbolic links through it.
    - Everything outside the process (the language model, subprocesses, the
      clock, glob and grep, a write that fails once the file is open, a
      path the operating system refuses to look at) is a field of a world
      record the code is run against. The clock is read in milliseconds;
      the wall-clock timestamps of tasks and iterations, the message list
      sent to the model, logging and the callbacks are left out. *)

From Stdlib Require Import ZArith String Ascii List Bool Lia Floats Sorted.
From stdpp Require Import base option list strings gmap pretty.

Set Warnings "-inexact-float,-register-all,-abstract-large-number".
Local Open Scope string_scope.
Local Open Scope Z_scope.

(* ===================================================================== *)
(** ** Python string operations used by the source                        *)
(* ===================================================================== *)

Module PyStr.

Definition LF : ascii := Ascii.ascii_of_nat 10.
Definition CR : ascii := Ascii.ascii_of_nat 13.

(** [c.lower()] on one character: the letters A..Z and, above the ASCII
    range, the capital letters 192..222 (215, the multiplication sign, is
    no letter). *)
Definition lower_char (c : ascii) : ascii :=
  let n := Ascii.nat_of_ascii c in
  if ((Nat.leb 65 n && Nat.leb n 90) ||
      (Nat.leb 192 n && Nat.leb n 222 && negb (Nat.eqb n 215)))%bool
  then Ascii.ascii_of_nat (n + 32) else c.

(** [s.lower()] *)
Fixpoint lower (s : string) : string :=
  match s with
  | EmptyString => EmptyString
  | String c r => String (lower_char c) (lower r)
  end.

(** [c.isspace()]: tab, line feed, vertical tab, form feed, carriage
    return, the four separators 28..31, the blank, next line (133) and the
    no-break space (160). *)
Definition is_space (c : ascii) : bool :=
  let n := Ascii.nat_of_ascii c in
  ((Nat.leb 9 n && Nat.leb n 13) || (Nat.leb 28 n && Nat.leb n 32) ||
   Nat.eqb n 133 || Nat.eqb n 160)%bool.

(** [s.startswith(p)] *)
Fixpoint startswith (s p : string) : bool :=
  match p, s with
  | EmptyString, _ => true
  | String _ _, EmptyString => false
  | String a p', String b s' => if Ascii.eqb a b then startswith s' p' else false
  end.

(** [sub in s] *)
Fixpoint contains (sub s : string) : bool :=
  (startswith s sub ||
   match s with
   | EmptyString => false
   | String _ r => contains sub r
   end)%bool.

(** [s[:n]] for a literal [n >= 0] *)
Fixpoint take (n : nat) (s : string) : string :=
  match n, s with
  | S k, String c r => String c (take k r)
  | _, _ => EmptyString
  end.

(** [s.split(sep)] for a one-character separator: never the empty list. *)
Fixpoint split (sep : ascii) (s : string) : list string :=
  match s with
  | EmptyString => [EmptyString]
  | String c r =>
      let parts := split sep r in
      if Ascii.eqb c sep then EmptyString :: parts
      else match parts with
           | [] => [String c EmptyString]
           | p :: ps => String c p :: ps
           end
  end.

(** [sep.join(parts)] *)
Definition join (sep : string) (parts : list string) : string :=
  String.concat sep parts.

Fixpoint lstrip (s : string) : string :=
  match s with
  | EmptyString => EmptyString
  | String c r => if is_space c then lstrip r else s
  end.

Fixpoint rstrip (s : string) : string :=
  match s with
  | EmptyString => EmptyString
  | String c r =>
      let r' := rstrip r in
      if (is_space c && String.eqb r' EmptyString)%bool then EmptyString
      else String c r'
  end.

(** [s.strip()] *)
Definition strip (s : string) : string := rstrip (lstrip s).

(** [s.replace(old, new)] ([all = true]) and [s.replace(old, new, 1)]
    ([all = false]) for a non-empty [old]: occurrences are taken from the
    left and do not overlap; [skip] counts the characters of the current
    occurrence still to be passed over. *)
Fixpoint replace_from (old new : string) (skip : nat) (all replaced : bool)
    (s : string) : string :=
  match s with
  | EmptyString => EmptyString
  | String c r =>
      match skip with
      | S k => replace_from old new k all replaced r
      | O =>
          if ((all || negb replaced) && startswith s old)%bool
          then new +:+ replace_from old new (String.length old - 1) all true r
          else String c (replace_from old new 0 all replaced r)
      end
  end.

(** With an empty [old], Python puts [new] before every character and at
    the end (or only in front when one replacement is asked for). *)
Fixpoint intersperse_after (new s : string) : string :=
  match s with
  | EmptyString => EmptyString
  | String c r => String c (new +:+ intersperse_after new r)
  end.

Definition replace (old new : string) (all : bool) (s : string) : string :=
  match old with
  | EmptyString => if all then new +:+ intersperse_after new s else new +:+ s
  | _ => replace_from old new 0 all false s
  end.

(** [s.count(sub)]: non-overlapping occurrences; [len(s) + 1] for the
    empty [sub]. *)
Fixpoint count_from (sub : string) (skip : nat) (s : string) : nat :=
  match s with
  | EmptyString => O
  | String _ r =>
      match skip with
      | S k => count_from sub k r
      | O => if startswith s sub
             then S (count_from sub (String.length sub - 1) r)
             else count_from sub 0 r
      end
  end.

Definition count (sub s : string) : nat :=
  match sub with
  | EmptyString => S (String.length s)
  | _ => count_from sub 0 s
  end.

(** What text-mode reading does to line ends ([newline=None], the default
    of [Path.read_text]): ["\r\n"] and a lone ["\r"] come back as ["\n"]. *)
Fixpoint universal_newlines (s : string) : string :=
  match s with
  | EmptyString => EmptyString
  | String c r =>
      if Ascii.eqb c CR then
        match r with
        | String d r' =>
            if Ascii.eqb d LF then String LF (universal_newlines r')
            else String LF (universal_newlines r)
        | EmptyString => String LF EmptyString
        end
      else String c (universal_newlines r)
  end.

(** Truthiness of an [Optional[str]]: [None] and the empty string are false. *)
Definition truthy (o : option string) : bool :=
  match o with
  | Some s => negb (String.eqb s EmptyString)
  | None => false
  end.

(** [len(x)] as a Python integer. *)
Definition len {A} (l : list A) : Z := Z.of_nat (length l).

End PyStr.

(* ===================================================================== *)
(** ** The fragment of [re] the completion patterns use                   *)
(* ===================================================================== *)

Module Re.

(** A pattern is a sequence of literal characters and optional character
    classes ([[_\s]?]); that covers the six completion patterns. *)
Inductive atom : Type :=
| Chr (c : ascii)
| OptClass (cls : ascii -> bool).

Definition pattern : Type := list atom.

Fixpoint lit (s : string) : pattern :=
  match s with
  | EmptyString => []
  | String c r => Chr c :: lit r
  end.

(** [[_\s]] *)
Definition underscore_or_space (c : ascii) : bool :=
  (Ascii.eqb c "_"%char || PyStr.is_space c)%bool.

(** The text matched by the pattern at the very start of [s], with
    [re.IGNORECASE]; an optional class is tried with a character first
    (greedy) and without one on failure. *)
Fixpoint match_here (p : pattern) (s : string) : option string :=
  match p with
  | [] => Some EmptyString
  | Chr c :: p' =>
      match s with
      | String d s' =>
          if Ascii.eqb (PyStr.lower_char c) (PyStr.lower_char d)
          then option_map (String d) (match_here p' s')
          else None
      | EmptyString => None
      end
  | OptClass cls :: p' =>
      let with_char :=
        match s with
        | String d s' =>
            if cls d then option_map (String d) (match_here p' s') else None
        | EmptyString => None
        end in
      match with_char with
      | Some m => Some m
      | None => match_here p' s
      end
  end.

(** [re.search(p, s, re.IGNORECASE)], giving [match.group()]. *)
Fixpoint search (p : pattern) (s : string) : option string :=
  match match_here p s with
  | Some m => Some m
  | None =>
      match s with
      | EmptyString => None
      | String _ r => search p r
      end
  end.

End Re.

(* ===================================================================== *)
(** ** [models.py]: the shared data shapes                                *)
(* ===================================================================== *)

Module TaskStatus.
Inductive t : Type := PENDING | RUNNING | COMPLETED | FAILED | TIMEOUT | CANCELLED.

(** [status.value] *)
Definition value (s : t) : string :=
  match s with
  | PENDING => "pending"
  | RUNNING => "running"
  | COMPLETED => "completed"
  | FAILED => "failed"
  | TIMEOUT => "timeout"
  | CANCELLED => "cancelled"
  end.
End TaskStatus.

Module IterationStatus.
Inductive t : Type := RUNNING | COMPLETED | FAILED | NEEDS_REVIEW.
End IterationStatus.

Module Models.

(** JSON-like values: tool arguments and tool results ([Dict[str, Any]]).
    A dictionary keeps its keys in insertion order. *)
Inductive value : Type :=
| VNone
| VBool (b : bool)
| VInt (n : Z)
| VStr (s : string)
| VList (l : list value)
| VDict (d : list (string * value)).

Definition dict : Type := list (string * value).

(** [d.get(k)] *)
Fixpoint dict_get (k : string) (d : dict) : option value :=
  match d with
  | [] => None
  | (k', v) :: rest => if String.eqb k k' then Some v else dict_get k rest
  end.

Record ToolCall : Type := mkToolCall {
  tool_name : string;
  arguments : dict;
  result : option dict;
  error : option string;
  duration_ms : Z
}.

Record FileChange : Type := mkFileChange {
  path : string;
  action : string;   (* create, modify, delete *)
  content_preview : option string;
  lines_added : Z;
  lines_removed : Z
}.

Record BackpressureResult : Type := mkBackpressureResult {
  check_type : string;   (* test, lint, typecheck, build *)
  passed : bool;
  output : string;
  errors : list string;
  warnings : list string;
  bp_duration_ms : Z
}.

Record RalphIteration : Type := mkRalphIteration {
  iteration_number : Z;
  it_status : IterationStatus.t;
  prompt_sent : string;
  agent_response : string;
  reasoning : string;
  tool_calls : list ToolCall;
  file_changes : list FileChange;
  git_commits : list string;
  backpressure_results : list BackpressureResult;
  completion_promise_found : bool;
  completion_message : option string;
  it_error : option string
}.

(** [RalphIteration(iteration_number=n)]: every other field at its default. *)
Definition new_iteration (n : Z) : RalphIteration :=
  {| iteration_number := n;
     it_status := IterationStatus.RUNNING;
     prompt_sent := EmptyString;
     agent_response := EmptyString;
     reasoning := EmptyString;
     tool_calls := [];
     file_changes := [];
     git_commits := [];
     backpressure_results := [];
     completion_promise_found := false;
     completion_message := None;
     it_error := None |}.

Record CompletionResult : Type := mkCompletionResult {
  is_complete : bool;
  reason : string;
  confidence : float;
  promise_detected : bool;
  all_tests_passed : bool;
  no_errors : bool
}.

(** [CompletionResult()] *)
Definition new_completion_result : CompletionResult :=
  {| is_complete := false;
     reason := EmptyString;
     confidence := 0%float;
     promise_detected := false;
     all_tests_passed := false;
     no_errors := true |}.

Record RalphTaskConfig : Type := mkRalphTaskConfig {
  completion_promise : string;
  max_iterations : Z;
  iteration_timeout_seconds : Z;
  run_tests : bool;
  run_lint : bool;
  run_typecheck : bool;
  run_build : bool;
  test_command : option string;
  lint_command : option string;
  typecheck_command : option string;
  build_command : option string;
  include_git_history : bool;
  include_file_contents : bool;
  max_context_files : Z;
  working_directory : string;
  model : string;
  max_tokens : Z;
  temperature : float
}.

(** [RalphTaskConfig()] *)
Definition default_config : RalphTaskConfig :=
  {| completion_promise := "<promise>COMPLETE</promise>";
     max_iterations := 50;
     iteration_timeout_seconds := 300;
     run_tests := true;
     run_lint := true;
     run_typecheck := true;
     run_build := false;
     test_command := None;
     lint_command := None;
     typecheck_command := None;
     build_command := None;
     include_git_history := true;
     include_file_contents := true;
     max_context_files := 20;
     working_directory := ".";
     model := "claude-sonnet-4-20250514";
     max_tokens := 16000;
     temperature := 0.7%float |}.

Record RalphTask : Type := mkRalphTask {
  id : nat;   (* the UUID, opaque *)
  prompt : string;
  description : string;
  config : RalphTaskConfig;
  status : TaskStatus.t;
  current_iteration : Z;
  iterations : list RalphIteration;
  completion_result : option CompletionResult;
  final_output : option string;
  task_error : option string;
  total_tool_calls : Z;
  total_file_changes : Z
}.

(** [RalphTask(id=i, prompt=p, config=c)] *)
Definition new_task (i : nat) (p : string) (c : RalphTaskConfig) : RalphTask :=
  {| id := i;
     prompt := p;
     description := EmptyString;
     config := c;
     status := TaskStatus.PENDING;
     current_iteration := 0;
     iterations := [];
     completion_result := None;
     final_output := None;
     task_error := None;
     total_tool_calls := 0;
     total_file_changes := 0 |}.

Definition set_status (s : TaskStatus.t) (t : RalphTask) : RalphTask :=
  {| id := id t; prompt := prompt t; description := description t;
     config := config t; status := s;
     current_iteration := current_iteration t; iterations := iterations t;
     completion_result := completion_result t;
     final_output := final_output t; task_error := task_error t;
     total_tool_calls := total_tool_calls t;
     total_file_changes := total_file_changes t |}.

Definition set_error (e : string) (t : RalphTask) : RalphTask :=
  {| id := id t; prompt := prompt t; description := description t;
     config := config t; status := status t;
     current_iteration := current_iteration t; iterations := iterations t;
     completion_result := completion_result t;
     final_output := final_output t; task_error := Some e;
     total_tool_calls := total_tool_calls t;
     total_file_changes := total_file_changes t |}.

(** [RalphTask.start] *)
Definition start (t : RalphTask) : RalphTask :=
  set_status TaskStatus.RUNNING t.

(** [RalphTask.complete] *)
Definition complete (res : CompletionResult) (out : string) (t : RalphTask)
    : RalphTask :=
  {| id := id t; prompt := prompt t; description := description t;
     config := config t; status := TaskStatus.COMPLETED;
     current_iteration := current_iteration t; iterations := iterations t;
     completion_result := Some res;
     final_output := Some out; task_error := task_error t;
     total_tool_calls := total_tool_calls t;
     total_file_changes := total_file_changes t |}.

(** [RalphTask.fail] *)
Definition fail (e : string) (t : RalphTask) : RalphTask :=
  set_error e (set_status TaskStatus.FAILED t).

(** [RalphTask.timeout] *)
Definition timeout (t : RalphTask) : RalphTask :=
  set_error ("Task timed out after " +:+ pretty (current_iteration t)
             +:+ " iterations")
    (set_status TaskStatus.TIMEOUT t).

(** [RalphTask.cancel] *)
Definition cancel (t : RalphTask) : RalphTask :=
  set_status TaskStatus.CANCELLED t.

(** [RalphTask.add_iteration] *)
Definition add_iteration (it : RalphIteration) (t : RalphTask) : RalphTask :=
  let its := (iterations t ++ [it])%list in
  {| id := id t; prompt := prompt t; description := description t;
     config := config t; status := status t;
     current_iteration := PyStr.len its;
     iterations := its;
     completion_result := completion_result t;
     final_output := final_output t; task_error := task_error t;
     total_tool_calls := total_tool_calls t + PyStr.len (tool_calls it);
     total_file_changes := total_file_changes t + PyStr.len (file_changes it) |}.

(** [RalphIteration.complete(status)], without its clock reads. *)
Definition iteration_complete (s : IterationStatus.t) (it : RalphIteration)
    : RalphIteration :=
  {| iteration_number := iteration_number it;
     it_status := s;
     prompt_sent := prompt_sent it;
     agent_response := agent_response it;
     reasoning := reasoning it;
     tool_calls := tool_calls it;
     file_changes := file_changes it;
     git_commits := git_commits it;
     backpressure_results := backpressure_results it;
     completion_promise_found := completion_promise_found it;
     completion_message := completion_message it;
     it_error := it_error it |}.

End Models.

(* ===================================================================== *)
(** ** [tools.py]: the file system, subprocesses and the toolkit          *)
(* ===================================================================== *)

Module Tools.
Import Models.

(** *** The file system the toolkit works on *)

(** A node is named by the components of its absolute, link-free path;
    the root [[]] is always a directory. Permissions are not modelled. *)
Inductive node : Type :=
| File (content : string)
| Dir
| Symlink (target : string).

Abbreviation FS := (gmap (list string) node).

Definition lookup_node (fs : FS) (p : list string) : option node :=
  match p with
  | [] => Some Dir
  | _ => fs !! p
  end.

(** [str(path)] *)
Definition path_str (p : list string) : string :=
  match p with
  | [] => "/"
  | _ => String.concat EmptyString (map (fun c => "/" +:+ c) p)
  end.

Definition components (s : string) : list string := PyStr.split "/"%char s.

Definition is_absolute (s : string) : bool := PyStr.startswith s "/".

Definition skipped (c : string) : bool :=
  (String.eqb c EmptyString || String.eqb c ".")%bool.

(** One pass of [os.path.realpath] over the components still to
    be read: [cur] is the link-free path reached so far. Empty and ["."]
    components are dropped, [".."] removes the last component reached, a
    name that is no link (missing names included: the resolution is not
    strict) is appended. At a link the pass stops and hands back where the
    target is to be read from and what remains to be read. *)
Fixpoint walk (fs : FS) (cur rest : list string)
    : list string + (list string * list string) :=
  match rest with
  | [] => inl cur
  | c :: r =>
      if skipped c then walk fs cur r
      else if String.eqb c ".." then walk fs (removelast cur) r
      else match fs !! (cur ++ [c])%list with
           | Some (Symlink t) =>
               inr (if is_absolute t then [] else cur,
                    (components t ++ r)%list)
           | _ => walk fs (cur ++ [c])%list r
           end
  end.

(** Resolution follows at most [links] symbolic links; running out stands
    for a link loop ([None]). *)
Fixpoint realpath (links : nat) (fs : FS) (cur rest : list string)
    : option (list string) :=
  match walk fs cur rest with
  | inl p => Some p
  | inr (cur', rest') =>
      match links with
      | O => None
      | S n => realpath n fs cur' rest'
      end
  end.

Definition MAXSYMLINKS : nat := 40.

Definition NUL : string := String Ascii.zero EmptyString.

(** [(base / path).resolve()]: joining with an absolute [path] discards
    [base]. [None] when the call raises: a [ValueError] for a path that
    holds a null character, a [RuntimeError] for a link loop. *)
Definition resolve (fs : FS) (base : list string) (path : string)
    : option (list string) :=
  if PyStr.contains NUL path then None
  else realpath MAXSYMLINKS fs (if is_absolute path then [] else base)
         (components path).

(** The text of the exception [resolve] raised. *)
Definition resolve_error (path : string) : string :=
  if PyStr.contains NUL path then "embedded null byte"
  else "Symlink loop from '" +:+ path +:+ "'".

Definition fs_exists (fs : FS) (p : list string) : bool :=
  match lookup_node fs p with
  | Some (File _) | Some Dir => true
  | _ => false
  end.

Definition fs_is_file (fs : FS) (p : list string) : bool :=
  match lookup_node fs p with
  | Some (File _) => true
  | _ => false
  end.

Definition fs_is_dir (fs : FS) (p : list string) : bool :=
  match lookup_node fs p with
  | Some Dir => true
  | _ => false
  end.

(** One pass of the operating system's own path resolution (the one behind
    [os.stat]), which is strict where [realpath] is not: every
    name on the way must be there, and what a further component is read
    from must be a directory. At a link the pass stops as [walk] does; a
    link with an empty target leads nowhere. [None] is [ENOENT] or
    [ENOTDIR]. *)
Fixpoint follow (fs : FS) (cur rest : list string)
    : option (list string + (list string * list string)) :=
  match rest with
  | [] => Some (inl cur)
  | c :: r =>
      if negb (fs_is_dir fs cur) then None
      else if skipped c then follow fs cur r
      else if String.eqb c ".." then follow fs (removelast cur) r
      else match fs !! (cur ++ [c])%list with
           | Some (Symlink t) =>
               if String.eqb t EmptyString then None
               else Some (inr (if is_absolute t then [] else cur,
                               (components t ++ r)%list))
           | Some _ => follow fs (cur ++ [c])%list r
           | None => None
           end
  end.

(** The node a path leads to, at most [links] links being followed
    ([ELOOP] beyond). *)
Fixpoint stat_from (links : nat) (fs : FS) (cur rest : list string)
    : option node :=
  match follow fs cur rest with
  | Some (inl p) => lookup_node fs p
  | Some (inr (cur', rest')) =>
      match links with
      | O => None
      | S n => stat_from n fs cur' rest'
      end
  | None => None
  end.

(** [os.stat] on the components [path] read from the directory [base], as
    far as the files decide it. *)
Definition stat (fs : FS) (base path : list string) : option node :=
  stat_from MAXSYMLINKS fs base path.

(** [f.is_file()], [f.is_dir()] and [f.stat().st_size] for an entry [f]
    of a directory listing, which may be a link: all three follow it. *)
Definition entry_is_file (fs : FS) (f : list string) : bool :=
  match stat fs [] f with
  | Some (File _) => true
  | _ => false
  end.

Definition entry_is_dir (fs : FS) (f : list string) : bool :=
  match stat fs [] f with
  | Some Dir => true
  | _ => false
  end.

(** The bytes of a character in UTF-8. *)
Definition utf8_width (c : ascii) : Z :=
  if (Ascii.nat_of_ascii c <? 128)%nat then 1 else 2.

Fixpoint utf8_len (s : string) : Z :=
  match s with
  | EmptyString => 0
  | String c r => utf8_width c + utf8_len r
  end.

(** [f.read_text(encoding="utf-8", errors="replace")] for such an entry. *)
Definition entry_read_text (fs : FS) (f : list string) : string + string :=
  match stat fs [] f with
  | Some (File c) => inl (PyStr.universal_newlines c)
  | Some Dir => inr ("[Errno 21] Is a directory: '" +:+ path_str f +:+ "'")
  | _ => inr ("[Errno 2] No such file or directory: '" +:+ path_str f +:+ "'")
  end.

(** [path.mkdir(parents=True, exist_ok=True)], one component after the
    other from the root: the directories made before a failure stay. *)
Fixpoint mkdir_from (fs : FS) (cur rest : list string) : FS * option string :=
  match rest with
  | [] => (fs, None)
  | c :: r =>
      let p := (cur ++ [c])%list in
      match fs !! p with
      | None => mkdir_from (<[p := Dir]> fs) p r
      | Some Dir => mkdir_from fs p r
      | Some _ => (fs, Some ("[Errno 17] File exists: '" +:+ path_str p +:+ "'"))
      end
  end.

Definition mkdir_p (fs : FS) (p : list string) : FS * option string :=
  mkdir_from fs [] p.

(** [path.read_text(encoding="utf-8", errors="replace")]: text mode, so
    line ends are translated. *)
Definition read_text (fs : FS) (p : list string) : string + string :=
  match lookup_node fs p with
  | Some (File c) => inl (PyStr.universal_newlines c)
  | Some Dir => inr ("[Errno 21] Is a directory: '" +:+ path_str p +:+ "'")
  | _ => inr ("[Errno 2] No such file or directory: '" +:+ path_str p +:+ "'")
  end.

Definition has_children (fs : FS) (p : list string) : bool :=
  existsb (fun kv => match fst kv with
                     | [] => false
                     | k => bool_decide (removelast k = p)
                     end)
    (map_to_list fs).

(** [path.unlink()] *)
Definition unlink (fs : FS) (p : list string) : FS * option string :=
  match lookup_node fs p, p with
  | Some (File _), _ :: _ => (delete p fs, None)
  | _, _ => (fs, Some ("[Errno 1] Operation not permitted: '" +:+ path_str p +:+ "'"))
  end.

(** [path.rmdir()]: only an empty directory goes. *)
Definition rmdir (fs : FS) (p : list string) : FS * option string :=
  match p with
  | [] => (fs, Some "[Errno 16] Device or resource busy: '/'")
  | _ =>
      if has_children fs p
      then (fs, Some ("[Errno 39] Directory not empty: '" +:+ path_str p +:+ "'"))
      else (delete p fs, None)
  end.

(** *** Subprocesses and the rest of the outside world *)

Inductive ProcOutcome : Type :=
| Exited (stdout stderr : string) (returncode : Z)
    (* [communicate()] returned within the timeout *)
| TimedOut (partial_stdout partial_stderr : string)
    (* [wait_for] raised [TimeoutError]; what the child had written *)
| SpawnFailed (msg : string).
    (* [create_subprocess_shell] raised *)

Record World : Type := mkWorld {
  (** what running [command] in [cwd] with a timeout does, and the file
      system it leaves *)
  shell : FS -> list string -> string -> Z -> ProcOutcome * FS;
  (** [iterdir], [glob(pattern)], [rglob(pattern)] in the order the
      operating system yields the entries: directory, pattern, recursive *)
  listing : FS -> list string -> option string -> bool -> list (list string) + string;
  (** whether [re.compile(pattern, re.IGNORECASE)] succeeds, and whether
      the compiled pattern is found in a line *)
  re_compiles : string -> bool;
  re_search : string -> string -> bool;
  (** the k-th reading of the clock, in milliseconds *)
  time_ms : nat -> Z;
  (** a write of [content] to the file at a path that fails once the file
      is open (a full disk, text that cannot be encoded): how many
      characters reached the file, and the text of the exception *)
  write_fault : FS -> list string -> string -> option (nat * string)
}.

(** [path.write_text(content, encoding="utf-8")]: the file is opened for
    writing, which creates or empties it, and then written. An open that
    fails leaves the files as they were; a write that fails leaves the
    file with what had reached it. The toolkit only writes to resolved
    paths, which name no link ([resolve_not_a_link] below). *)
Definition write_text (w : World) (fs : FS) (p : list string) (content : string)
    : FS * option string :=
  match lookup_node fs p with
  | Some Dir => (fs, Some ("[Errno 21] Is a directory: '" +:+ path_str p +:+ "'"))
  | Some (Symlink _) => (fs, Some ("[Errno 40] Too many levels of symbolic links: '"
                                   +:+ path_str p +:+ "'"))
  | _ =>
      if fs_is_dir fs (removelast p) then
        match write_fault w fs p content with
        | Some (written, msg) => (<[p := File (PyStr.take written content)]> fs, Some msg)
        | None => (<[p := File content]> fs, None)
        end
      else (fs, Some ("[Errno 2] No such file or directory: '" +:+ path_str p +:+ "'"))
  end.

(** *** The toolkit object and its monad *)

Record Toolkit : Type := mkToolkit {
  working_dir : list string;
  allow_shell : bool;
  command_timeout : Z
}.

(** What a tool can change: the files, the buffer [self.file_changes], the
    processes killed so far (their commands) and the number of clock
    readings taken. *)
Record State : Type := mkState {
  st_fs : FS;
  st_file_changes : list FileChange;
  st_killed : list string;
  st_clock : nat
}.

Inductive Outcome (A : Type) : Type :=
| Return (a : A)
| Raise (msg : string).
Arguments Return {A} a.
Arguments Raise {A} msg.

Definition M (A : Type) : Type := State -> Outcome A * State.

Definition ret {A} (a : A) : M A := fun s => (Return a, s).
Definition raise {A} (msg : string) : M A := fun s => (Raise msg, s).

Definition bind {A B} (m : M A) (k : A -> M B) : M B :=
  fun s =>
    match m s with
    | (Return a, s') => k a s'
    | (Raise msg, s') => (Raise msg, s')
    end.

(** [try: m  except Exception as e: handler(str(e))] *)
Definition try_except {A} (m : M A) (handler : string -> M A) : M A :=
  fun s =>
    match m s with
    | (Return a, s') => (Return a, s')
    | (Raise msg, s') => handler msg s'
    end.

Notation "'let*' x ':=' m 'in' k" := (bind m (fun x => k))
  (at level 10, x pattern, m at level 100, k at level 200).

Definition get_fs : M FS := fun s => (Return (st_fs s), s).

Definition put_fs (fs : FS) : M unit :=
  fun s => (Return tt,
            {| st_fs := fs; st_file_changes := st_file_changes s;
               st_killed := st_killed s; st_clock := st_clock s |}).

(** [self.file_changes.append(change)] *)
Definition record_change (c : FileChange) : M unit :=
  fun s => (Return tt,
            {| st_fs := st_fs s;
               st_file_changes := (st_file_changes s ++ [c])%list;
               st_killed := st_killed s; st_clock := st_clock s |}).

(** [proc.kill()] *)
Definition kill (command : string) : M unit :=
  fun s => (Return tt,
            {| st_fs := st_fs s; st_file_changes := st_file_changes s;
               st_killed := (st_killed s ++ [command])%list;
               st_clock := st_clock s |}).

(** [time.time()] *)
Definition time (w : World) : M Z :=
  fun s => (Return (time_ms w (st_clock s)),
            {| st_fs := st_fs s; st_file_changes := st_file_changes s;
               st_killed := st_killed s; st_clock := S (st_clock s) |}).

(** A file-system operation that either fails with the text of its
    [OSError] or succeeds; its effect on the files is kept either way. *)
Definition fs_op (op : FS -> FS * option string) : M unit :=
  fun s =>
    let '(fs', err) := op (st_fs s) in
    let s' := {| st_fs := fs'; st_file_changes := st_file_changes s;
                 st_killed := st_killed s; st_clock := st_clock s |} in
    match err with
    | Some msg => (Raise msg, s')
    | None => (Return tt, s')
    end.

Definition of_sum {A} (r : A + string) : M A :=
  match r with
  | inl a => ret a
  | inr msg => raise msg
  end.

(** *** Binding the keyword arguments of a tool call

    Calling the method with the dictionary unpacked into keyword
    arguments raises a [TypeError] for a keyword the method
    does not have and for a missing required one. A value of a JSON type
    the tool's schema excludes raises where the tool first needs it. *)

Definition check_keywords (fname : string) (allowed : list string)
    (args : dict) : M unit :=
  match List.find (fun kv => negb (existsb (String.eqb (fst kv)) allowed)) args with
  | Some (k, _) =>
      raise (fname +:+ "() got an unexpected keyword argument '" +:+ k +:+ "'")
  | None => ret tt
  end.

Definition required (fname key : string) (args : dict) : M value :=
  match dict_get key args with
  | Some v => ret v
  | None =>
      raise (fname +:+ "() missing 1 required positional argument: '"
             +:+ key +:+ "'")
  end.

Definition optional (key : string) (default : value) (args : dict) : value :=
  match dict_get key args with
  | Some v => v
  | None => default
  end.

Definition as_str (v : value) : M string :=
  match v with
  | VStr s => ret s
  | _ => raise "TypeError: expected str"
  end.

Definition as_opt_str (v : value) : M (option string) :=
  match v with
  | VStr s => ret (Some s)
  | VNone => ret None
  | _ => raise "TypeError: expected str or None"
  end.

Definition as_opt_int (v : value) : M (option Z) :=
  match v with
  | VInt n => ret (Some n)
  | VNone => ret None
  | _ => raise "TypeError: expected int or None"
  end.

Definition as_int (v : value) : M Z :=
  match v with
  | VInt n => ret n
  | _ => raise "TypeError: expected int"
  end.

(** Truthiness of a value used as a flag. *)
Definition value_truthy (v : value) : bool :=
  match v with
  | VNone => false
  | VBool b => b
  | VInt n => negb (n =? 0)
  | VStr s => negb (String.eqb s EmptyString)
  | VList l => match l with [] => false | _ => true end
  | VDict d => match d with [] => false | _ => true end
  end.

(** [l[start:stop]] *)
Definition slice_index (n i : Z) : Z :=
  if i <? 0 then Z.max (i + n) 0 else Z.min i n.

Definition py_slice {A} (start stop : Z) (l : list A) : list A :=
  let n := PyStr.len l in
  let s := slice_index n start in
  let e := slice_index n stop in
  take (Z.to_nat (e - s)) (drop (Z.to_nat s) l).

Definition nl : string := String PyStr.LF EmptyString.

(** [len(text.split("\n"))] *)
Definition line_count (text : string) : Z := PyStr.len (PyStr.split PyStr.LF text).

(** [len(text)] *)
Definition str_len (text : string) : Z := Z.of_nat (String.length text).

Section Toolkit.
Variable w : World.
Variable self : Toolkit.

(** [RalphToolkit._resolve_path] *)
Definition _resolve_path (path : string) : M (list string) :=
  let* fs := get_fs in
  match resolve fs (working_dir self) path with
  | None => raise (resolve_error path)
  | Some resolved =>
      if negb (PyStr.startswith (path_str resolved) (path_str (working_dir self)))
      then raise ("Path " +:+ path +:+ " is outside working directory")
      else ret resolved
  end.

(** [RalphToolkit._tool_read_file] *)
Definition _tool_read_file (args : dict) : M dict :=
  let* _ := check_keywords "_tool_read_file" ["path"; "start_line"; "end_line"] args in
  let* path_v := required "_tool_read_file" "path" args in
  let* path := as_str path_v in
  let* full_path := _resolve_path path in
  let* fs := get_fs in
  if negb (fs_exists fs full_path)
  then ret [("error", VStr ("File not found: " +:+ path))]
  else if negb (fs_is_file fs full_path)
  then ret [("error", VStr ("Not a file: " +:+ path))]
  else
    try_except
      (let* content := of_sum (read_text fs full_path) in
       let lines := PyStr.split PyStr.LF content in
       let* start_line := as_opt_int (optional "start_line" VNone args) in
       let* end_line := as_opt_int (optional "end_line" VNone args) in
       let content :=
         match start_line, end_line with
         | None, None => content
         | _, _ =>
             let or_ (o : option Z) (d : Z) :=
               match o with
               | Some n => if n =? 0 then d else n
               | None => d
               end in
             let start := or_ start_line 1 - 1 in
             let stop := or_ end_line (PyStr.len lines) in
             PyStr.join nl (py_slice start stop lines)
         end in
       ret [("path", VStr path);
            ("content", VStr content);
            ("lines", VInt (line_count content));
            ("size", VInt (str_len content))])
      (fun e => ret [("error", VStr ("Failed to read file: " +:+ e))]).

(** [RalphToolkit._tool_write_file] *)
Definition _tool_write_file (args : dict) : M dict :=
  let* _ := check_keywords "_tool_write_file" ["path"; "content"] args in
  let* path_v := required "_tool_write_file" "path" args in
  let* content_v := required "_tool_write_file" "content" args in
  let* path := as_str path_v in
  let* full_path := _resolve_path path in
  try_except
    (let* _ := fs_op (fun fs => mkdir_p fs (removelast full_path)) in
     let* fs := get_fs in
     let action := if fs_exists fs full_path then "modify" else "create" in
     let* old_lines :=
       if fs_exists fs full_path
       then (let* old_content := of_sum (read_text fs full_path) in
             ret (line_count old_content))
       else ret 0 in
     let* content := as_str content_v in
     let* _ := fs_op (fun fs => write_text w fs full_path content) in
     let new_lines := line_count content in
     let created := String.eqb action "create" in
     let* _ := record_change
       {| path := path;
          action := action;
          content_preview := Some (PyStr.take 200 content);
          lines_added := if created then new_lines
                         else Z.max 0 (new_lines - old_lines);
          lines_removed := if created then 0
                           else Z.max 0 (old_lines - new_lines) |} in
     ret [("success", VBool true);
          ("path", VStr path);
          ("action", VStr action);
          ("lines", VInt new_lines)])
    (fun e => ret [("error", VStr ("Failed to write file: " +:+ e))]).

(** [RalphToolkit._tool_edit_file] *)
Definition _tool_edit_file (args : dict) : M dict :=
  let* _ := check_keywords "_tool_edit_file"
              ["path"; "old_text"; "new_text"; "replace_all"] args in
  let* path_v := required "_tool_edit_file" "path" args in
  let* old_v := required "_tool_edit_file" "old_text" args in
  let* new_v := required "_tool_edit_file" "new_text" args in
  let replace_all := value_truthy (optional "replace_all" (VBool false) args) in
  let* path := as_str path_v in
  let* full_path := _resolve_path path in
  let* fs := get_fs in
  if negb (fs_exists fs full_path)
  then ret [("error", VStr ("File not found: " +:+ path))]
  else
    try_except
      (let* content := of_sum (read_text fs full_path) in
       let* old_text := as_str old_v in
       if negb (PyStr.contains old_text content)
       then ret [("error", VStr "Text not found in file");
                 ("searched_for", VStr (PyStr.take 100 old_text))]
       else
         let* new_text := as_str new_v in
         let new_content := PyStr.replace old_text new_text replace_all content in
         let count := if replace_all
                      then Z.of_nat (PyStr.count old_text content) else 1 in
         let* _ := fs_op (fun fs => write_text w fs full_path new_content) in
         let* _ := record_change
           {| path := path;
              action := "modify";
              content_preview := Some (PyStr.take 200 new_text);
              lines_added := 0;
              lines_removed := 0 |} in
         ret [("success", VBool true);
              ("path", VStr path);
              ("replacements", VInt count)])
      (fun e => ret [("error", VStr ("Failed to edit file: " +:+ e))]).

(** [f.relative_to(self.working_dir)]; [None] is the [ValueError]. *)
Fixpoint relative_to (base f : list string) : option (list string) :=
  match base, f with
  | [], _ => Some f
  | b :: base', c :: f' => if String.eqb b c then relative_to base' f' else None
  | _ :: _, [] => None
  end.

(** [str(rel)] for a relative path *)
Definition rel_str (rel : list string) : string :=
  match rel with
  | [] => "."
  | _ => PyStr.join "/" rel
  end.

(** [entries.sort(key=lambda x: x["path"])]: stable, by the path text. *)
Fixpoint insert_by_path (e : string * dict) (sorted : list (string * dict))
    : list (string * dict) :=
  match sorted with
  | [] => [e]
  | e' :: rest =>
      if String.ltb (fst e) (fst e') then e :: sorted
      else e' :: insert_by_path e rest
  end.

Definition sort_by_path (l : list (string * dict)) : list (string * dict) :=
  fold_left (fun acc e => insert_by_path e acc) l [].

(** [RalphToolkit._tool_list_files] *)
Definition _tool_list_files (args : dict) : M dict :=
  let* _ := check_keywords "_tool_list_files" ["path"; "pattern"; "recursive"] args in
  let* path := as_str (optional "path" (VStr ".") args) in
  let* pattern := as_opt_str (optional "pattern" VNone args) in
  let recursive := value_truthy (optional "recursive" (VBool false) args) in
  let* full_path := _resolve_path path in
  let* fs := get_fs in
  if negb (fs_exists fs full_path)
  then ret [("error", VStr ("Directory not found: " +:+ path))]
  else
    try_except
      (let pattern := if PyStr.truthy pattern then pattern else None in
       let* found := of_sum (listing w fs full_path pattern recursive) in
       let files :=
         match pattern, recursive with
         | None, true => filter (fun f => entry_is_file fs f = true) found
         | _, _ => found
         end in
       let entry (f : list string) : option (string * dict) :=
         match relative_to (working_dir self) f with
         | None => None
         | Some rel =>
             let size := match stat fs [] f with
                         | Some (File c) => utf8_len c
                         | _ => 0
                         end in
             Some (rel_str rel,
                   [("path", VStr (rel_str rel));
                    ("is_dir", VBool (entry_is_dir fs f));
                    ("size", VInt size)])
         end in
       let relative_files := sort_by_path (omap entry (take 100 files)) in
       ret [("path", VStr path);
            ("files", VList (map (fun e => VDict (snd e)) relative_files));
            ("total", VInt (PyStr.len relative_files));
            ("truncated", VBool (100 <? PyStr.len files))])
      (fun e => ret [("error", VStr ("Failed to list files: " +:+ e))]).

(** [RalphToolkit._run_shell_command] *)
Definition _run_shell_command (command : string) (timeout : Z) : M dict :=
  let* fs := get_fs in
  let '(outcome, fs') := shell w fs (working_dir self) command timeout in
  let* _ := put_fs fs' in
  match outcome with
  | SpawnFailed e =>
      ret [("error", VStr ("Command execution failed: " +:+ e))]
  | TimedOut _ _ =>
      let* _ := kill command in
      ret [("error", VStr ("Command timed out after " +:+ pretty timeout +:+ "s"));
           ("exit_code", VInt (-1))]
  | Exited stdout stderr returncode =>
      ret [("stdout", VStr (PyStr.take 10000 stdout));
           ("stderr", VStr (PyStr.take 5000 stderr));
           ("exit_code", VInt returncode);
           ("success", VBool (returncode =? 0))]
  end.

(** The lines of one file that match, for the in-process search: stops
    at 50 matches; a file outside the working directory is given up at
    its first matching line ([relative_to] raises inside the [try]). *)
Fixpoint search_lines (pattern : string) (f : list string) (i : Z)
    (lines : list string) (matches : list value) : list value :=
  match lines with
  | [] => matches
  | line :: rest =>
      if re_search w pattern line then
        match relative_to (working_dir self) f with
        | None => matches
        | Some rel =>
            let matches' :=
              (matches ++ [VDict [("file", VStr (rel_str rel));
                                  ("line", VInt (i + 1));
                                  ("content", VStr (PyStr.take 200 (PyStr.strip line)))]])%list in
            if 50 <=? PyStr.len matches' then matches'
            else search_lines pattern f (i + 1) rest matches'
        end
      else search_lines pattern f (i + 1) rest matches
  end.

Fixpoint search_in_files (fs : FS) (pattern : string)
    (files : list (list string)) (matches : list value) : list value :=
  match files with
  | [] => matches
  | f :: rest =>
      if negb (entry_is_file fs f) then search_in_files fs pattern rest matches
      else
        let matches' :=
          match entry_read_text fs f with
          | inl content =>
              search_lines pattern f 0 (PyStr.split PyStr.LF content) matches
          | inr _ => matches
          end in
        if 50 <=? PyStr.len matches' then matches'
        else search_in_files fs pattern rest matches'
  end.

(** [RalphToolkit._tool_search_files] *)
Definition _tool_search_files (args : dict) : M dict :=
  let* _ := check_keywords "_tool_search_files"
              ["pattern"; "path"; "file_pattern"; "context_lines"] args in
  let* pattern_v := required "_tool_search_files" "pattern" args in
  let* path := as_str (optional "path" (VStr ".") args) in
  let* full_path := _resolve_path path in
  try_except
    (let* pattern := as_str pattern_v in
     let* file_pattern := as_opt_str (optional "file_pattern" VNone args) in
     let* context_lines := as_int (optional "context_lines" (VInt 2) args) in
     let grep_cmd :=
       "grep -rn"
       +:+ (if context_lines =? 0 then EmptyString
            else " -C " +:+ pretty context_lines)
       +:+ (match file_pattern with
            | Some fp => if String.eqb fp EmptyString then EmptyString
                         else " --include='" +:+ fp +:+ "'"
            | None => EmptyString
            end)
       +:+ " '" +:+ pattern +:+ "' " +:+ path_str full_path in
     let* from_grep :=
       if allow_shell self
       then (let* result := _run_shell_command grep_cmd 30 in
             match dict_get "stdout" result with
             | Some (VStr out) =>
                 if String.eqb out EmptyString then ret None
                 else ret (Some (take 50 (PyStr.split PyStr.LF out)))
             | _ => ret None
             end)
       else ret None in
     match from_grep with
     | Some matches =>
         ret [("pattern", VStr pattern);
              ("matches", VList (map VStr matches));
              ("total", VInt (PyStr.len matches))]
     | None =>
         if negb (re_compiles w pattern)
         then raise ("error: bad pattern " +:+ pattern)
         else
           let* fs := get_fs in
           let glob_pattern :=
             if PyStr.truthy file_pattern then file_pattern else Some "*" in
           let* files := of_sum (listing w fs full_path glob_pattern true) in
           let matches := search_in_files fs pattern files [] in
           ret [("pattern", VStr pattern);
                ("matches", VList matches);
                ("total", VInt (PyStr.len matches))]
     end)
    (fun e => ret [("error", VStr ("Search failed: " +:+ e))]).

Definition dangerous : list string := ["rm -rf /"; "mkfs"; "> /dev/"; "dd if="].

(** [RalphToolkit._tool_run_command] *)
Definition _tool_run_command (args : dict) : M dict :=
  let* _ := check_keywords "_tool_run_command" ["command"; "timeout"] args in
  let* command_v := required "_tool_run_command" "command" args in
  let timeout_v := optional "timeout" (VInt 60) args in
  if negb (allow_shell self)
  then ret [("error", VStr "Shell commands are disabled")]
  else
    let* timeout := as_int timeout_v in
    let timeout := Z.min timeout 300 in
    let* command := as_str command_v in
    match List.find (fun d => PyStr.contains d command) dangerous with
    | Some d => ret [("error", VStr ("Dangerous command blocked: " +:+ d))]
    | None => _run_shell_command command timeout
    end.

(** [RalphToolkit._tool_git_status] *)
Definition _tool_git_status (args : dict) : M dict :=
  let* _ := check_keywords "_tool_git_status" [] args in
  _run_shell_command "git status --porcelain && git status -sb" 60.

(** [RalphToolkit._tool_git_diff] *)
Definition _tool_git_diff (args : dict) : M dict :=
  let* _ := check_keywords "_tool_git_diff" ["path"; "staged"] args in
  let* path := as_opt_str (optional "path" VNone args) in
  let staged := value_truthy (optional "staged" (VBool false) args) in
  let cmd := "git diff" +:+ (if staged then " --staged" else EmptyString) in
  let cmd := match path with
             | Some p => if String.eqb p EmptyString then cmd
                         else cmd +:+ " -- " +:+ p
             | None => cmd
             end in
  _run_shell_command cmd 60.

(** [RalphToolkit._tool_git_commit] *)
Definition _tool_git_commit (args : dict) : M dict :=
  let* _ := check_keywords "_tool_git_commit" ["message"; "add_all"] args in
  let* message_v := required "_tool_git_commit" "message" args in
  let add_all := value_truthy (optional "add_all" (VBool false) args) in
  let commit :=
    let* message := as_str message_v in
    let safe_message := PyStr.replace "'" "'\''" true message in
    _run_shell_command ("git commit -m '" +:+ safe_message +:+ "'") 60 in
  if add_all then
    let* add_result := _run_shell_command "git add -A" 60 in
    match dict_get "success" add_result with
    | Some (VBool false) =>
        let stderr := match dict_get "stderr" add_result with
                      | Some (VStr e) => e
                      | _ => EmptyString
                      end in
        ret [("error", VStr ("Git add failed: " +:+ stderr))]
    | _ => commit
    end
  else commit.

(** [RalphToolkit._tool_create_directory] *)
Definition _tool_create_directory (args : dict) : M dict :=
  let* _ := check_keywords "_tool_create_directory" ["path"] args in
  let* path_v := required "_tool_create_directory" "path" args in
  let* path := as_str path_v in
  let* full_path := _resolve_path path in
  try_except
    (let* _ := fs_op (fun fs => mkdir_p fs full_path) in
     ret [("success", VBool true); ("path", VStr path)])
    (fun e => ret [("error", VStr ("Failed to create directory: " +:+ e))]).

(** [RalphToolkit._tool_delete_file]; a path that is neither a file nor
    a directory falls off the end of the method, which returns [None]. *)
Definition _tool_delete_file (args : dict) : M (option dict) :=
  let* _ := check_keywords "_tool_delete_file" ["path"] args in
  let* path_v := required "_tool_delete_file" "path" args in
  let* path := as_str path_v in
  let* full_path := _resolve_path path in
  let* fs := get_fs in
  if negb (fs_exists fs full_path)
  then ret (Some [("error", VStr ("Path not found: " +:+ path))])
  else
    try_except
      (if fs_is_file fs full_path then
         let* _ := fs_op (fun fs => unlink fs full_path) in
         let* _ := record_change
           {| path := path; action := "delete"; content_preview := None;
              lines_added := 0; lines_removed := 0 |} in
         ret (Some [("success", VBool true); ("path", VStr path);
                    ("type", VStr "file")])
       else if fs_is_dir fs full_path then
         let* _ := fs_op (fun fs => rmdir fs full_path) in
         ret (Some [("success", VBool true); ("path", VStr path);
                    ("type", VStr "directory")])
       else ret None)
      (fun e => ret (Some [("error", VStr ("Failed to delete: " +:+ e))])).

(** [RalphToolkit._tool_complete_task] *)
Definition _tool_complete_task (args : dict) : M dict :=
  let* _ := check_keywords "_tool_complete_task" ["summary"] args in
  let* summary := required "_tool_complete_task" "summary" args in
  ret [("signal", VStr "COMPLETE");
       ("summary", summary);
       ("completion_promise", VStr "<promise>COMPLETE</promise>")].

(** [RalphToolkit.get_file_changes]: hands the buffer over and empties it. *)
Definition get_file_changes : M (list FileChange) :=
  fun s => (Return (st_file_changes s),
            {| st_fs := st_fs s; st_file_changes := [];
               st_killed := st_killed s; st_clock := st_clock s |}).

Definition some_dict (m : M dict) : M (option dict) :=
  let* d := m in ret (Some d).

(** [getattr(self, f"_tool_{tool_name}", None)] *)
Definition lookup_method (tool_name : string)
    : option (dict -> M (option dict)) :=
  if String.eqb tool_name "read_file" then Some (fun a => some_dict (_tool_read_file a))
  else if String.eqb tool_name "write_file" then Some (fun a => some_dict (_tool_write_file a))
  else if String.eqb tool_name "edit_file" then Some (fun a => some_dict (_tool_edit_file a))
  else if String.eqb tool_name "list_files" then Some (fun a => some_dict (_tool_list_files a))
  else if String.eqb tool_name "search_files" then Some (fun a => some_dict (_tool_search_files a))
  else if String.eqb tool_name "run_command" then Some (fun a => some_dict (_tool_run_command a))
  else if String.eqb tool_name "git_status" then Some (fun a => some_dict (_tool_git_status a))
  else if String.eqb tool_name "git_diff" then Some (fun a => some_dict (_tool_git_diff a))
  else if String.eqb tool_name "git_commit" then Some (fun a => some_dict (_tool_git_commit a))
  else if String.eqb tool_name "create_directory" then Some (fun a => some_dict (_tool_create_directory a))
  else if String.eqb tool_name "delete_file" then Some _tool_delete_file
  else if String.eqb tool_name "complete_task" then Some (fun a => some_dict (_tool_complete_task a))
  else None.

(** [RalphToolkit.execute_tool] *)
Definition execute_tool (tool_name : string) (arguments : dict) : M ToolCall :=
  let* start_time := time w in
  let* outcome :=
    try_except
      (match lookup_method tool_name with
       | None => ret (None, Some ("Unknown tool: " +:+ tool_name))
       | Some method =>
           let* result := method arguments in
           ret (result, None)
       end)
      (fun e => ret (None, Some e)) in
  let* end_time := time w in
  ret {| tool_name := tool_name;
         arguments := arguments;
         result := fst outcome;
         error := snd outcome;
         duration_ms := end_time - start_time |}.

End Toolkit.

(** [RalphToolkit(working_directory, allow_shell_commands, command_timeout)]
    in a process whose current directory is [cwd]; [None] when resolving
    the directory raises. *)
Definition new_toolkit (fs : FS) (cwd : list string) (working_directory : string)
    (allow_shell_commands : bool) (timeout : Z) : option Toolkit :=
  match resolve fs cwd working_directory with
  | Some wd => Some {| working_dir := wd;
                       allow_shell := allow_shell_commands;
                       command_timeout := timeout |}
  | None => None
  end.

End Tools.

(* ===================================================================== *)
(** ** [completion.py]: the completion detector                           *)
(* ===================================================================== *)

Module Completion.
Import Models.

Record CompletionDetector : Type := mkDetector {
  cd_completion_promise : string;
  completion_patterns : list Re.pattern
}.

(** [CompletionDetector(completion_promise)] *)
Definition new_detector (completion_promise : string) : CompletionDetector :=
  {| cd_completion_promise := completion_promise;
     completion_patterns :=
       [ Re.lit "<promise>COMPLETE</promise>";
         (Re.lit "TASK" ++ [Re.OptClass Re.underscore_or_space] ++ Re.lit "COMPLETE")%list;
         (Re.lit "LOOP" ++ [Re.OptClass Re.underscore_or_space] ++ Re.lit "COMPLETE")%list;
         (Re.lit "DONE" ++ [Re.OptClass Re.underscore_or_space] ++ Re.lit "COMPLETE")%list;
         Re.lit "[COMPLETE]";
         Re.lit "[DONE]" ] |}.

(** The dictionary [{"found": .., "match": ..}]. *)
Record PromiseCheck : Type := mkPromiseCheck {
  found : bool;
  matched : option string
}.

Fixpoint first_match (patterns : list Re.pattern) (response : string)
    : option string :=
  match patterns with
  | [] => None
  | p :: rest =>
      match Re.search p response with
      | Some m => Some m
      | None => first_match rest response
      end
  end.

(** [CompletionDetector._check_completion_promise] *)
Definition _check_completion_promise (self : CompletionDetector)
    (response : string) (custom_promise : option string) : PromiseCheck :=
  let custom_hit :=
    match custom_promise with
    | Some custom => (PyStr.truthy custom_promise && PyStr.contains custom response)%bool
    | None => false
    end in
  if custom_hit then {| found := true; matched := custom_promise |}
  else if PyStr.contains (cd_completion_promise self) response
  then {| found := true; matched := Some (cd_completion_promise self) |}
  else match first_match (completion_patterns self) response with
       | Some m => {| found := true; matched := Some m |}
       | None => {| found := false; matched := None |}
       end.

(** The dictionary [_check_backpressure] returns; [details] maps a check
    type to (passed, error count, warning count). *)
Record BackpressureCheck : Type := mkBackpressureCheck {
  all_passed : bool;
  bp_no_errors : bool;
  details : gmap string (bool * Z * Z)
}.

(** [CompletionDetector._check_backpressure] *)
Definition _check_backpressure (results : list BackpressureResult)
    : BackpressureCheck :=
  match results with
  | [] => {| all_passed := true; bp_no_errors := true; details := ∅ |}
  | _ =>
      {| all_passed := forallb passed results;
         bp_no_errors := forallb (fun r => PyStr.len (errors r) =? 0) results;
         details :=
           fold_left
             (fun d r => <[check_type r :=
                             (passed r, PyStr.len (errors r), PyStr.len (warnings r))]> d)
             results ∅ |}
  end.

(** [CompletionDetector._check_for_errors], its ["has_critical_error"]
    entry: the iteration's own error or the error of a tool call. The
    other entry, the list ["errors_found"] (which is where the regular
    expressions over the response end up), is read by no caller. *)
Definition _check_for_errors (iteration : RalphIteration) : bool :=
  let critical_error := PyStr.truthy (it_error iteration) in
  fold_left
    (fun critical tc => if PyStr.truthy (error tc) then true else critical)
    (tool_calls iteration) critical_error.

Definition completion_phrases : list string :=
  [ "task is complete"; "completed successfully"; "all done";
    "finished implementing"; "implementation complete";
    "changes have been made"; "everything is working"; "tests pass";
    "all tests pass" ].

Definition verification_phrases : list string :=
  [ "please review"; "ready for review"; "let me know if"; "should i";
    "would you like" ].

Definition no_change_phrases : list string :=
  [ "no changes needed"; "no further changes"; "nothing left to do";
    "all requirements met" ].

(** One of the three [for phrase in ...] loops: every phrase found in the
    response adds [weight] and an indicator line. *)
Definition score_phrases (phrases : list string) (response : string)
    (weight : float) (label : string) (acc : float * list string)
    : float * list string :=
  fold_left
    (fun acc phrase =>
       if PyStr.contains phrase response
       then ((fst acc + weight)%float,
             (snd acc ++ [label +:+ "'" +:+ phrase +:+ "'"])%list)
       else acc)
    phrases acc.

(** [min(a, b)] on floats: [b] only when [b < a]. *)
Definition py_min (a b : float) : float :=
  if (b <? a)%float then b else a.

Record ProgressCheck : Type := mkProgressCheck {
  appears_complete : bool;
  pc_confidence : float;
  indicators : list string
}.

(** [task.iterations[-2]] *)
Definition second_to_last (its : list RalphIteration) : option RalphIteration :=
  its !! (length its - 2)%nat.

(** [CompletionDetector._analyze_progress] *)
Definition _analyze_progress (task : RalphTask)
    (current_iteration : RalphIteration) : ProgressCheck :=
  let response := PyStr.lower (agent_response current_iteration) in
  let acc := (0%float, @nil string) in
  let acc := score_phrases completion_phrases response 0.15%float "Found: " acc in
  let acc := score_phrases verification_phrases response 0.1%float
               "Verification phrase: " acc in
  let acc := score_phrases no_change_phrases response 0.2%float "No changes: " acc in
  let acc :=
    match tool_calls current_iteration with
    | [] => acc
    | tcs =>
        let read_only :=
          forallb (fun tc =>
                     (PyStr.contains "read" (PyStr.lower (tool_name tc))
                      || PyStr.contains "get" (PyStr.lower (tool_name tc)))%bool)
                  tcs in
        if read_only
        then ((fst acc + 0.1)%float,
              (snd acc ++ ["Read-only operations (verification)"])%list)
        else acc
    end in
  let acc :=
    if 2 <=? PyStr.len (iterations task) then
      match second_to_last (iterations task) with
      | Some prev =>
          if PyStr.len (file_changes current_iteration) <? PyStr.len (file_changes prev)
          then ((fst acc + 0.05)%float,
                (snd acc ++ ["Decreasing file changes"])%list)
          else acc
      | None => acc
      end
    else acc in
  let confidence := py_min (fst acc) 0.7%float in
  {| appears_complete :=
       ((0.5 <=? confidence)%float
        && negb (PyStr.truthy (it_error current_iteration))
        && forallb passed (backpressure_results current_iteration))%bool;
     pc_confidence := confidence;
     indicators := snd acc |}.

(** [CompletionDetector.check_completion] *)
Definition check_completion (self : CompletionDetector) (task : RalphTask)
    (current_iteration : RalphIteration) : CompletionResult :=
  let promise_check :=
    _check_completion_promise self (agent_response current_iteration)
      (Some (completion_promise (config task))) in
  if found promise_check then
    {| is_complete := true;
       reason := "Completion promise detected: "
                 +:+ default "None" (matched promise_check);
       confidence := 1.0%float;
       promise_detected := true;
       all_tests_passed := false;
       no_errors := true |}
  else
    let bp_check := _check_backpressure (backpressure_results current_iteration) in
    let all_tests_passed := all_passed bp_check in
    let no_errors :=
      if _check_for_errors current_iteration then false
      else bp_no_errors bp_check in
    let progress_check := _analyze_progress task current_iteration in
    if (all_tests_passed && no_errors && appears_complete progress_check)%bool then
      {| is_complete := true;
         reason := "All tests passed, no errors, task appears complete";
         confidence := pc_confidence progress_check;
         promise_detected := false;
         all_tests_passed := all_tests_passed;
         no_errors := no_errors |}
    else if negb no_errors then
      {| is_complete := false;
         reason := "Errors detected in iteration";
         confidence := 0.0%float;
         promise_detected := false;
         all_tests_passed := all_tests_passed;
         no_errors := no_errors |}
    else
      {| is_complete := false;
         reason := "Task still in progress";
         confidence := pc_confidence progress_check;
         promise_detected := false;
         all_tests_passed := all_tests_passed;
         no_errors := no_errors |}.

(** [seq[-n:]] *)
Definition last_n {A} (n : nat) (l : list A) : list A :=
  drop (length l - n)%nat l.

(** [CompletionDetector.should_stop] *)
Definition should_stop (self : CompletionDetector) (task : RalphTask)
    (completion_result : CompletionResult) : bool * string :=
  if is_complete completion_result then (true, reason completion_result)
  else if max_iterations (config task) <=? current_iteration task then
    (true, "Max iterations (" +:+ pretty (max_iterations (config task))
           +:+ ") reached")
  else if ((5 <=? PyStr.len (iterations task))
           && (4 <=? PyStr.len (filter (fun i => is_Some (it_error i))
                                       (last_n 5 (iterations task)))))%bool then
    (true, "Too many consecutive errors")
  else if ((3 <=? PyStr.len (iterations task))
           && (PyStr.len (remove_dups
                            (map (fun i => PyStr.take 500 (agent_response i))
                                 (last_n 3 (iterations task)))) =? 1))%bool then
    (true, "Agent appears stuck (identical responses)")
  else (false, EmptyString).

End Completion.

(* ===================================================================== *)
(** ** [loop_agent.py]: the loop agent                                    *)
(* ===================================================================== *)

Module Loop.
Import Models Tools Completion.

(** A content block of a reply of the language model. *)
Inductive Block : Type :=
| TextBlock (text : string)
| ToolUseBlock (block_id name : string) (input : dict)
| OtherBlock.

Record Reply : Type := mkReply {
  content : list Block;
  stop_reason : string
}.

(** What the loop meets outside itself. Iterations are counted from 0 in
    the order the loop runs them, requests to the model from 0 within an
    iteration. *)
Record LoopWorld : Type := mkLoopWorld {
  tool_world : World;
  (** the process's current directory *)
  cwd : list string;
  (** [task.id in self._cancelled] when the loop head is reached for the
      k-th time *)
  cancel_requested : nat -> bool;
  (** [build_context] and [_build_iteration_prompt] of iteration k: the
      prompt, or the text of the exception raised *)
  build_prompt : nat -> string + string;
  (** [messages.create] for request r of iteration k: the reply, or the
      text of the exception raised *)
  llm : nat -> nat -> Reply + string;
  (** [os.stat] on [Path(working_dir) / name] refused by the operating
      system for a reason the files do not show (a name too long, a
      directory that may not be searched): the text of the [OSError],
      which is none of [ENOENT], [ENOTDIR], [EBADF] and [ELOOP] *)
  stat_fails : FS -> string -> string -> option string
}.

(** [f"{v}"] for the values a summary can be. *)
Definition format_value (v : value) : string :=
  match v with
  | VStr s => s
  | VInt n => pretty n
  | VBool true => "True"
  | VBool false => "False"
  | VNone => "None"
  | VList _ => "[...]"
  | VDict _ => "{...}"
  end.

Section Agent.
Variable lw : LoopWorld.
Variable toolkit : Toolkit.

(** What [_call_claude] accumulates: [full_response], [reasoning],
    [tool_calls]. *)
Record Turn : Type := mkTurn {
  full_response : string;
  turn_reasoning : string;
  turn_tool_calls : list ToolCall
}.

(** The [for block in response.content] loop; the flag is
    [has_tool_use]. *)
Fixpoint process_blocks (blocks : list Block) (acc : Turn) (has_tool_use : bool)
    : M (Turn * bool) :=
  match blocks with
  | [] => ret (acc, has_tool_use)
  | TextBlock text :: rest =>
      let acc' :=
        {| full_response := full_response acc +:+ text +:+ nl;
           turn_reasoning :=
             if PyStr.contains "reasoning:" (PyStr.lower text) then text
             else turn_reasoning acc;
           turn_tool_calls := turn_tool_calls acc |} in
      process_blocks rest acc' has_tool_use
  | ToolUseBlock _ name input :: rest =>
      let* tool_call := execute_tool (tool_world lw) toolkit name input in
      let acc' :=
        {| full_response :=
             if String.eqb name "complete_task"
             then full_response acc +:+ nl +:+ "<promise>COMPLETE</promise>"
                  +:+ nl +:+ "Summary: "
                  +:+ format_value (optional "summary" (VStr EmptyString) input)
             else full_response acc;
           turn_reasoning := turn_reasoning acc;
           turn_tool_calls := (turn_tool_calls acc ++ [tool_call])%list |} in
      process_blocks rest acc' true
  | OtherBlock :: rest => process_blocks rest acc has_tool_use
  end.

(** The [for _ in range(max_tool_rounds)] loop of [_call_claude] in
    iteration [k], from request [r] on, [rounds] requests being left. *)
Fixpoint tool_rounds (rounds : nat) (k r : nat) (acc : Turn) : M Turn :=
  match rounds with
  | O => ret acc
  | S rounds' =>
      let* response := of_sum (llm lw k r) in
      let* processed := process_blocks (content response) acc false in
      let '(acc', has_tool_use) := processed in
      if negb has_tool_use then ret acc'
      else if String.eqb (stop_reason response) "end_turn" then ret acc'
      else tool_rounds rounds' k (S r) acc'
  end.

Definition max_tool_rounds : nat := 10.

(** [RalphLoopAgent._call_claude] *)
Definition _call_claude (k : nat) : M Turn :=
  let* turn := tool_rounds max_tool_rounds k 0
                 {| full_response := EmptyString;
                    turn_reasoning := EmptyString;
                    turn_tool_calls := [] |} in
  ret {| full_response := PyStr.strip (full_response turn);
         turn_reasoning := turn_reasoning turn;
         turn_tool_calls := turn_tool_calls turn |}.

Definition error_patterns : list string :=
  [ "error[:\s]"; "Error[:\s]"; "ERROR[:\s]"; "failed"; "FAILED"; "✗"; "✖" ].

(** The inner [for pattern in error_patterns] loop for one line; the
    flag says that the limit of 20 was reached (the [return]). *)
Fixpoint scan_patterns (patterns : list string) (line : string)
    (errors : list string) : list string * bool :=
  match patterns with
  | [] => (errors, false)
  | pattern :: rest =>
      if (PyStr.contains pattern line
          || ((3 <? str_len pattern)
              && PyStr.contains (PyStr.lower pattern) (PyStr.lower line)))%bool
      then
        let error := PyStr.take 200 (PyStr.strip line) in
        if (negb (String.eqb error EmptyString)
            && negb (existsb (String.eqb error) errors))%bool
        then
          let errors' := (errors ++ [error])%list in
          if 20 <=? PyStr.len errors' then (errors', true)
          else scan_patterns rest line errors'
        else scan_patterns rest line errors
      else scan_patterns rest line errors
  end.

Fixpoint scan_error_lines (lines : list string) (errors : list string)
    : list string :=
  match lines with
  | [] => errors
  | line :: rest =>
      let '(errors', full) := scan_patterns error_patterns line errors in
      if full then errors' else scan_error_lines rest errors'
  end.

(** [RalphLoopAgent._extract_errors] *)
Definition _extract_errors (output check_type : string) : list string :=
  scan_error_lines (PyStr.split PyStr.LF output) [].

Fixpoint scan_warning_lines (lines : list string) (warnings : list string)
    : list string :=
  match lines with
  | [] => warnings
  | line :: rest =>
      if (PyStr.contains "warning" (PyStr.lower line)
          || PyStr.contains "warn" (PyStr.lower line))%bool
      then
        let warning := PyStr.take 200 (PyStr.strip line) in
        if (negb (String.eqb warning EmptyString)
            && negb (existsb (String.eqb warning) warnings))%bool
        then
          let warnings' := (warnings ++ [warning])%list in
          if 10 <=? PyStr.len warnings' then warnings'
          else scan_warning_lines rest warnings'
        else scan_warning_lines rest warnings
      else scan_warning_lines rest warnings
  end.

(** [RalphLoopAgent._extract_warnings] *)
Definition _extract_warnings (output : string) : list string :=
  scan_warning_lines (PyStr.split PyStr.LF output) [].

Definition get_str (key : string) (d : dict) : string :=
  match dict_get key d with
  | Some (VStr s) => s
  | _ => EmptyString
  end.

(** [RalphLoopAgent._run_check]; [_run_shell_command] reports every
    failure in its result, so the [except] branch is never entered. *)
Definition _run_check (check_type command : string) : M BackpressureResult :=
  let* start_time := time (tool_world lw) in
  let* result := _run_shell_command (tool_world lw) toolkit command 120 in
  let passed :=
    (match dict_get "success" result with
     | Some v => value_truthy v
     | None => false
     end
     || match dict_get "exit_code" result with
        | Some (VInt n) => n =? 0
        | Some _ => false
        | None => false
        end)%bool in
  let output := get_str "stdout" result +:+ get_str "stderr" result in
  let errors := _extract_errors output check_type in
  let warnings := _extract_warnings output in
  let* end_time := time (tool_world lw) in
  ret {| check_type := check_type;
         passed := passed;
         output := PyStr.take 5000 output;
         errors := errors;
         warnings := warnings;
         bp_duration_ms := end_time - start_time |}.

(** Whether [Path(working_dir) / name] leads to a file or a directory.
    [Path] drops empty and ["."] components of [working_dir] and keeps
    [".."]; a relative path is read from the current directory. *)
Definition exists_at (fs : FS) (working_dir name : string) : bool :=
  match stat fs (if is_absolute working_dir then [] else cwd lw)
          (filter (fun c => skipped c = false) (components working_dir) ++ [name])%list with
  | Some (File _) | Some Dir => true
  | _ => false
  end.

(** [(Path(working_dir) / name).exists()]: false for a path that is not
    there, that runs through a file or a link loop, or that holds a
    null character; any other failure of [os.stat] is raised. *)
Definition present (working_dir name : string) : M bool :=
  let* fs := get_fs in
  if PyStr.contains NUL working_dir then ret false
  else match stat_fails lw fs working_dir name with
       | Some e => raise e
       | None => ret (exists_at fs working_dir name)
       end.

(** [a or b] on two tests of which the second is only made when the first
    fails. *)
Definition either (a b : M bool) : M bool :=
  let* found := a in
  if found then ret true else b.

(** [RalphLoopAgent._detect_test_command] *)
Definition _detect_test_command (wd : string) : M (option string) :=
  let* python := either (present wd "pytest.ini") (present wd "pyproject.toml") in
  if python then ret (Some "pytest -v") else
  let* setup := present wd "setup.py" in
  if setup then ret (Some "python -m pytest") else
  let* node := present wd "package.json" in
  if node then ret (Some "npm test") else
  let* go := present wd "go.mod" in
  if go then ret (Some "go test ./...") else
  let* rust := present wd "Cargo.toml" in
  if rust then ret (Some "cargo test") else
  ret None.

(** [RalphLoopAgent._detect_lint_command] *)
Definition _detect_lint_command (wd : string) : M (option string) :=
  let* python := either (present wd "pyproject.toml") (present wd ".flake8") in
  if python then ret (Some "ruff check . || flake8 .") else
  let* node := present wd "package.json" in
  if node then ret (Some "npm run lint 2>/dev/null || eslint .") else
  let* go := present wd "go.mod" in
  if go then ret (Some "golangci-lint run 2>/dev/null || go vet ./...") else
  ret None.

(** [RalphLoopAgent._detect_typecheck_command] *)
Definition _detect_typecheck_command (wd : string) : M (option string) :=
  let* python := present wd "pyproject.toml" in
  if python then ret (Some "mypy . 2>/dev/null || true") else
  let* typescript := present wd "tsconfig.json" in
  if typescript then ret (Some "tsc --noEmit") else
  ret None.

(** [RalphLoopAgent._detect_build_command] *)
Definition _detect_build_command (wd : string) : M (option string) :=
  let* node := present wd "package.json" in
  if node then ret (Some "npm run build") else
  let* go := present wd "go.mod" in
  if go then ret (Some "go build ./...") else
  let* rust := present wd "Cargo.toml" in
  if rust then ret (Some "cargo build") else
  ret None.

(** [configured or detect(working_directory)] *)
Definition resolve_command (configured : option string)
    (detect : string -> M (option string)) (wd : string) : M (option string) :=
  if PyStr.truthy configured then ret configured
  else detect wd.

(** One of the four stanzas of [_run_backpressure]. *)
Definition run_if (enabled : bool) (check_type : string)
    (configured : option string) (detect : string -> M (option string))
    (wd : string) (results : list BackpressureResult)
    : M (list BackpressureResult) :=
  if enabled then
    let* cmd := resolve_command configured detect wd in
    if PyStr.truthy cmd then
      let* result := _run_check check_type (default EmptyString cmd) in
      ret (results ++ [result])%list
    else ret results
  else ret results.

(** [RalphLoopAgent._run_backpressure] *)
Definition _run_backpressure (task : RalphTask) : M (list BackpressureResult) :=
  let c := config task in
  let wd := working_directory c in
  let* results := run_if (run_tests c) "test" (test_command c)
                    _detect_test_command wd [] in
  let* results := run_if (run_lint c) "lint" (lint_command c)
                    _detect_lint_command wd results in
  let* results := run_if (run_typecheck c) "typecheck" (typecheck_command c)
                    _detect_typecheck_command wd results in
  run_if (run_build c) "build" (build_command c)
    _detect_build_command wd results.

(** The [except] branch of [_run_iteration]. *)
Definition iteration_failed (e : string) (it : RalphIteration) : RalphIteration :=
  iteration_complete IterationStatus.FAILED
    {| iteration_number := iteration_number it;
       it_status := it_status it;
       prompt_sent := prompt_sent it;
       agent_response := agent_response it;
       reasoning := reasoning it;
       tool_calls := tool_calls it;
       file_changes := file_changes it;
       git_commits := git_commits it;
       backpressure_results := backpressure_results it;
       completion_promise_found := completion_promise_found it;
       completion_message := completion_message it;
       it_error := Some e |}.

(** [RalphLoopAgent._run_iteration], iteration [k] of the run. Building
    the prompt, the turn with the model and the backpressure checks can
    raise, and the iteration then carries what was assigned before: the
    one [try] of the method is written with one handler for each. *)
Definition _run_iteration (task : RalphTask) (completion_detector : CompletionDetector)
    (k : nat) : M RalphIteration :=
  let iteration := new_iteration (current_iteration task + 1) in
  match build_prompt lw k with
  | inr e => ret (iteration_failed e iteration)
  | inl prompt =>
      try_except
        (let* response := _call_claude k in
         let* changes := get_file_changes in
         let promise_check :=
           _check_completion_promise completion_detector
             (full_response response)
             (Some (completion_promise (config task))) in
         let assigned (backpressure : list BackpressureResult) :=
           {| iteration_number := current_iteration task + 1;
              it_status := IterationStatus.RUNNING;
              prompt_sent := prompt;
              agent_response := full_response response;
              reasoning := turn_reasoning response;
              tool_calls := turn_tool_calls response;
              file_changes := changes;
              git_commits := [];
              backpressure_results := backpressure;
              completion_promise_found := found promise_check;
              completion_message :=
                if found promise_check then matched promise_check else None;
              it_error := None |} in
         try_except
           (let* backpressure :=
              if (run_tests (config task) || run_lint (config task)
                  || run_typecheck (config task))%bool
              then _run_backpressure task
              else ret [] in
            ret (iteration_complete IterationStatus.COMPLETED (assigned backpressure)))
           (fun e => ret (iteration_failed e (assigned []))))
        (fun e =>
           ret (iteration_failed e
                  {| iteration_number := current_iteration task + 1;
                     it_status := IterationStatus.RUNNING;
                     prompt_sent := prompt;
                     agent_response := EmptyString;
                     reasoning := EmptyString;
                     tool_calls := [];
                     file_changes := [];
                     git_commits := [];
                     backpressure_results := [];
                     completion_promise_found := false;
                     completion_message := None;
                     it_error := None |}))
  end.

(** The body of the main loop from [task.add_iteration] to the [break]:
    the task afterwards, and whether the loop is left. *)
Definition after_iteration (completion_detector : CompletionDetector)
    (task : RalphTask) (iteration : RalphIteration) : RalphTask * bool :=
  let task := add_iteration iteration task in
  let completion_result := check_completion completion_detector task iteration in
  let '(stop, stop_reason) := should_stop completion_detector task completion_result in
  if stop then
    if is_complete completion_result
    then (complete completion_result (agent_response iteration) task, true)
    else (fail stop_reason task, true)
  else (task, false).

(** The [while True] loop of [run_task], entered for the [k]-th time;
    [None] only when [fuel] passes through the loop head do not reach a
    [break]. *)
Fixpoint main_loop (fuel : nat) (completion_detector : CompletionDetector)
    (k : nat) (task : RalphTask) (s : State) : option (RalphTask * State) :=
  match fuel with
  | O => None
  | S fuel' =>
      if cancel_requested lw k then Some (cancel task, s)
      else if max_iterations (config task) <=? current_iteration task
      then Some (timeout task, s)
      else
        match _run_iteration task completion_detector k s with
        | (Return iteration, s') =>
            let '(task', stopped) :=
              after_iteration completion_detector task iteration in
            if stopped then Some (task', s')
            else main_loop fuel' completion_detector (S k) task' s'
        | (Raise e, s') => Some (fail e task, s')
        end
  end.

End Agent.

Inductive RunResult : Type :=
| Finished (task : RalphTask) (s : State)
| Propagated (msg : string)   (* an exception leaves [run_task] *)
| OutOfFuel.

(** Passes through the loop head that are always enough: every pass that
    does not leave the loop adds an iteration, and the loop is left once
    there are [max_iterations] of them. *)
Definition enough_fuel (task : RalphTask) : nat :=
  S (Z.to_nat (max_iterations (config task) - PyStr.len (iterations task))).

(** [RalphLoopAgent.run_task] on the files and clock of [s]. The toolkit
    is built before the [try], so a failure to resolve the working
    directory leaves the method as an exception. *)
Definition run_task (lw : LoopWorld) (task : RalphTask) (s : State) : RunResult :=
  match new_toolkit (st_fs s) (cwd lw) (working_directory (config task)) true
          (iteration_timeout_seconds (config task)) with
  | None => Propagated (resolve_error (working_directory (config task)))
  | Some toolkit =>
      let completion_detector := new_detector (completion_promise (config task)) in
      match main_loop lw toolkit (enough_fuel task) completion_detector 0
              (start task) s with
      | Some (task', s') => Finished task' s'
      | None => OutOfFuel
      end
  end.

End Loop.

(* ===================================================================== *)
(** ** [models.py]: the summary of a task                                 *)
(* ===================================================================== *)

Module Summary.
Import Models.

(** The dictionary [get_summary] returns, without ["duration_seconds"]
    (the wall clock of the task is not part of the model). *)
Record TaskSummary : Type := mkTaskSummary {
  sm_id : nat;
  sm_status : string;
  prompt_preview : string;
  iterations_completed : Z;
  sm_max_iterations : Z;
  sm_total_tool_calls : Z;
  sm_total_file_changes : Z;
  sm_is_complete : bool;
  sm_error : option string
}.

(** [RalphTask.get_summary] *)
Definition get_summary (t : RalphTask) : TaskSummary :=
  {| sm_id := id t;
     sm_status := TaskStatus.value (status t);
     prompt_preview :=
       if 100 <? Z.of_nat (String.length (prompt t))
       then PyStr.take 100 (prompt t) +:+ "..."
       else prompt t;
     iterations_completed := current_iteration t;
     sm_max_iterations := max_iterations (config t);
     sm_total_tool_calls := total_tool_calls t;
     sm_total_file_changes := total_file_changes t;
     sm_is_complete :=
       match completion_result t with
       | Some cr => is_complete cr
       | None => false
       end;
     sm_error := task_error t |}.

End Summary.

(* ===================================================================== *)
(** ** [api/ralph.py]: creating a task                                    *)
(* ===================================================================== *)

Module Api.

(** The request body of [POST /tasks]; [user_id] and [organization_id],
    which only label the task, are left out. *)
Record CreateTaskRequest : Type := mkCreateTaskRequest {
  prompt : string;
  description : string;
  completion_promise : option string;
  max_iterations : option Z;
  working_directory : option string;
  run_tests : bool;
  test_command : option string;
  run_lint : bool;
  lint_command : option string;
  run_typecheck : bool;
  typecheck_command : option string;
  model : option string
}.

(** The constraints of the fields: [min_length=10] on the prompt, [ge=1]
    and [le=1000] on [max_iterations]. A request that breaks them does not
    reach [create_task]. *)
Definition validates (request : CreateTaskRequest) : bool :=
  ((10 <=? Z.of_nat (String.length (prompt request)))
   && match max_iterations request with
      | Some n => (1 <=? n) && (n <=? 1000)
      | None => true
      end)%bool.

(** [if request.field: config.field = request.field] for a text. *)
Definition override (requested : option string) (current : string) : string :=
  match requested with
  | Some v => if PyStr.truthy requested then v else current
  | None => current
  end.

(** The same for an optional command. *)
Definition override_command (requested current : option string) : option string :=
  if PyStr.truthy requested then requested else current.

(** The configuration [create_task] builds from the request. *)
Definition build_config (request : CreateTaskRequest) : Models.RalphTaskConfig :=
  let config := Models.default_config in
  {| Models.completion_promise :=
       override (completion_promise request) (Models.completion_promise config);
     Models.max_iterations :=
       match max_iterations request with
       | Some n => if n =? 0 then Models.max_iterations config else n
       | None => Models.max_iterations config
       end;
     Models.iteration_timeout_seconds := Models.iteration_timeout_seconds config;
     Models.run_tests := run_tests request;
     Models.run_lint := run_lint request;
     Models.run_typecheck := run_typecheck request;
     Models.run_build := Models.run_build config;
     Models.test_command :=
       override_command (test_command request) (Models.test_command config);
     Models.lint_command :=
       override_command (lint_command request) (Models.lint_command config);
     Models.typecheck_command :=
       override_command (typecheck_command request) (Models.typecheck_command config);
     Models.build_command := Models.build_command config;
     Models.include_git_history := Models.include_git_history config;
     Models.include_file_contents := Models.include_file_contents config;
     Models.max_context_files := Models.max_context_files config;
     Models.working_directory :=
       override (working_directory request) (Models.working_directory config);
     Models.model := override (model request) (Models.model config);
     Models.max_tokens := Models.max_tokens config;
     Models.temperature := Models.temperature config |}.

(** The task [create_task] builds and submits to the runner, which runs
    [run_task] on it; [i] is the identifier drawn for it. *)
Definition create_task (request : CreateTaskRequest) (i : nat) : Models.RalphTask :=
  {| Models.id := i;
     Models.prompt := prompt request;
     Models.description := description request;
     Models.config := build_config request;
     Models.status := TaskStatus.PENDING;
     Models.current_iteration := 0;
     Models.iterations := [];
     Models.completion_result := None;
     Models.final_output := None;
     Models.task_error := None;
     Models.total_tool_calls := 0;
     Models.total_file_changes := 0 |}.

End Api.

(* ===================================================================== *)
(** ** The vocabulary of the properties                                   *)
(* ===================================================================== *)

Import Models Tools Completion Loop.

(** *** Bookkeeping of a task *)

(** Sum over the recorded iterations of the length of one of their lists. *)
Definition sum_len {A} (f : RalphIteration -> list A) (its : list RalphIteration) : Z :=
  fold_right (fun it acc => PyStr.len (f it) + acc) 0 its.

(** Every iteration's number is its 1-based position. *)
Definition numbered (its : list RalphIteration) : Prop :=
  forall (i : nat) (it : RalphIteration),
    its !! i = Some it -> iteration_number it = Z.of_nat i + 1.

(** The counter, the numbering and the two totals agree with the list. *)
Definition consistent (t : RalphTask) : Prop :=
  current_iteration t = PyStr.len (iterations t)
  /\ numbered (iterations t)
  /\ total_tool_calls t = sum_len tool_calls (iterations t)
  /\ total_file_changes t = sum_len file_changes (iterations t).

(** The tasks [add_iteration] is called on and yields in a run of the loop:
    the task [run_task] was given, started, and from a task the loop holds,
    that task with the iteration [_run_iteration] built for it added. The
    task given is any task whose counters agree with its list, whatever
    its other fields hold: a new one has no iteration and counters at 0. *)
Inductive loop_task (lw : LoopWorld) (toolkit : Toolkit) (det : CompletionDetector)
    : RalphTask -> Prop :=
| loop_task_start (given : RalphTask) :
    consistent given ->
    loop_task lw toolkit det (start given)
| loop_task_add (task : RalphTask) (k : nat) (s s' : State) (it : RalphIteration) :
    loop_task lw toolkit det task ->
    _run_iteration lw toolkit task det k s = (Return it, s') ->
    loop_task lw toolkit det (add_iteration it task).

(** *** Iterations as [_run_iteration] returns them *)

(** The switch [_run_iteration] asks before it runs the checks. *)
Definition backpressure_gate (c : RalphTaskConfig) : bool :=
  (run_tests c || run_lint c || run_typecheck c)%bool.

(** An iteration as the [except] branch of [_run_iteration] leaves it
    when the prompt or the turn with the model raised. *)
Definition failed_shape (it : RalphIteration) : Prop :=
  it_status it = IterationStatus.FAILED
  /\ is_Some (it_error it)
  /\ agent_response it = EmptyString
  /\ backpressure_results it = []
  /\ completion_promise_found it = false.

(** An iteration as the [except] branch leaves it when the checks raised:
    the response and the flag were assigned before. *)
Definition failed_in_checks_shape (det : CompletionDetector) (task : RalphTask)
    (it : RalphIteration) : Prop :=
  it_status it = IterationStatus.FAILED
  /\ is_Some (it_error it)
  /\ completion_promise_found it
     = found (_check_completion_promise det (agent_response it)
                (Some (completion_promise (config task))))
  /\ backpressure_results it = []
  /\ backpressure_gate (config task) = true.

(** An iteration as the [try] branch of [_run_iteration] leaves it. *)
Definition completed_shape (det : CompletionDetector) (task : RalphTask)
    (it : RalphIteration) : Prop :=
  it_status it = IterationStatus.COMPLETED
  /\ it_error it = None
  /\ completion_promise_found it
     = found (_check_completion_promise det (agent_response it)
                (Some (completion_promise (config task))))
  /\ (backpressure_gate (config task) = false -> backpressure_results it = []).

(** *** Stop conditions *)

(** The rule on errors, which [should_stop] tries before the stuck-loop
    rule: five iterations or more, at least four of the last five with an
    error. *)
Definition error_rule (task : RalphTask) : bool :=
  ((5 <=? PyStr.len (iterations task))
   && (4 <=? PyStr.len (filter (fun i => is_Some (it_error i))
                               (last_n 5 (iterations task)))))%bool.

(** The first 500 characters of the responses of the last three iterations. *)
Definition recent_responses (task : RalphTask) : list string :=
  map (fun i => PyStr.take 500 (agent_response i)) (last_n 3 (iterations task)).

(** *** The progress heuristic *)

(** The score before the cap when [k1], [k2], [k3] phrases of the three
    lists were found, [b1] is the read-only bonus and [b2] the bonus for
    fewer file changes; the additions happen in the order of the source. *)
Definition heuristic_sum (k1 k2 k3 : nat) (b1 b2 : bool) : float :=
  let c := Nat.iter k1 (fun x => (x + 0.15)%float) 0%float in
  let c := Nat.iter k2 (fun x => (x + 0.1)%float) c in
  let c := Nat.iter k3 (fun x => (x + 0.2)%float) c in
  let c := if b1 then (c + 0.1)%float else c in
  if b2 then (c + 0.05)%float else c.

(** Whether the capped score is at most 0.7 for every number of phrases the
    three lists allow (9, 5 and 4) and both values of the two bonuses. *)
Definition all_sums_capped : bool :=
  forallb (fun k1 =>
    forallb (fun k2 =>
      forallb (fun k3 =>
        forallb (fun b1 =>
          forallb (fun b2 =>
            (py_min (heuristic_sum k1 k2 k3 b1 b2) 0.7 <=? 0.7)%float)
            [false; true])
          [false; true])
        (seq 0 5))
      (seq 0 6))
    (seq 0 10).

(** *** States of the toolkit *)

(** The state after [_run_shell_command] killed the child of [command]. *)
Definition after_kill (command : string) (fs : FS) (s : State) : State :=
  {| st_fs := fs;
     st_file_changes := st_file_changes s;
     st_killed := (st_killed s ++ [command])%list;
     st_clock := st_clock s |}.

(** The state once [execute_tool] has read the clock for [start_time]. *)
Definition after_clock_read (s : State) : State :=
  {| st_fs := st_fs s; st_file_changes := st_file_changes s;
     st_killed := st_killed s; st_clock := S (st_clock s) |}.

(** The arguments of a [write_file] and of a [read_file] call without a
    line range. *)
Definition write_args (path content : string) : dict :=
  [("path", VStr path); ("content", VStr content)].

Definition read_args (path : string) : dict := [("path", VStr path)].

Definition carriage_return : string := String PyStr.CR EmptyString.

(** *** Symbolic links *)

(** The target of the link a path names, if it names one. *)
Definition link_at (fs : FS) (k : list string) : option string :=
  match fs !! k with
  | Some (Symlink t) => Some t
  | _ => None
  end.

(** Two file systems with the same symbolic links. *)
Definition same_links (fs fs' : FS) : Prop :=
  forall k : list string, link_at fs k = link_at fs' k.

(** The paths none of whose non-empty prefixes names a link. *)
Definition link_free (fs : FS) (p : list string) : Prop :=
  forall q : list string, q <> [] -> q `prefix_of` p -> link_at fs q = None.

(** *** A small world to run the code in *)

Module Demo.

(** No subprocess output, empty listings, a clock that ticks once a read,
    writes that reach the file. *)
Definition world : World :=
  {| shell := fun fs _ _ _ => (Exited EmptyString EmptyString 0, fs);
     listing := fun _ _ _ _ => inl [];
     re_compiles := fun _ => true;
     re_search := fun _ _ => false;
     time_ms := fun k => Z.of_nat k;
     write_fault := fun _ _ _ => None |}.

(** [/work/dir], and nothing else. *)
Definition files : FS := <[ ["work"; "dir"] := Dir ]> (<[ ["work"] := Dir ]> ∅).

Definition state : State :=
  {| st_fs := files; st_file_changes := []; st_killed := []; st_clock := 0 |}.

Definition toolkit : Toolkit :=
  {| working_dir := ["work"; "dir"]; allow_shell := true; command_timeout := 300 |}.

(** A reply of one text block that ends the turn. *)
Definition says (text : string) : Reply + string :=
  inl {| content := [TextBlock text]; stop_reason := "end_turn" |}.

(** The model answers iteration [k] with [script k]; nobody cancels, and
    every path may be looked at. *)
Definition scripted (script : nat -> Reply + string) : LoopWorld :=
  {| tool_world := world;
     cwd := ["work"; "dir"];
     cancel_requested := fun _ => false;
     build_prompt := fun _ => inl "prompt";
     llm := fun k _ => script k;
     stat_fails := fun _ _ _ => None |}.

(** A configuration with the given ceiling and switches for the four
    checks, no commands configured. *)
Definition config_with (ceiling : Z) (tests lint typecheck build : bool)
    : RalphTaskConfig :=
  {| completion_promise := "<promise>COMPLETE</promise>";
     max_iterations := ceiling;
     iteration_timeout_seconds := 300;
     run_tests := tests;
     run_lint := lint;
     run_typecheck := typecheck;
     run_build := build;
     test_command := None;
     lint_command := None;
     typecheck_command := None;
     build_command := None;
     include_git_history := true;
     include_file_contents := true;
     max_context_files := 20;
     working_directory := ".";
     model := "claude-sonnet-4-20250514";
     max_tokens := 16000;
     temperature := 0.7%float |}.

(** Every check switched off. *)
Definition unchecked (ceiling : Z) : RalphTaskConfig :=
  config_with ceiling false false false false.

Definition detector : CompletionDetector :=
  new_detector "<promise>COMPLETE</promise>".

(** The iteration [_run_iteration] returns for a one-block answer [text]
    when no check runs and the answer holds no completion signal. *)
Definition plain_iteration (n : Z) (text : string) : RalphIteration :=
  {| iteration_number := n;
     it_status := IterationStatus.COMPLETED;
     prompt_sent := "prompt";
     agent_response := text;
     reasoning := EmptyString;
     tool_calls := [];
     file_changes := [];
     git_commits := [];
     backpressure_results := [];
     completion_promise_found := false;
     completion_message := None;
     it_error := None |}.

End Demo.

(** A model that in every iteration writes a file and, shown the result,
    answers in words. *)
Definition note_taker : LoopWorld :=
  {| tool_world := Demo.world;
     cwd := ["work"; "dir"];
     cancel_requested := fun _ => false;
     build_prompt := fun _ => inl "prompt";
     llm := fun _ r =>
       match r with
       | O => inl {| content := [ToolUseBlock "id" "write_file"
                                   (write_args "notes.txt" "hello")];
                     stop_reason := "tool_use" |}
       | _ => Demo.says "working on it"
       end;
     stat_fails := fun _ _ _ => None |}.

(** A new task with a description. *)
Definition described_task : RalphTask :=
  {| id := 0;
     prompt := "Keep notes";
     description := "Write down what was done";
     config := Demo.unchecked 5;
     status := TaskStatus.PENDING;
     current_iteration := 0;
     iterations := [];
     completion_result := None;
     final_output := None;
     task_error := None;
     total_tool_calls := 0;
     total_file_changes := 0 |}.

(** The iteration [_run_iteration] returns for [described_task] in the
    world of [note_taker]: one tool call and one file change. *)
Definition note_iteration : RalphIteration :=
  {| iteration_number := 1;
     it_status := IterationStatus.COMPLETED;
     prompt_sent := "prompt";
     agent_response := "working on it";
     reasoning := EmptyString;
     tool_calls :=
       [ {| tool_name := "write_file";
            arguments := write_args "notes.txt" "hello";
            result := Some [("success", VBool true); ("path", VStr "notes.txt");
                            ("action", VStr "create"); ("lines", VInt 1)];
            error := None;
            duration_ms := 1 |} ];
     file_changes :=
       [ {| path := "notes.txt";
            action := "create";
            content_preview := Some "hello";
            lines_added := 1;
            lines_removed := 0 |} ];
     git_commits := [];
     backpressure_results := [];
     completion_promise_found := false;
     completion_message := None;
     it_error := None |}.

(** Only the build check switched on, with a command configured for it. *)
Definition build_only_config : RalphTaskConfig :=
  {| completion_promise := "<promise>COMPLETE</promise>";
     max_iterations := 5;
     iteration_timeout_seconds := 300;
     run_tests := false;
     run_lint := false;
     run_typecheck := false;
     run_build := true;
     test_command := None;
     lint_command := None;
     typecheck_command := None;
     build_command := Some "make";
     include_git_history := true;
     include_file_contents := true;
     max_context_files := 20;
     working_directory := ".";
     model := "claude-sonnet-4-20250514";
     max_tokens := 16000;
     temperature := 0.7%float |}.

(** Tests and build switched on, with a command configured for the build
    only. *)
Definition tests_and_build_config : RalphTaskConfig :=
  {| completion_promise := "<promise>COMPLETE</promise>";
     max_iterations := 5;
     iteration_timeout_seconds := 300;
     run_tests := true;
     run_lint := false;
     run_typecheck := false;
     run_build := true;
     test_command := None;
     lint_command := None;
     typecheck_command := None;
     build_command := Some "make";
     include_git_history := true;
     include_file_contents := true;
     max_context_files := 20;
     working_directory := ".";
     model := "claude-sonnet-4-20250514";
     max_tokens := 16000;
     temperature := 0.7%float |}.

(** A world in which every subprocess hangs after writing "partial". *)
Definition hanging_world : World :=
  {| shell := fun fs _ _ _ => (TimedOut "partial" EmptyString, fs);
     listing := fun _ _ _ _ => inl [];
     re_compiles := fun _ => true;
     re_search := fun _ _ => false;
     time_ms := fun k => Z.of_nat k;
     write_fault := fun _ _ _ => None |}.

(** *** Tool calls that name a path *)

(** The calls that name a path, one of each shape: the tool and its
    arguments. *)
Definition path_calls (path content old_text new_text pattern : string)
    : list (string * dict) :=
  [ ("read_file", [("path", VStr path)]);
    ("write_file", [("path", VStr path); ("content", VStr content)]);
    ("edit_file", [("path", VStr path); ("old_text", VStr old_text);
                   ("new_text", VStr new_text)]);
    ("list_files", [("path", VStr path)]);
    ("search_files", [("pattern", VStr pattern); ("path", VStr path)]);
    ("create_directory", [("path", VStr path)]);
    ("delete_file", [("path", VStr path)]) ].

(** The state after the two clock readings of [execute_tool]. *)
Definition after_two_clock_reads (s : State) : State :=
  after_clock_read (after_clock_read s).

(** *** Computations of the toolkit *)

(** A computation of the toolkit monad that leaves the state as it finds it. *)
Definition read_only {A} (m : M A) : Prop :=
  forall s : State, snd (m s) = s.

(** *** Records of file changes *)

(** The record [_tool_write_file] appends to the buffer when the file at
    [full] held [old_lines] lines, or did not exist ([None]). *)
Definition write_change (path content : string) (old_lines : option Z) : FileChange :=
  let new_lines := line_count content in
  {| path := path;
     action := match old_lines with Some _ => "modify" | None => "create" end;
     content_preview := Some (PyStr.take 200 content);
     lines_added := match old_lines with
                    | Some n => Z.max 0 (new_lines - n)
                    | None => new_lines
                    end;
     lines_removed := match old_lines with
                      | Some n => Z.max 0 (n - new_lines)
                      | None => 0
                      end |}.

(** The lines of the file at [p] as [_tool_write_file] counts them before
    it overwrites the file; [None] when there is nothing at [p]. *)
Definition lines_before (fs : FS) (p : list string) : option Z :=
  match lookup_node fs p with
  | Some (File c) => Some (line_count (PyStr.universal_newlines c))
  | _ => None
  end.

(** A call whose result reports success. *)
Definition succeeded (o : Outcome dict) : bool :=
  match o with
  | Return d => match dict_get "success" d with
                | Some (VBool true) => true
                | _ => false
                end
  | Raise _ => false
  end.

(** The arguments of a call that names only a path. *)
Definition path_args (path : string) : dict := [("path", VStr path)].

(** The record [_tool_delete_file] appends when it has unlinked a file. *)
Definition delete_change (path : string) : FileChange :=
  {| path := path; action := "delete"; content_preview := None;
     lines_added := 0; lines_removed := 0 |}.

(** The same for [delete_file], which can return nothing. *)
Definition reports_success (o : Outcome (option dict)) : bool :=
  match o with
  | Return (Some d) => succeeded (Return d)
  | _ => false
  end.

(** *** The arguments and the record of an edit *)

(** The arguments of an [edit_file] call. *)
Definition edit_args (path old_text new_text : string) (replace_all : bool) : dict :=
  [("path", VStr path); ("old_text", VStr old_text); ("new_text", VStr new_text);
   ("replace_all", VBool replace_all)].

(** The record [_tool_edit_file] appends. *)
Definition edit_change (path new_text : string) : FileChange :=
  {| path := path; action := "modify";
     content_preview := Some (PyStr.take 200 new_text);
     lines_added := 0; lines_removed := 0 |}.

(** A world like [Demo.world] on a full disk: a file can be opened for
    writing, and nothing that is written reaches it. *)
Definition full_disk : World :=
  {| shell := shell Demo.world;
     listing := listing Demo.world;
     re_compiles := re_compiles Demo.world;
     re_search := re_search Demo.world;
     time_ms := time_ms Demo.world;
     write_fault := fun _ _ _ => Some (O, "[Errno 28] No space left on device") |}.

(** *** Subprocess results *)

(** The state a subprocess that came back in time leaves: only the files
    can have changed. *)
Definition after_shell (fs : FS) (s : State) : State :=
  {| st_fs := fs; st_file_changes := st_file_changes s;
     st_killed := st_killed s; st_clock := st_clock s |}.

(** The arguments of a [run_command] call. *)
Definition run_args (command : string) (timeout : Z) : dict :=
  [("command", VStr command); ("timeout", VInt timeout)].

(** The text of an entry of a result, empty when it is missing or no text. *)
Definition text_of (key : string) (d : dict) : string :=
  match dict_get key d with
  | Some (VStr t) => t
  | _ => EmptyString
  end.

(** *** Results of checks *)

(** What every extracted error or warning is: the stripped text of one of
    the lines, cut to 200 characters, and not empty. *)
Definition excerpt_from (lines : list string) (entry : string) : Prop :=
  entry <> EmptyString
  /\ (String.length entry <= 200)%nat
  /\ exists line : string,
       In line lines /\ entry = PyStr.take 200 (PyStr.strip line).

(** The same of the lines of an output. *)
Definition excerpt_of (output entry : string) : Prop :=
  excerpt_from (PyStr.split PyStr.LF output) entry.

(** What the scans keep true of the list they build. *)
Definition excerpts (lines : list string) (l : list string) : Prop :=
  NoDup l /\ Forall (excerpt_from lines) l.

(** The switch of the configuration that enables a check type. *)
Definition enabled (c : RalphTaskConfig) (check_type : string) : bool :=
  if String.eqb check_type "test" then run_tests c
  else if String.eqb check_type "lint" then run_lint c
  else if String.eqb check_type "typecheck" then run_typecheck c
  else if String.eqb check_type "build" then run_build c
  else false.

(** The command the configuration gives for a check. *)
Definition configured (c : RalphTaskConfig) (check_type : string) : option string :=
  if String.eqb check_type "test" then test_command c
  else if String.eqb check_type "lint" then lint_command c
  else if String.eqb check_type "typecheck" then typecheck_command c
  else if String.eqb check_type "build" then build_command c
  else None.

(** A computation that only looks for project files under [wd]: it leaves
    the state as it is, and raises nothing but what [os.stat] raised. *)
Definition probes {A} (lw : LoopWorld) (wd : string) (m : M A) : Prop :=
  forall s : State,
    snd (m s) = s
    /\ forall e : string,
         fst (m s) = Raise e ->
         exists name : string, stat_fails lw (st_fs s) wd name = Some e.

(** Results as the stanzas for the check types [types] leave them: in
    that order, at most one of each, only of enabled checks, and one for
    every enabled check whose command is configured. *)
Definition covered (c : RalphTaskConfig) (types : list string)
    (results : list BackpressureResult) : Prop :=
  map Models.check_type results `sublist_of` types
  /\ Forall (fun r => enabled c (Models.check_type r) = true) results
  /\ (forall ct : string,
        ct ∈ types -> enabled c ct = true ->
        PyStr.truthy (configured c ct) = true ->
        ct ∈ map Models.check_type results).

(** What [_run_backpressure] raises: the error of [os.stat] on a project
    file looked for in [wd], for a check that is switched on and has no
    command configured. *)
Definition refused_probe (lw : LoopWorld) (c : RalphTaskConfig) (e : string) : Prop :=
  exists (fs : FS) (name check_type : string),
    stat_fails lw fs (working_directory c) name = Some e
    /\ enabled c check_type = true
    /\ PyStr.truthy (configured c check_type) = false.

(** A world in which the operating system lets nobody look into a
    directory. *)
Definition locked_world (lw : LoopWorld) : LoopWorld :=
  {| tool_world := tool_world lw;
     cwd := cwd lw;
     cancel_requested := cancel_requested lw;
     build_prompt := build_prompt lw;
     llm := llm lw;
     stat_fails := fun _ _ name =>
       Some ("[Errno 13] Permission denied: '" +:+ name +:+ "'") |}.

(** *** Phrases of the progress heuristic *)

(** How many phrases of a list the response contains. *)
Definition hits (phrases : list string) (response : string) : nat :=
  length (List.filter (fun p => PyStr.contains p response) phrases).

(** The phrases of the three lists of [_analyze_progress] found in the
    lower-cased response of an iteration. *)
Definition phrase_hits (it : RalphIteration) : nat :=
  let response := PyStr.lower (agent_response it) in
  (hits completion_phrases response + hits verification_phrases response
   + hits no_change_phrases response)%nat.

(** Whether no score with at most one phrase and any of the two bonuses
    reaches the threshold of 0.5. *)
Definition one_phrase_below_threshold : bool :=
  forallb (fun k : nat * nat * nat =>
    forallb (fun b1 =>
      forallb (fun b2 =>
        negb (0.5 <=? py_min (heuristic_sum (fst (fst k)) (snd (fst k)) (snd k) b1 b2) 0.7)%float)
        [false; true])
      [false; true])
    [(0, 0, 0); (1, 0, 0); (0, 1, 0); (0, 0, 1)]%nat.

(** *** Leaving the loop *)

(** How the loop is left in pass [k], from the task [t] it holds at the
    head of that pass to the task it ends with: the four [break]s and the
    [except] of [run_task]. *)
Inductive loop_exit (lw : LoopWorld) (det : CompletionDetector) (k : nat)
    (t : RalphTask) : RalphTask -> Prop :=
| exit_cancelled :
    cancel_requested lw k = true ->
    loop_exit lw det k t (cancel t)
| exit_timeout :
    cancel_requested lw k = false ->
    max_iterations (config t) <= current_iteration t ->
    loop_exit lw det k t (timeout t)
| exit_stopped (it : RalphIteration) (task' : RalphTask) :
    cancel_requested lw k = false ->
    current_iteration t < max_iterations (config t) ->
    after_iteration det t it = (task', true) ->
    loop_exit lw det k t task'
| exit_raised (e : string) :
    cancel_requested lw k = false ->
    current_iteration t < max_iterations (config t) ->
    loop_exit lw det k t (fail e t).

(** A task the loop holds at the head of a pass after the first one. *)
Definition in_flight (t : RalphTask) : Prop :=
  current_iteration t = PyStr.len (iterations t)
  /\ current_iteration t < max_iterations (config t).

(** The terminal statuses. *)
Definition terminal (st : TaskStatus.t) : bool :=
  match st with
  | TaskStatus.COMPLETED | TaskStatus.FAILED
  | TaskStatus.TIMEOUT | TaskStatus.CANCELLED => true
  | _ => false
  end.

(** *** The completion tool *)

(** The literal [_call_claude] appends to the response when the model uses
    the tool [complete_task]. *)
Definition promise_literal : string := "<promise>COMPLETE</promise>".

(** A list of tool calls with a call of [complete_task] in it. *)
Definition calls_complete_task (tcs : list ToolCall) : bool :=
  existsb (fun tc => String.eqb (tool_name tc) "complete_task") tcs.

(** A text whose last character is no white space. *)
Fixpoint ends_in_text (p : string) : bool :=
  match p with
  | EmptyString => false
  | String a EmptyString => negb (PyStr.is_space a)
  | String _ p' => ends_in_text p'
  end.

(** A world that answers as [lw] does up to request [n] of every
    iteration and fails from there on. *)
Definition silent_after (n : nat) (lw : LoopWorld) : LoopWorld :=
  {| tool_world := tool_world lw;
     cwd := cwd lw;
     cancel_requested := cancel_requested lw;
     build_prompt := build_prompt lw;
     llm := fun k r => if (r <? n)%nat then llm lw k r else inr "no reply";
     stat_fails := stat_fails lw |}.

(** What the turn keeps true: once [complete_task] is among the tool
    calls, the literal is in the response. *)
Definition signalled (acc : Turn) : Prop :=
  calls_complete_task (turn_tool_calls acc) = true ->
  PyStr.contains promise_literal (full_response acc) = true.

(** *** Iterations of a run *)

(** An iteration [_run_iteration] returned for a task of configuration
    [c]. *)
Definition made_by (lw : LoopWorld) (toolkit : Toolkit) (det : CompletionDetector)
    (c : RalphTaskConfig) (it : RalphIteration) : Prop :=
  exists (t : RalphTask) (k : nat) (s s' : State),
    config t = c /\ _run_iteration lw toolkit t det k s = (Return it, s').

(** A request that leaves every option open. *)
Definition plain_request (prompt : string) : Api.CreateTaskRequest :=
  {| Api.prompt := prompt;
     Api.description := EmptyString;
     Api.completion_promise := None;
     Api.max_iterations := None;
     Api.working_directory := None;
     Api.run_tests := true;
     Api.test_command := None;
     Api.run_lint := true;
     Api.lint_command := None;
     Api.run_typecheck := false;
     Api.typecheck_command := None;
     Api.model := None |}.





(** *** The buffer of file changes *)

(** A computation of the toolkit monad that takes every state to one in
    relation [R] with it. *)
Definition preserves {A} (R : State -> State -> Prop) (m : M A) : Prop :=
  forall s : State, R s (snd (m s)).

(** The buffer of file changes is as it was. *)
Definition buffer_kept (s s' : State) : Prop :=
  st_file_changes s' = st_file_changes s.


(** The three tools that record file changes. *)
Definition recording_tools : list string := ["write_file"; "edit_file"; "delete_file"].

(** A world in which every command creates the empty file [made.txt] in
    its directory and exits with code 0. *)
Definition touching_world : World :=
  {| shell := fun fs cwd _ _ =>
       (Exited EmptyString EmptyString 0,
        <[(cwd ++ ["made.txt"])%list := File EmptyString]> fs);
     listing := fun _ _ _ _ => inl [];
     re_compiles := fun _ => true;
     re_search := fun _ _ => false;
     time_ms := fun k => Z.of_nat k;
     write_fault := fun _ _ _ => None |}.


(** *** Listings *)

(** The path an entry of a listing gives. *)
Definition entry_path (v : value) : string :=
  match v with
  | VDict d => text_of "path" d
  | _ => EmptyString
  end.

(** The order of a sorted listing: the second path is not before the
    first. *)
Definition path_le (a b : string) : Prop := String.ltb b a = false.

(** A world whose directories all hold [b.txt] and [a.txt], yielded in
    that order. *)
Definition unordered_world : World :=
  {| shell := fun fs _ _ _ => (Exited EmptyString EmptyString 0, fs);
     listing := fun _ dir _ _ => inl [(dir ++ ["b.txt"])%list; (dir ++ ["a.txt"])%list];
     re_compiles := fun _ => true;
     re_search := fun _ _ => false;
     time_ms := fun k => Z.of_nat k;
     write_fault := fun _ _ _ => None |}.

(** *** The completion patterns *)

(** The words the second completion pattern finds, in lower case. *)
Definition task_complete_text : string := "task complete".

(* ===================================================================== *)
(** ** Properties                                                         *)
(* ===================================================================== *)
(** *** The shapes of an iteration *)

Section RunIteration.

Variable lw : LoopWorld.
Variable toolkit : Toolkit.
Variable det : CompletionDetector.

(** What [_run_iteration] returns: the next number, and one of the
    shapes. *)
Lemma run_iteration_shape task k s it s' :
  _run_iteration lw toolkit task det k s = (Return it, s') ->
  iteration_number it = current_iteration task + 1
  /\ (failed_shape it \/ failed_in_checks_shape det task it
      \/ completed_shape det task it).
Proof.
  unfold _run_iteration. fold (backpressure_gate (config task)).
  destruct (build_prompt lw k) as [prompt|e].
  - unfold try_except, bind.
    destruct (_call_claude lw toolkit k s) as [[turn|e] s1].
    + destruct (get_file_changes s1) as [[changes|e] s2]; simpl.
      * destruct (backpressure_gate (config task)) eqn:Hg.
        -- destruct (_run_backpressure lw toolkit task s2) as [[bp|e] s3]; simpl.
           ++ intros [= <- _]. split; [reflexivity |]. right. right.
              repeat split. intros Hgate. congruence.
           ++ intros [= <- _]. split; [reflexivity |]. right. left.
              repeat split; eauto.
        -- simpl. intros [= <- _]. split; [reflexivity |]. right. right.
           repeat split.
      * intros [= <- _]. split; [reflexivity |]. left. repeat split. eauto.
    + simpl. intros [= <- _]. split; [reflexivity |]. left. repeat split. eauto.
  - simpl. intros [= <- _]. split; [reflexivity |]. left. repeat split. eauto.
Qed.

(** The number [_run_iteration] gives the iteration it returns. *)
Lemma run_iteration_number task k s it s' :
  _run_iteration lw toolkit task det k s = (Return it, s') ->
  iteration_number it = current_iteration task + 1.
Proof. intros H. exact (proj1 (run_iteration_shape task k s it s' H)). Qed.

(** The flag of a returned iteration is the verdict of the detector on the
    response the iteration carries. *)
Lemma run_iteration_promise task k s it s' :
  _run_iteration lw toolkit task det k s = (Return it, s') ->
  completion_promise_found it = true ->
  found (_check_completion_promise det (agent_response it)
           (Some (completion_promise (config task)))) = true.
Proof.
  intros H Hflag.
  destruct (run_iteration_shape task k s it s' H) as (_ & [Hf | [Hk | Hc]]).
  - destruct Hf as (_ & _ & _ & _ & Hno). congruence.
  - destruct Hk as (_ & _ & Heq & _). congruence.
  - destruct Hc as (_ & _ & Heq & _). congruence.
Qed.

(** Whatever [run_build] says, no check runs in an iteration of a task
    whose tests, lint and type check are all switched off: [_run_iteration]
    asks only those three switches before it calls [_run_backpressure]. *)
Lemma gate_ignores_run_build task k s it s' :
  run_tests (config task) = false ->
  run_lint (config task) = false ->
  run_typecheck (config task) = false ->
  _run_iteration lw toolkit task det k s = (Return it, s') ->
  backpressure_results it = [].
Proof.
  intros Ht Hl Hy H.
  destruct (run_iteration_shape task k s it s' H) as (_ & [Hf | [Hk | Hc]]).
  - destruct Hf as (_ & _ & _ & Hbp & _). exact Hbp.
  - destruct Hk as (_ & _ & _ & Hbp & _). exact Hbp.
  - destruct Hc as (_ & _ & _ & Hbp). apply Hbp.
    unfold backpressure_gate. now rewrite Ht, Hl, Hy.
Qed.

End RunIteration.
(** *** Bookkeeping of a task (the invariants of [add_iteration]) *)

Section Bookkeeping.

Lemma sum_len_app {A} (f : RalphIteration -> list A) (l : list RalphIteration)
    (it : RalphIteration) :
  sum_len f (l ++ [it])%list = sum_len f l + PyStr.len (f it).
Proof.
  induction l as [|x l IH]; simpl.
  - lia.
  - rewrite IH. lia.
Qed.

Lemma numbered_snoc (l : list RalphIteration) (it : RalphIteration) :
  numbered l ->
  iteration_number it = PyStr.len l + 1 ->
  numbered (l ++ [it])%list.
Proof.
  intros Hl Hit i x Hx.
  destruct (decide (i < length l)%nat) as [Hlt|Hge].
  - rewrite lookup_app_l in Hx by exact Hlt. now apply Hl.
  - rewrite lookup_app_r in Hx by lia.
    destruct (i - length l)%nat as [|j] eqn:Hj; simpl in Hx; [|discriminate].
    injection Hx as <-. rewrite Hit. unfold PyStr.len.
    assert (i = length l) by lia. subst i. reflexivity.
Qed.

Lemma add_iteration_consistent (task : RalphTask) (it : RalphIteration) :
  consistent task ->
  iteration_number it = current_iteration task + 1 ->
  consistent (add_iteration it task).
Proof.
  intros (Hcur & Hnum & Htc & Hfc) Hit. unfold consistent; simpl.
  repeat split.
  - apply numbered_snoc; [exact Hnum | now rewrite Hit, Hcur].
  - rewrite sum_len_app, Htc. reflexivity.
  - rewrite sum_len_app, Hfc. reflexivity.
Qed.

(** The counters and the list are all that the bookkeeping looks at. *)
Lemma consistent_same (t t' : RalphTask) :
  current_iteration t' = current_iteration t ->
  iterations t' = iterations t ->
  total_tool_calls t' = total_tool_calls t ->
  total_file_changes t' = total_file_changes t ->
  consistent t -> consistent t'.
Proof. unfold consistent. intros -> -> -> ->. auto. Qed.

(** The loop keeps the bookkeeping of the task it holds, however it is
    left. *)
Lemma main_loop_consistent lw toolkit det fuel :
  forall k task s task' s',
    main_loop lw toolkit fuel det k task s = Some (task', s') ->
    consistent task -> consistent task'.
Proof.
  induction fuel as [|fuel IH]; intros k task s task' s'; cbn [main_loop];
    [discriminate |].
  destruct (cancel_requested lw k);
    [intros [= <- <-]; now apply consistent_same |].
  destruct (max_iterations (config task) <=? current_iteration task);
    [intros [= <- <-]; now apply consistent_same |].
  destruct (_run_iteration lw toolkit task det k s) as [[it|e] s1] eqn:Erun;
    [| intros [= <- <-]; now apply consistent_same].
  intros Hloop Htask.
  assert (Hadded : consistent (add_iteration it task))
    by (apply add_iteration_consistent;
        [exact Htask | eapply run_iteration_number; exact Erun]).
  unfold after_iteration in Hloop. cbv zeta in Hloop.
  destruct (should_stop det (add_iteration it task) _) as [[|] reason].
  - destruct (is_complete _); injection Hloop as <- <-;
      revert Hadded; now apply consistent_same.
  - exact (IH _ _ _ _ _ Hloop Hadded).
Qed.

End Bookkeeping.

(** C8. After [add_iteration] on any task the iteration is the last of
    [iterations], [current_iteration] is the length of [iterations], and
    [total_tool_calls] and [total_file_changes] have grown by the lengths
    of the iteration's [tool_calls] and [file_changes]; when the counters
    of the task agreed with its list and the iteration carries the next
    number, they agree again: every iteration's [iteration_number] is its
    1-based position, and the two totals are the sums over the recorded
    iterations. In a run of the loop that is so after every
    [add_iteration], for every task whose counters agreed with its list
    when the run began, as those of a new task and of a task created
    through the API do; and it is so for the task [run_task] returns. *)
Theorem C8_add_iteration_bookkeeping :
  (forall (task : RalphTask) (it : RalphIteration),
      iterations (add_iteration it task) = (iterations task ++ [it])%list
      /\ current_iteration (add_iteration it task)
         = PyStr.len (iterations (add_iteration it task))
      /\ total_tool_calls (add_iteration it task)
         = total_tool_calls task + PyStr.len (tool_calls it)
      /\ total_file_changes (add_iteration it task)
         = total_file_changes task + PyStr.len (file_changes it)
      /\ (consistent task ->
          iteration_number it = current_iteration task + 1 ->
          consistent (add_iteration it task)))
  /\ (forall (i : nat) (p : string) (c : RalphTaskConfig),
        consistent (new_task i p c))
  /\ (forall (request : Api.CreateTaskRequest) (i : nat),
        consistent (Api.create_task request i))
  /\ (forall (lw : LoopWorld) (toolkit : Toolkit) (det : CompletionDetector)
             (task : RalphTask),
        loop_task lw toolkit det task ->
        current_iteration task = PyStr.len (iterations task)
        /\ (forall (i : nat) (it : RalphIteration),
              iterations task !! i = Some it -> iteration_number it = Z.of_nat i + 1)
        /\ total_tool_calls task = sum_len tool_calls (iterations task)
        /\ total_file_changes task = sum_len file_changes (iterations task))
  /\ (forall (lw : LoopWorld) (given task : RalphTask) (s s' : State),
        consistent given ->
        run_task lw given s = Finished task s' ->
        current_iteration task = PyStr.len (iterations task)
        /\ (forall (i : nat) (it : RalphIteration),
              iterations task !! i = Some it -> iteration_number it = Z.of_nat i + 1)
        /\ total_tool_calls task = sum_len tool_calls (iterations task)
        /\ total_file_changes task = sum_len file_changes (iterations task)).
Proof.
  split; [| split; [| split; [| split]]].
  - intros task it. do 4 (split; [reflexivity |]).
    exact (add_iteration_consistent task it).
  - intros i p c. unfold consistent; simpl. repeat split.
    intros j x Hx. discriminate.
  - intros request i. unfold consistent; simpl. repeat split.
    intros j x Hx. discriminate.
  - intros lw toolkit det task H. change (consistent task).
    induction H as [given Hgiven | task k s s' it Hreach IH Hrun].
    + exact Hgiven.
    + apply add_iteration_consistent; [exact IH |].
      eapply run_iteration_number; exact Hrun.
  - intros lw given task s s' Hgiven. unfold run_task.
    destruct (new_toolkit _ _ _ _ _) as [toolkit|]; [| discriminate].
    destruct (main_loop _ _ _ _ _ _ _) as [[t1 s1]|] eqn:Eloop; [| discriminate].
    intros [= <- <-]. change (consistent t1).
    apply (main_loop_consistent _ _ _ _ _ _ _ _ _ Eloop).
    revert Hgiven. now apply consistent_same.
Qed.

Lemma pair_of_fst {A B} (p : A * B) (a : A) : fst p = a -> p = (a, snd p).
Proof. destruct p; simpl; intros ->; reflexivity. Qed.

(** C8 at a task with a description, after a first iteration with one tool
    call and one file change. *)
Lemma C8_add_iteration_bookkeeping_witness :
  let task := add_iteration note_iteration (start described_task) in
  (description task = "Write down what was done"
   /\ total_tool_calls task = 1
   /\ total_file_changes task = 1)
  /\ current_iteration task = PyStr.len (iterations task)
  /\ (forall (i : nat) (it : RalphIteration),
        iterations task !! i = Some it -> iteration_number it = Z.of_nat i + 1)
  /\ total_tool_calls task = sum_len tool_calls (iterations task)
  /\ total_file_changes task = sum_len file_changes (iterations task).
Proof.
  split; [repeat split |].
  apply (proj1 (proj2 (proj2 (proj2 C8_add_iteration_bookkeeping))) note_taker
           Demo.toolkit Demo.detector).
  eapply (loop_task_add _ _ _ _ 0%nat Demo.state).
  - apply loop_task_start. unfold consistent; simpl. repeat split.
    intros j x Hx. discriminate.
  - apply pair_of_fst. vm_compute. reflexivity.
Defined.
(** *** The completion promise ends the loop *)

Section Promise.

Variable lw : LoopWorld.
Variable toolkit : Toolkit.
Variable det : CompletionDetector.

(** What [check_completion] answers when the promise is in the response. *)
Lemma check_completion_promise task it :
  found (_check_completion_promise det (agent_response it)
           (Some (completion_promise (config task)))) = true ->
  is_complete (check_completion det task it) = true
  /\ confidence (check_completion det task it) = 1.0%float
  /\ promise_detected (check_completion det task it) = true.
Proof.
  intros H. unfold check_completion. rewrite H. simpl. auto.
Qed.

(** A complete result leaves the loop with the task completed. *)
Lemma after_iteration_complete task it :
  is_complete (check_completion det (add_iteration it task) it) = true ->
  after_iteration det task it
  = (complete (check_completion det (add_iteration it task) it)
       (agent_response it) (add_iteration it task), true).
Proof.
  intros H. unfold after_iteration, should_stop. rewrite H. reflexivity.
Qed.

End Promise.

(** C3. When the iteration the loop has just run carries
    [completion_promise_found = true], the loop is left in that same pass:
    the task is [completed], the iteration is its last one, and the stored
    completion result has [is_complete = true] and [confidence = 1.0]. *)
Theorem C3_promise_found_completes :
  forall (lw : LoopWorld) (toolkit : Toolkit) (det : CompletionDetector)
         (fuel k : nat) (task : RalphTask) (s s' : State) (it : RalphIteration),
    cancel_requested lw k = false ->
    (max_iterations (config task) <=? current_iteration task) = false ->
    _run_iteration lw toolkit task det k s = (Return it, s') ->
    completion_promise_found it = true ->
    exists (task' : RalphTask) (cr : CompletionResult),
      main_loop lw toolkit (S fuel) det k task s = Some (task', s')
      /\ status task' = TaskStatus.COMPLETED
      /\ iterations task' = (iterations task ++ [it])%list
      /\ completion_result task' = Some cr
      /\ is_complete cr = true
      /\ confidence cr = 1.0%float.
Proof.
  intros lw toolkit det fuel k task s s' it Hcancel Hmax Hrun Hflag.
  pose proof (run_iteration_promise lw toolkit det task k s it s' Hrun Hflag) as Hfound.
  destruct (check_completion_promise det (add_iteration it task) it Hfound)
    as (Hc & Hconf & _).
  exists (complete (check_completion det (add_iteration it task) it)
            (agent_response it) (add_iteration it task)),
         (check_completion det (add_iteration it task) it).
  repeat split; try assumption.
  cbn [main_loop]. rewrite Hcancel, Hmax, Hrun.
  rewrite (after_iteration_complete det task it Hc). reflexivity.
Qed.

(** C3 at a first iteration whose answer ends with the promise. *)
Lemma C3_promise_found_completes_witness :
  exists (task' : RalphTask) (cr : CompletionResult),
    main_loop (Demo.scripted (fun _ => Demo.says "Done. <promise>COMPLETE</promise>"))
      Demo.toolkit 1 Demo.detector 0
      (start (new_task 0 "Say done" (Demo.unchecked 5))) Demo.state
    = Some (task', Demo.state)
    /\ status task' = TaskStatus.COMPLETED
    /\ iterations task'
       = [ {| iteration_number := 1;
              it_status := IterationStatus.COMPLETED;
              prompt_sent := "prompt";
              agent_response := "Done. <promise>COMPLETE</promise>";
              reasoning := EmptyString;
              tool_calls := [];
              file_changes := [];
              git_commits := [];
              backpressure_results := [];
              completion_promise_found := true;
              completion_message := Some "<promise>COMPLETE</promise>";
              it_error := None |} ]
    /\ completion_result task' = Some cr
    /\ is_complete cr = true
    /\ confidence cr = 1.0%float.
Proof.
  apply (C3_promise_found_completes
           (Demo.scripted (fun _ => Demo.says "Done. <promise>COMPLETE</promise>"))
           Demo.toolkit Demo.detector 0 0
           (start (new_task 0 "Say done" (Demo.unchecked 5))) Demo.state Demo.state).
  - reflexivity.
  - reflexivity.
  - vm_compute. reflexivity.
  - reflexivity.
Defined.
(** *** The loop stops *)

(** When the loop goes on after an iteration, the task is the old one with
    the iteration added and the ceiling is still ahead. *)
Lemma after_iteration_continues det task it task' :
  after_iteration det task it = (task', false) ->
  task' = add_iteration it task
  /\ PyStr.len (iterations task) + 1 < max_iterations (config task).
Proof.
  unfold after_iteration, should_stop.
  destruct (is_complete _); [discriminate |].
  destruct (max_iterations (config (add_iteration it task))
            <=? current_iteration (add_iteration it task)) eqn:E; [discriminate |].
  apply Z.leb_gt in E. cbn [config add_iteration current_iteration] in E.
  unfold PyStr.len in *. rewrite length_app in E. cbn [length] in E.
  destruct (_ && _)%bool; [discriminate |].
  destruct (_ && _)%bool; [discriminate |].
  intros [= <-]. split; [reflexivity | lia].
Qed.

(** The loop reaches a [break] within [enough_fuel] passes. *)
Lemma main_loop_terminates lw toolkit det fuel :
  forall k task s,
    (Z.to_nat (max_iterations (config task) - PyStr.len (iterations task)) < fuel)%nat ->
    is_Some (main_loop lw toolkit fuel det k task s).
Proof.
  induction fuel as [|fuel IH]; intros k task s Hfuel; [lia |].
  cbn [main_loop].
  destruct (cancel_requested lw k); [eauto |].
  destruct (max_iterations (config task) <=? current_iteration task); [eauto |].
  destruct (_run_iteration lw toolkit task det k s) as [[it|e] s1]; [| eauto].
  destruct (after_iteration det task it) as [task' [|]] eqn:E; [eauto |].
  destruct (after_iteration_continues det task it task' E) as (-> & Hlt).
  apply IH. cbn [config add_iteration iterations].
  unfold PyStr.len in *. rewrite length_app. cbn [length]. lia.
Qed.

(** [run_task] never runs out of fuel. *)
Lemma run_task_terminates lw task s : run_task lw task s <> OutOfFuel.
Proof.
  unfold run_task.
  destruct (new_toolkit _ _ _ _ _) as [toolkit|]; [| discriminate].
  destruct (main_loop_terminates lw toolkit
              (new_detector (completion_promise (config task)))
              (enough_fuel task) 0 (start task) s) as [[task' s'] ->].
  - unfold enough_fuel. cbn [start set_status config iterations]. lia.
  - discriminate.
Qed.
(** *** Reaching the ceiling after an iteration *)

(** When the detector does not declare the task complete and the iteration
    just added is the [max_iterations]-th, the loop is left through
    [task.fail] with the reason [should_stop] gives. *)
Lemma ceiling_after_iteration_fails det task it :
  is_complete (check_completion det (add_iteration it task) it) = false ->
  max_iterations (config task) <= PyStr.len (iterations task) + 1 ->
  after_iteration det task it
  = (fail ("Max iterations (" +:+ pretty (max_iterations (config task)) +:+ ") reached")
       (add_iteration it task), true).
Proof.
  intros Hc Hmax. unfold after_iteration, should_stop. rewrite Hc.
  assert (Hlen : current_iteration (add_iteration it task)
                 = PyStr.len (iterations task) + 1).
  { simpl. unfold PyStr.len. rewrite length_app. simpl. lia. }
  replace (max_iterations (config (add_iteration it task))
           <=? current_iteration (add_iteration it task)) with true.
  - reflexivity.
  - symmetry. apply Z.leb_le. rewrite Hlen. exact Hmax.
Qed.

(** C2, the code at [max_iterations = 1] and an answer without completion
    signal: the loop stops after the one iteration, but the task ends
    [failed] with the error "Max iterations (1) reached", not [timeout]. *)
Theorem C2_single_iteration_ends_failed :
  exists (task : RalphTask) (s : State),
    run_task (Demo.scripted (fun _ => Demo.says "working on it"))
      (new_task 0 "Test task" (Demo.unchecked 1)) Demo.state
    = Finished task s
    /\ iterations task = [Demo.plain_iteration 1 "working on it"]
    /\ completion_result task = None
    /\ status task = TaskStatus.FAILED
    /\ task_error task = Some "Max iterations (1) reached"
    /\ PyStr.contains "time" (PyStr.lower "Max iterations (1) reached") = false.
Proof.
  eexists _, _. split; [vm_compute; reflexivity |].
  repeat split.
Qed.
(** *** The stuck-loop rule *)

Lemma remove_dups_three (r : string) : remove_dups [r; r; r] = [r].
Proof.
  cbn [remove_dups].
  destruct (decide_rel elem_of r [r; r]) as [_|Hn]; [| exfalso; apply Hn; set_solver].
  destruct (decide_rel elem_of r [r]) as [_|Hn]; [| exfalso; apply Hn; set_solver].
  destruct (decide_rel elem_of r []) as [Hin|_]; [| reflexivity].
  exfalso. set_solver.
Qed.

(** C6 as stated fails on the code: with three identical recent responses
    and no completion, the reason is another one when the ceiling is
    reached by that iteration (first run: three times the same answer under
    [max_iterations = 3]) and when four of the last five iterations carry
    an error (second run: the model fails in every iteration but the
    second; the failed iterations all have the empty response). *)
Lemma C6_counterexample :
  (exists (task : RalphTask) (s : State),
      run_task (Demo.scripted (fun _ => Demo.says "same answer"))
        (new_task 0 "Test task" (Demo.unchecked 3)) Demo.state
      = Finished task s
      /\ recent_responses task = ["same answer"; "same answer"; "same answer"]
      /\ completion_result task = None
      /\ task_error task = Some "Max iterations (3) reached"
      /\ PyStr.contains "stuck" "Max iterations (3) reached" = false)
  /\ (exists (task : RalphTask) (s : State),
      run_task (Demo.scripted (fun k => match k with
                                        | 1%nat => Demo.says "x"
                                        | _ => inr "connection lost"
                                        end))
        (new_task 0 "Test task" (Demo.unchecked 10)) Demo.state
      = Finished task s
      /\ recent_responses task = [EmptyString; EmptyString; EmptyString]
      /\ completion_result task = None
      /\ status task = TaskStatus.FAILED
      /\ task_error task = Some "Too many consecutive errors"
      /\ PyStr.contains "stuck" "Too many consecutive errors" = false).
Proof.
  split.
  - eexists _, _. split; [vm_compute; reflexivity |]. repeat split.
  - eexists _, _. split; [vm_compute; reflexivity |]. repeat split.
Qed.

(** C6, amended. When the responses of the last three recorded iterations
    agree on their first 500 characters, the detector has not declared the
    task complete and the ceiling is not reached, the loop is left after
    that iteration and the task is marked [failed]; the reason is
    "Agent appears stuck (identical responses)" unless four of the last
    five iterations carry an error, in which case it is
    "Too many consecutive errors". *)
Theorem C6_stuck_loop_fails :
  forall (det : CompletionDetector) (task : RalphTask) (it : RalphIteration) (r : string),
    is_complete (check_completion det (add_iteration it task) it) = false ->
    current_iteration (add_iteration it task) < max_iterations (config task) ->
    3 <= PyStr.len (iterations (add_iteration it task)) ->
    recent_responses (add_iteration it task) = [r; r; r] ->
    snd (after_iteration det task it) = true
    /\ status (fst (after_iteration det task it)) = TaskStatus.FAILED
    /\ task_error (fst (after_iteration det task it))
       = Some (if error_rule (add_iteration it task)
               then "Too many consecutive errors"
               else "Agent appears stuck (identical responses)")
    /\ PyStr.contains "stuck" "Agent appears stuck (identical responses)" = true.
Proof.
  intros det task it r Hc Hmax Hlen Hsame.
  unfold after_iteration, should_stop. rewrite Hc.
  replace (max_iterations (config (add_iteration it task))
           <=? current_iteration (add_iteration it task)) with false
    by (symmetry; apply Z.leb_gt; exact Hmax).
  fold (error_rule (add_iteration it task)).
  fold (recent_responses (add_iteration it task)).
  destruct (error_rule (add_iteration it task)).
  - repeat split.
  - rewrite Hsame, remove_dups_three.
    replace (3 <=? PyStr.len (iterations (add_iteration it task))) with true
      by (symmetry; apply Z.leb_le; exact Hlen).
    repeat split.
Qed.

(** C6 at the third of three identical answers under a ceiling of ten. *)
Lemma C6_stuck_loop_fails_witness :
  let it := Demo.plain_iteration 3 "same answer" in
  let task :=
    add_iteration (Demo.plain_iteration 2 "same answer")
      (add_iteration (Demo.plain_iteration 1 "same answer")
         (start (new_task 0 "Test task" (Demo.unchecked 10)))) in
  snd (after_iteration Demo.detector task it) = true
  /\ status (fst (after_iteration Demo.detector task it)) = TaskStatus.FAILED
  /\ task_error (fst (after_iteration Demo.detector task it))
     = Some (if error_rule (add_iteration it task)
             then "Too many consecutive errors"
             else "Agent appears stuck (identical responses)")
  /\ PyStr.contains "stuck" "Agent appears stuck (identical responses)" = true.
Proof.
  apply (C6_stuck_loop_fails Demo.detector _ _ "same answer").
  - reflexivity.
  - reflexivity.
  - vm_compute. discriminate.
  - reflexivity.
Defined.
(** *** The progress heuristic and its ceiling *)

Section Heuristic.

Lemma score_phrases_fst phrases response w label acc :
  exists k : nat,
    (k <= length phrases)%nat
    /\ fst (score_phrases phrases response w label acc)
       = Nat.iter k (fun x => (x + w)%float) (fst acc).
Proof.
  revert acc. induction phrases as [|p ps IH]; intros acc.
  - exists 0%nat. split; [simpl; lia | reflexivity].
  - unfold score_phrases in *. cbn [fold_left].
    destruct (PyStr.contains p response).
    + destruct (IH ((fst acc + w)%float,
                    (snd acc ++ [label +:+ "'" +:+ p +:+ "'"])%list)) as (k & Hk & Heq).
      exists (S k). split; [simpl; lia |].
      rewrite Heq. cbn [fst]. rewrite Nat.iter_succ_r. reflexivity.
    + destruct (IH acc) as (k & Hk & Heq).
      exists k. split; [simpl; lia | exact Heq].
Qed.

Lemma all_sums_capped_true : all_sums_capped = true.
Proof. vm_compute. reflexivity. Qed.

Lemma heuristic_sum_capped k1 k2 k3 b1 b2 :
  (k1 <= 9)%nat -> (k2 <= 5)%nat -> (k3 <= 4)%nat ->
  (py_min (heuristic_sum k1 k2 k3 b1 b2) 0.7 <=? 0.7)%float = true.
Proof.
  intros H1 H2 H3.
  pose proof all_sums_capped_true as H. unfold all_sums_capped in H.
  assert (I1 : In k1 (seq 0 10)) by (apply in_seq; lia).
  assert (I2 : In k2 (seq 0 6)) by (apply in_seq; lia).
  assert (I3 : In k3 (seq 0 5)) by (apply in_seq; lia).
  assert (I4 : In b1 [false; true]) by (destruct b1; simpl; auto).
  assert (I5 : In b2 [false; true]) by (destruct b2; simpl; auto).
  pose proof (proj1 (forallb_forall _ _) H k1 I1) as G1. cbv beta in G1.
  pose proof (proj1 (forallb_forall _ _) G1 k2 I2) as G2. cbv beta in G2.
  pose proof (proj1 (forallb_forall _ _) G2 k3 I3) as G3. cbv beta in G3.
  pose proof (proj1 (forallb_forall _ _) G3 b1 I4) as G4. cbv beta in G4.
  exact (proj1 (forallb_forall _ _) G4 b2 I5).
Qed.

(** The score [_analyze_progress] reports is one of those sums, capped. *)
Lemma analyze_progress_sum task it :
  exists (k1 k2 k3 : nat) (b1 b2 : bool),
    (k1 <= 9)%nat /\ (k2 <= 5)%nat /\ (k3 <= 4)%nat
    /\ pc_confidence (_analyze_progress task it)
       = py_min (heuristic_sum k1 k2 k3 b1 b2) 0.7.
Proof.
  unfold _analyze_progress. cbn [pc_confidence].
  set (response := PyStr.lower (agent_response it)).
  destruct (score_phrases_fst completion_phrases response 0.15%float "Found: "
              (0%float, [])) as (k1 & Hk1 & E1).
  set (a1 := score_phrases completion_phrases response 0.15%float "Found: "
               (0%float, [])) in *.
  destruct (score_phrases_fst verification_phrases response 0.1%float
              "Verification phrase: " a1) as (k2 & Hk2 & E2).
  set (a2 := score_phrases verification_phrases response 0.1%float
               "Verification phrase: " a1) in *.
  destruct (score_phrases_fst no_change_phrases response 0.2%float
              "No changes: " a2) as (k3 & Hk3 & E3).
  set (a3 := score_phrases no_change_phrases response 0.2%float
               "No changes: " a2) in *.
  assert (E : fst a3 = heuristic_sum k1 k2 k3 false false).
  { unfold heuristic_sum. rewrite E3, E2, E1. reflexivity. }
  set (a4 := match tool_calls it with [] => a3 | _ => _ end).
  assert (E4 : exists b1, fst a4 = heuristic_sum k1 k2 k3 b1 false).
  { subst a4. destruct (tool_calls it) as [|tc tcs].
    - exists false. exact E.
    - destruct (forallb _ (tc :: tcs)).
      + exists true. cbn [fst]. rewrite E. reflexivity.
      + exists false. exact E. }
  destruct E4 as (b1 & E4).
  set (a5 := if 2 <=? PyStr.len (iterations task) then _ else a4).
  assert (E5 : exists b2, fst a5 = heuristic_sum k1 k2 k3 b1 b2).
  { subst a5. destruct (2 <=? PyStr.len (iterations task)).
    - destruct (second_to_last (iterations task)) as [prev|].
      + destruct (PyStr.len (file_changes it) <? PyStr.len (file_changes prev)).
        * exists true. cbn [fst]. rewrite E4. reflexivity.
        * exists false. exact E4.
      + exists false. exact E4.
    - exists false. exact E4. }
  destruct E5 as (b2 & E5).
  exists k1, k2, k3, b1, b2. rewrite E5.
  split; [exact Hk1 |]. split; [exact Hk2 |]. split; [exact Hk3 |].
  reflexivity.
Qed.

Lemma analyze_progress_capped task it :
  (pc_confidence (_analyze_progress task it) <=? 0.7)%float = true.
Proof.
  destruct (analyze_progress_sum task it)
    as (k1 & k2 & k3 & b1 & b2 & H1 & H2 & H3 & E).
  rewrite E. now apply heuristic_sum_capped.
Qed.

End Heuristic.

(** C10. With an empty [backpressure_results] list the detector takes all
    checks as passed; every result it gives without a promise in the
    response has a confidence of at most 0.7; and a task with the four
    checks switched off does end [completed] on phrases of the progress
    heuristic alone (here four completion phrases, confidence
    0.6 = 0.15 + 0.15 + 0.15 + 0.15). *)
Theorem C10_empty_backpressure_is_vacuous_pass :
  all_passed (_check_backpressure []) = true
  /\ (forall (det : CompletionDetector) (task : RalphTask) (it : RalphIteration),
        backpressure_results it = [] ->
        promise_detected (check_completion det task it) = false ->
        all_tests_passed (check_completion det task it) = true)
  /\ (forall (det : CompletionDetector) (task : RalphTask) (it : RalphIteration),
        promise_detected (check_completion det task it) = false ->
        (confidence (check_completion det task it) <=? 0.7)%float = true)
  /\ (exists (task : RalphTask) (s : State) (cr : CompletionResult),
        run_task
          (Demo.scripted
             (fun _ => Demo.says "All done: the task is complete, completed successfully, tests pass."))
          (new_task 0 "Test task" (Demo.unchecked 5)) Demo.state
        = Finished task s
        /\ status task = TaskStatus.COMPLETED
        /\ PyStr.len (iterations task) = 1
        /\ completion_result task = Some cr
        /\ promise_detected cr = false
        /\ confidence cr = (0.15 + 0.15 + 0.15 + 0.15)%float
        /\ (confidence cr <=? 0.7)%float = true).
Proof.
  split; [reflexivity |]. split; [| split].
  - intros det task it Hbp. unfold check_completion.
    destruct (found _); [discriminate |]. intros _. rewrite Hbp.
    destruct (_ && _ && _)%bool; [reflexivity |].
    destruct (negb _); reflexivity.
  - intros det task it. unfold check_completion.
    destruct (found _); [discriminate |]. intros _.
    destruct (_ && _ && _)%bool; [apply analyze_progress_capped |].
    destruct (negb _); [reflexivity | apply analyze_progress_capped].
  - eexists _, _, _. split; [vm_compute; reflexivity |].
    repeat split.
Qed.

(** C10 at an iteration without checks whose answer holds one phrase. *)
Lemma C10_empty_backpressure_is_vacuous_pass_witness :
  all_tests_passed
    (check_completion Demo.detector
       (add_iteration (Demo.plain_iteration 1 "all done")
          (start (new_task 0 "Test task" (Demo.unchecked 5))))
       (Demo.plain_iteration 1 "all done")) = true
  /\ (confidence
        (check_completion Demo.detector
           (add_iteration (Demo.plain_iteration 1 "all done")
              (start (new_task 0 "Test task" (Demo.unchecked 5))))
           (Demo.plain_iteration 1 "all done")) <=? 0.7)%float = true.
Proof.
  split.
  - apply (proj1 (proj2 C10_empty_backpressure_is_vacuous_pass)); reflexivity.
  - apply (proj1 (proj2 (proj2 C10_empty_backpressure_is_vacuous_pass))); reflexivity.
Defined.
(** *** The gate in front of the backpressure checks *)

(** C4, the code at a task with [run_build = true], a build command
    configured and the other three checks off: the iteration completes with
    no backpressure result and no subprocess was started (the clock, which
    every check reads, was not read), although [_run_backpressure] itself,
    run in the same state, executes the build command and returns a result
    of type "build". *)
Theorem C4_build_check_is_skipped :
  let lw := Demo.scripted (fun _ => Demo.says "working on it") in
  let task := start (new_task 0 "Build it" build_only_config) in
  exists (it : RalphIteration) (s' : State),
    _run_iteration lw Demo.toolkit task Demo.detector 0 Demo.state = (Return it, s')
    /\ it_status it = IterationStatus.COMPLETED
    /\ backpressure_results it = []
    /\ st_clock s' = st_clock Demo.state
    /\ exists (r : BackpressureResult) (s'' : State),
         _run_backpressure lw Demo.toolkit task Demo.state = (Return [r], s'')
         /\ check_type r = "build"
         /\ passed r = true.
Proof.
  eexists _, _. split; [vm_compute; reflexivity |].
  repeat split.
  eexists _, _. split; [vm_compute; reflexivity |].
  repeat split.
Qed.
(** *** Subprocess timeouts *)

(** C5 as stated fails on the code: the result of a [run_command] whose
    child timed out after writing "partial" has the exit code and the error
    text but no ["stdout"] entry at all. *)
Lemma C5_counterexample :
  exists (d : dict) (s' : State),
    _tool_run_command hanging_world Demo.toolkit
      [("command", VStr "sleep 100"); ("timeout", VInt 1)] Demo.state
    = (Return d, s')
    /\ dict_get "exit_code" d = Some (VInt (-1))
    /\ dict_get "error" d = Some (VStr "Command timed out after 1s")
    /\ dict_get "stdout" d = None
    /\ st_killed s' = ["sleep 100"].
Proof.
  eexists _, _. split; [vm_compute; reflexivity |].
  repeat split.
Qed.

(** The timeout branch of [RalphToolkit._run_shell_command]. *)
Lemma run_shell_command_timeout w self command timeout s po pe fs' :
  shell w (st_fs s) (working_dir self) command timeout = (TimedOut po pe, fs') ->
  _run_shell_command w self command timeout s
  = (Return [("error", VStr ("Command timed out after " +:+ pretty timeout +:+ "s"));
             ("exit_code", VInt (-1))],
     after_kill command fs' s).
Proof.
  intros H. unfold _run_shell_command, bind, get_fs. cbn [fst snd]. rewrite H.
  reflexivity.
Qed.

(** C5, amended. When the subprocess of a [run_command] call (shell
    commands allowed, no denylisted text in the command) exceeds its
    timeout, which is the requested one capped at 300, the child is killed
    and the result is exactly the error text
    "Command timed out after <timeout>s" and the exit code -1; nothing of
    what the child wrote is returned. *)
Theorem C5_timeout_result :
  forall (w : World) (self : Toolkit) (command : string) (timeout : Z)
         (s : State) (partial_stdout partial_stderr : string) (fs' : FS),
    allow_shell self = true ->
    List.find (fun d => PyStr.contains d command) dangerous = None ->
    shell w (st_fs s) (working_dir self) command (Z.min timeout 300)
    = (TimedOut partial_stdout partial_stderr, fs') ->
    _tool_run_command w self [("command", VStr command); ("timeout", VInt timeout)] s
    = (Return [("error", VStr ("Command timed out after "
                               +:+ pretty (Z.min timeout 300) +:+ "s"));
               ("exit_code", VInt (-1))],
       after_kill command fs' s).
Proof.
  intros w self command timeout s po pe fs' Hallow Hsafe Hshell.
  unfold _tool_run_command, check_keywords, required, optional, as_int, as_str.
  cbn [List.find existsb fst snd dict_get String.eqb Ascii.eqb Bool.eqb negb orb andb].
  unfold bind at 1 2. unfold ret at 1 2. rewrite Hallow. cbn [negb].
  unfold bind at 1 2. unfold ret at 1 2. rewrite Hsafe.
  exact (run_shell_command_timeout w self command (Z.min timeout 300) s po pe fs' Hshell).
Qed.

(** C5 at a child that hangs after writing "partial". *)
Lemma C5_timeout_result_witness :
  _tool_run_command hanging_world Demo.toolkit
    [("command", VStr "sleep 100"); ("timeout", VInt 1)] Demo.state
  = (Return [("error", VStr "Command timed out after 1s");
             ("exit_code", VInt (-1))],
     after_kill "sleep 100" Demo.files Demo.state).
Proof.
  apply (C5_timeout_result hanging_world Demo.toolkit "sleep 100" 1 Demo.state
           "partial" EmptyString Demo.files); reflexivity.
Defined.
(** *** Path resolution and symbolic links *)

Lemma walk_same_links fs fs' :
  same_links fs fs' ->
  forall rest cur, walk fs cur rest = walk fs' cur rest.
Proof.
  intros H rest. induction rest as [|c r IH]; intros cur; cbn [walk]; [reflexivity |].
  destruct (skipped c); [apply IH |].
  destruct (String.eqb c ".."); [apply IH |].
  pose proof (H (cur ++ [c])%list) as Hk. unfold link_at in Hk.
  destruct (fs !! (cur ++ [c])%list) as [[| |t]|], (fs' !! (cur ++ [c])%list) as [[| |t']|];
    try discriminate; try apply IH.
  injection Hk as <-. reflexivity.
Qed.

Lemma realpath_same_links fs fs' :
  same_links fs fs' ->
  forall links cur rest, realpath links fs cur rest = realpath links fs' cur rest.
Proof.
  intros H links. induction links as [|n IH]; intros cur rest; cbn [realpath];
    rewrite (walk_same_links fs fs' H rest cur);
    destruct (walk fs' cur rest) as [p|[cur' rest']]; auto.
Qed.

Lemma insert_same_links (fs : FS) (p : list string) (n : node) :
  link_at fs p = None ->
  (forall t, n <> Symlink t) ->
  same_links (<[p := n]> fs) fs.
Proof.
  intros Hp Hn k. unfold link_at in *.
  destruct (decide (p = k)) as [->|Hne].
  - rewrite lookup_insert_eq. destruct n; try reflexivity; try (symmetry; exact Hp).
    exfalso. eapply Hn. reflexivity.
  - rewrite lookup_insert_ne by exact Hne. reflexivity.
Qed.

Lemma mkdir_from_same_links rest :
  forall fs cur fs' err,
    mkdir_from fs cur rest = (fs', err) -> same_links fs' fs.
Proof.
  induction rest as [|c r IH]; intros fs cur fs' err; cbn [mkdir_from].
  - intros [= <- _] k. reflexivity.
  - destruct (fs !! (cur ++ [c])%list) as [[| |t]|] eqn:E.
    + intros [= <- _] k. reflexivity.
    + apply IH.
    + intros [= <- _] k. reflexivity.
    + intros H k. rewrite (IH _ _ _ _ H k).
      apply insert_same_links; [unfold link_at; now rewrite E | discriminate].
Qed.

Lemma write_text_inv w fs p content fs' :
  write_text w fs p content = (fs', None) ->
  fs' = <[p := File content]> fs /\ p <> [] /\ link_at fs p = None.
Proof.
  unfold write_text, link_at.
  destruct p as [|c p']; cbn [lookup_node]; [discriminate |].
  destruct (fs !! (c :: p')) as [[| |t]|]; try discriminate;
    destruct (fs_is_dir fs (removelast (c :: p'))); try discriminate;
    destruct (write_fault w fs (c :: p') content) as [[written msg]|];
    try discriminate;
    intros [= <-]; auto.
Qed.

(** A write that fails leaves the files as they were, or the file at the
    path with the characters that had reached it. *)
Lemma write_text_failed w fs p content fs' msg :
  write_text w fs p content = (fs', Some msg) ->
  fs' = fs
  \/ exists written : nat,
       write_fault w fs p content = Some (written, msg)
       /\ fs' = <[p := File (PyStr.take written content)]> fs.
Proof.
  unfold write_text.
  destruct (lookup_node fs p) as [[| |t]|]; try (intros [= <- _]; now left);
    destruct (fs_is_dir fs (removelast p)); try (intros [= <- _]; now left);
    destruct (write_fault w fs p content) as [[written m]|]; try discriminate;
    intros [= <- <-]; right; exists written; auto.
Qed.

Lemma link_free_nil fs : link_free fs [].
Proof.
  intros q Hq Hp. apply prefix_nil_inv in Hp. contradiction.
Qed.

Lemma link_free_removelast fs p : link_free fs p -> link_free fs (removelast p).
Proof.
  intros H q Hq Hp. apply H; [exact Hq |].
  destruct (decide (p = [])) as [->|Hne]; [exact Hp |].
  rewrite (app_removelast_last EmptyString Hne).
  now apply prefix_app_r.
Qed.

Lemma link_free_snoc fs p c :
  link_free fs p -> link_at fs (p ++ [c])%list = None -> link_free fs (p ++ [c])%list.
Proof.
  intros H Hc q Hq [k Hk].
  destruct k as [|x k _] using rev_ind.
  - rewrite app_nil_r in Hk. now subst q.
  - rewrite app_assoc in Hk. apply app_inj_tail in Hk as [-> _].
    apply H; [exact Hq | now exists k].
Qed.

Lemma walk_link_free fs rest :
  forall cur, link_free fs cur ->
    match walk fs cur rest with
    | inl p => link_free fs p
    | inr (cur', _) => link_free fs cur'
    end.
Proof.
  induction rest as [|c r IH]; intros cur Hcur; cbn [walk]; [exact Hcur |].
  destruct (skipped c); [now apply IH |].
  destruct (String.eqb c ".."); [apply IH; now apply link_free_removelast |].
  destruct (fs !! (cur ++ [c])%list) as [[| |t]|] eqn:E.
  - apply IH, link_free_snoc; [exact Hcur | unfold link_at; now rewrite E].
  - apply IH, link_free_snoc; [exact Hcur | unfold link_at; now rewrite E].
  - destruct (is_absolute t); [apply link_free_nil | exact Hcur].
  - apply IH, link_free_snoc; [exact Hcur | unfold link_at; now rewrite E].
Qed.

Lemma realpath_link_free fs links :
  forall cur rest p,
    link_free fs cur -> realpath links fs cur rest = Some p -> link_free fs p.
Proof.
  induction links as [|n IH]; intros cur rest p Hcur; cbn [realpath];
    pose proof (walk_link_free fs rest cur Hcur) as Hw;
    destruct (walk fs cur rest) as [p'|[cur' rest']].
  - intros [= <-]. exact Hw.
  - discriminate.
  - intros [= <-]. exact Hw.
  - intros H. exact (IH _ _ _ Hw H).
Qed.

(** A path the toolkit resolved names no symbolic link (so the file
    operations never meet one), as long as the working directory itself is
    still free of links. *)
Lemma resolve_not_a_link fs base path p :
  link_free fs base -> resolve fs base path = Some p -> p <> [] -> link_at fs p = None.
Proof.
  intros Hbase Hres Hne. unfold resolve in Hres.
  destruct (PyStr.contains NUL path); [discriminate |].
  assert (Hstart : link_free fs (if is_absolute path then [] else base))
    by (destruct (is_absolute path); [apply link_free_nil | exact Hbase]).
  exact (realpath_link_free fs _ _ _ _ Hstart Hres p Hne ltac:(reflexivity)).
Qed.
(** *** Path confinement *)

(** [RalphToolkit._resolve_path] refuses a path exactly when the text of
    the resolved path does not begin with the text of the working
    directory; nothing is touched then. *)
Lemma resolve_path_refuses self path s full :
  resolve (st_fs s) (working_dir self) path = Some full ->
  PyStr.startswith (path_str full) (path_str (working_dir self)) = false ->
  _resolve_path self path s
  = (Raise ("Path " +:+ path +:+ " is outside working directory"), s).
Proof.
  intros Hres Hpre. unfold _resolve_path, bind, get_fs. cbn [fst snd].
  rewrite Hres, Hpre. reflexivity.
Qed.

(** C1, the code at the working directory [/work/dir] and the path
    [../dir-evil/secret.txt]: the path resolves to
    [/work/dir-evil/secret.txt], which is not under [/work/dir], but its
    text begins with the text "/work/dir", so the check lets it through:
    the call returns success, and the directory [/work/dir-evil] and the
    file in it now exist. *)
Theorem C1_sibling_directory_is_written :
  exists (tc : ToolCall) (s' : State),
    execute_tool Demo.world Demo.toolkit "write_file"
      [("path", VStr "../dir-evil/secret.txt"); ("content", VStr "x")] Demo.state
    = (Return tc, s')
    /\ resolve Demo.files (working_dir Demo.toolkit) "../dir-evil/secret.txt"
       = Some ["work"; "dir-evil"; "secret.txt"]
    /\ relative_to (working_dir Demo.toolkit) ["work"; "dir-evil"; "secret.txt"] = None
    /\ error tc = None
    /\ result tc = Some [("success", VBool true);
                         ("path", VStr "../dir-evil/secret.txt");
                         ("action", VStr "create");
                         ("lines", VInt 1)]
    /\ Demo.files !! ["work"; "dir-evil"; "secret.txt"] = None
    /\ st_fs s' !! ["work"; "dir-evil"; "secret.txt"] = Some (File "x")
    /\ st_fs s' !! ["work"; "dir-evil"] = Some Dir.
Proof.
  eexists _, _. split; [vm_compute; reflexivity |].
  repeat split; vm_compute; reflexivity.
Qed.
(** *** Errors of a tool call *)

(** C7 as stated fails on the code: reading a file that does not exist is a
    failure, yet the tool call comes back with a result (the dictionary
    holding the error text) and without an error string. *)
Lemma C7_counterexample :
  exists (tc : ToolCall) (s' : State),
    execute_tool Demo.world Demo.toolkit "read_file"
      [("path", VStr "missing.txt")] Demo.state
    = (Return tc, s')
    /\ result tc = Some [("error", VStr "File not found: missing.txt")]
    /\ error tc = None.
Proof.
  eexists _, _. split; [vm_compute; reflexivity |].
  split; reflexivity.
Qed.

(** C7, amended. [execute_tool] always returns a tool call and never
    raises; [duration_ms] is the difference of the two clock readings it
    takes; an unknown tool name gives the error "Unknown tool: <name>" and
    no result; an exception raised by the tool gives its text as the error
    and no result; and whatever the tool returns (a dictionary with an
    ["error"] entry included) is stored as the result, with no error
    string. *)
Theorem C7_execute_tool_never_raises :
  forall (w : World) (self : Toolkit) (name : string) (arguments : dict) (s : State),
    exists (tc : ToolCall) (s' : State),
      execute_tool w self name arguments s = (Return tc, s')
      /\ tool_name tc = name
      /\ duration_ms tc = time_ms w (Nat.pred (st_clock s')) - time_ms w (st_clock s)
      /\ match lookup_method w self name with
         | None =>
             result tc = None /\ error tc = Some ("Unknown tool: " +:+ name)
         | Some method =>
             match fst (method arguments (after_clock_read s)) with
             | Return r => result tc = r /\ error tc = None
             | Raise e => result tc = None /\ error tc = Some e
             end
         end.
Proof.
  intros w self name arguments s.
  unfold execute_tool, bind, try_except, time, ret.
  fold (after_clock_read s).
  destruct (lookup_method w self name) as [method|].
  - destruct (method arguments (after_clock_read s)) as [[r|e] s2]; cbn [fst snd];
      eexists _, _; (split; [reflexivity |]); cbn; auto.
  - eexists _, _. split; [reflexivity |]. cbn. auto.
Qed.
(** *** Writing a file and reading it back *)

(** What a successful [write_file] has done. *)
Lemma write_file_success w self path content s d s1 :
  _tool_write_file w self (write_args path content) s = (Return d, s1) ->
  dict_get "success" d = Some (VBool true) ->
  exists (full : list string) (fs1 : FS),
    resolve (st_fs s) (working_dir self) path = Some full
    /\ PyStr.startswith (path_str full) (path_str (working_dir self)) = true
    /\ mkdir_p (st_fs s) (removelast full) = (fs1, None)
    /\ write_text w fs1 full content = (st_fs s1, None).
Proof.
  unfold _tool_write_file, write_args.
  unfold check_keywords, required, as_str, _resolve_path, try_except, bind, ret, raise,
    get_fs, fs_op, of_sum, record_change.
  cbn [List.find existsb fst snd dict_get String.eqb Ascii.eqb Bool.eqb negb orb andb].
  destruct (resolve (st_fs s) (working_dir self) path) as [full|] eqn:Eres;
    [| discriminate].
  destruct (PyStr.startswith (path_str full) (path_str (working_dir self))) eqn:Epre;
    cbn [negb]; [| discriminate].
  destruct (mkdir_p (st_fs s) (removelast full)) as [fs1 [msg|]] eqn:Emk; cbn [st_fs].
  { intros H. injection H as <- _. discriminate. }
  destruct (fs_exists fs1 full).
  - destruct (read_text fs1 full) as [old|msg]; unfold ret, raise; cbn [st_fs].
    + destruct (write_text w fs1 full content) as [fs2 [msg|]] eqn:Ewr.
      * intros H. injection H as <- _. discriminate.
      * intros H _. injection H as _ <-. exists full, fs1. cbn [st_fs]. auto.
    + intros H. injection H as <- _. discriminate.
  - cbn [st_fs].
    destruct (write_text w fs1 full content) as [fs2 [msg|]] eqn:Ewr.
    + intros H. injection H as <- _. discriminate.
    + intros H _. injection H as _ <-. exists full, fs1. cbn [st_fs]. auto.
Qed.

Lemma universal_newlines_id (c : string) :
  PyStr.contains (String PyStr.CR EmptyString) c = false ->
  PyStr.universal_newlines c = c.
Proof.
  induction c as [|a c IH]; [reflexivity |].
  cbn [PyStr.contains PyStr.startswith PyStr.universal_newlines].
  rewrite Ascii.eqb_sym.
  destruct (Ascii.eqb a PyStr.CR).
  - destruct c; discriminate.
  - cbn [orb]. intros H. rewrite IH by exact H. reflexivity.
Qed.

(** C9 as stated fails on the code: a carriage return written to a file is
    read back as a line feed. *)
Lemma C9_counterexample :
  let content := "a" +:+ carriage_return +:+ "b" in
  exists (d1 d2 : dict) (s1 s2 : State),
    _tool_write_file Demo.world Demo.toolkit (write_args "notes.txt" content) Demo.state
    = (Return d1, s1)
    /\ dict_get "success" d1 = Some (VBool true)
    /\ _tool_read_file Demo.toolkit (read_args "notes.txt") s1 = (Return d2, s2)
    /\ dict_get "content" d2 = Some (VStr ("a" +:+ nl +:+ "b"))
    /\ String.eqb ("a" +:+ nl +:+ "b") content = false.
Proof.
  eexists _, _, _, _. split; [vm_compute; reflexivity |].
  split; [reflexivity |]. split; [vm_compute; reflexivity |].
  split; reflexivity.
Qed.

(** C9, amended. After a successful [write_file(p, c)], [read_file(p)]
    without a line range succeeds, changes nothing, and returns as content
    [c] with every carriage return and line feed pair and every lone
    carriage return replaced by a line feed; so it returns [c] itself when
    [c] holds no carriage return. *)
Theorem C9_write_then_read :
  forall (w : World) (self : Toolkit) (path content : string) (s s1 : State)
         (d1 : dict),
    _tool_write_file w self (write_args path content) s = (Return d1, s1) ->
    dict_get "success" d1 = Some (VBool true) ->
    exists d2 : dict,
      _tool_read_file self (read_args path) s1 = (Return d2, s1)
      /\ dict_get "content" d2 = Some (VStr (PyStr.universal_newlines content))
      /\ (PyStr.contains carriage_return content = false ->
          dict_get "content" d2 = Some (VStr content)).
Proof.
  intros w self path content s s1 d1 Hw Hs.
  destruct (write_file_success w self path content s d1 s1 Hw Hs)
    as (full & fs1 & Hres & Hpre & Hmk & Hwr).
  destruct (write_text_inv _ _ _ _ _ Hwr) as (Hfs & Hne & Hlink).
  assert (Hsame : same_links (st_fs s1) (st_fs s)).
  { intros k. rewrite Hfs.
    rewrite (insert_same_links fs1 full (File content) Hlink) by discriminate.
    unfold mkdir_p in Hmk. apply (mkdir_from_same_links _ _ _ _ _ Hmk). }
  assert (Hres1 : resolve (st_fs s1) (working_dir self) path = Some full).
  { unfold resolve in *. rewrite (realpath_same_links _ _ Hsame). exact Hres. }
  assert (Hnode : lookup_node (st_fs s1) full = Some (File content)).
  { destruct full as [|c f]; [congruence |]. cbn [lookup_node].
    rewrite Hfs. apply lookup_insert_eq. }
  unfold _tool_read_file, read_args.
  unfold check_keywords, required, as_str, as_opt_int, optional, _resolve_path,
    try_except, bind, ret, raise, get_fs, of_sum.
  cbn [List.find existsb fst snd dict_get String.eqb Ascii.eqb Bool.eqb negb orb andb].
  rewrite Hres1, Hpre. cbn [negb].
  unfold fs_exists, fs_is_file, read_text. rewrite Hnode. cbn [negb].
  eexists. split; [reflexivity |]. split; [reflexivity |].
  intros Hcr. cbn [dict_get String.eqb Ascii.eqb Bool.eqb].
  now rewrite (universal_newlines_id content Hcr).
Qed.

(** C9 at a two-line text written to a new file in a new directory. *)
Lemma C9_write_then_read_witness :
  let content := "first" +:+ nl +:+ "second" in
  let s1 := snd (_tool_write_file Demo.world Demo.toolkit
                   (write_args "docs/notes.txt" content) Demo.state) in
  exists d2 : dict,
    _tool_read_file Demo.toolkit (read_args "docs/notes.txt") s1 = (Return d2, s1)
    /\ dict_get "content" d2 = Some (VStr (PyStr.universal_newlines content))
    /\ (PyStr.contains carriage_return content = false ->
        dict_get "content" d2 = Some (VStr content)).
Proof.
  eapply (C9_write_then_read Demo.world Demo.toolkit "docs/notes.txt" _ Demo.state).
  - apply pair_of_fst. vm_compute. reflexivity.
  - reflexivity.
Defined.
(** *** Paths inside and outside the working directory *)

Section TextPrefix.

Lemma append_nil_r (a : string) : a +:+ EmptyString = a.
Proof.
  induction a as [|c a IH]; [reflexivity |].
  change (String c (a +:+ EmptyString) = String c a). now rewrite IH.
Qed.

Lemma append_assoc (a b c : string) : (a +:+ b) +:+ c = a +:+ (b +:+ c).
Proof.
  induction a as [|x a IH]; [reflexivity |].
  change (String x ((a +:+ b) +:+ c) = String x (a +:+ (b +:+ c))). now rewrite IH.
Qed.

Lemma startswith_app (a b : string) : PyStr.startswith (a +:+ b) a = true.
Proof.
  induction a as [|c a IH]; [destruct b; reflexivity |].
  change (PyStr.startswith (String c (a +:+ b)) (String c a) = true).
  cbn [PyStr.startswith]. rewrite Ascii.eqb_refl. exact IH.
Qed.

Lemma relative_to_app base f rel :
  relative_to base f = Some rel -> f = (base ++ rel)%list.
Proof.
  revert f. induction base as [|b base IH]; intros f; cbn [relative_to].
  - intros [= <-]. reflexivity.
  - destruct f as [|c f]; [discriminate |].
    destruct (String.eqb b c) eqn:E; [| discriminate].
    apply String.eqb_eq in E. subst c. intros H. cbn. f_equal. now apply IH.
Qed.

(** The text of a path that is not the root, one component after the
    other. *)
Lemma slashes_cons (x : string) (l : list string) :
  String.concat EmptyString (map (fun c => "/" +:+ c) (x :: l))
  = ("/" +:+ x) +:+ String.concat EmptyString (map (fun c => "/" +:+ c) l).
Proof.
  destruct l as [|y l]; [cbn [map String.concat]; symmetry; apply append_nil_r |].
  reflexivity.
Qed.

Lemma slashes_app (l1 l2 : list string) :
  String.concat EmptyString (map (fun c => "/" +:+ c) (l1 ++ l2))
  = String.concat EmptyString (map (fun c => "/" +:+ c) l1)
    +:+ String.concat EmptyString (map (fun c => "/" +:+ c) l2).
Proof.
  induction l1 as [|x l1 IH]; [reflexivity |].
  change ((x :: l1) ++ l2)%list with (x :: (l1 ++ l2))%list.
  rewrite !slashes_cons, IH. symmetry. apply append_assoc.
Qed.

(** A path under a directory has a text that begins with the text of the
    directory. *)
Lemma path_str_under (base rel : list string) :
  PyStr.startswith (path_str (base ++ rel)) (path_str base) = true.
Proof.
  destruct base as [|b base].
  - cbn [app]. unfold path_str. destruct rel as [|r rel]; [reflexivity |].
    rewrite slashes_cons, append_assoc. apply startswith_app.
  - unfold path_str. cbn [app].
    change (b :: (base ++ rel))%list with ((b :: base) ++ rel)%list.
    rewrite slashes_app. apply startswith_app.
Qed.

End TextPrefix.

(** X1. A path that resolves to the working directory or below it is never
    refused: [_resolve_path] returns the resolved path and touches
    nothing. *)
Theorem X1_inside_paths_are_accepted :
  forall (self : Toolkit) (path : string) (s : State) (full rel : list string),
    resolve (st_fs s) (working_dir self) path = Some full ->
    relative_to (working_dir self) full = Some rel ->
    _resolve_path self path s = (Return full, s).
Proof.
  intros self path s full rel Hres Hrel.
  unfold _resolve_path, bind, get_fs. cbn [fst snd]. rewrite Hres.
  rewrite (relative_to_app _ _ _ Hrel), path_str_under. reflexivity.
Qed.

(** X1 at a path that leaves a subdirectory and comes back. *)
Lemma X1_inside_paths_are_accepted_witness :
  _resolve_path Demo.toolkit "src/../docs/./notes.txt" Demo.state
  = (Return ["work"; "dir"; "docs"; "notes.txt"], Demo.state).
Proof.
  apply (X1_inside_paths_are_accepted Demo.toolkit "src/../docs/./notes.txt"
           Demo.state _ ["docs"; "notes.txt"]); reflexivity.
Defined.

Section Refusal.

Variable w : World.
Variable self : Toolkit.

(** What [execute_tool] returns when the tool raises [msg] without having
    changed the state. *)
Lemma execute_tool_raise name method args msg s :
  lookup_method w self name = Some method ->
  method args (after_clock_read s) = (Raise msg, after_clock_read s) ->
  execute_tool w self name args s
  = (Return {| tool_name := name; arguments := args; result := None;
               error := Some msg;
               duration_ms := time_ms w (S (st_clock s)) - time_ms w (st_clock s) |},
     after_two_clock_reads s).
Proof.
  intros Hm Hr. unfold execute_tool, bind, try_except, time, ret.
  fold (after_clock_read s). rewrite Hm, Hr. reflexivity.
Qed.

(** Each of the seven tools raises the refusal of [_resolve_path] before it
    does anything else. *)
Lemma path_call_refused name args path content old_text new_text pattern s full :
  resolve (st_fs s) (working_dir self) path = Some full ->
  PyStr.startswith (path_str full) (path_str (working_dir self)) = false ->
  In (name, args) (path_calls path content old_text new_text pattern) ->
  exists method,
    lookup_method w self name = Some method
    /\ method args s
       = (Raise ("Path " +:+ path +:+ " is outside working directory"), s).
Proof.
  intros Hres Hpre Hin.
  pose proof (resolve_path_refuses self path s full Hres Hpre) as Href.
  unfold path_calls in Hin. cbn [In] in Hin.
  repeat (destruct Hin as [Hin | Hin]; [injection Hin as <- <- |]);
    try contradiction;
    (eexists; split; [reflexivity |]);
    unfold some_dict, _tool_read_file, _tool_write_file, _tool_edit_file,
      _tool_list_files, _tool_search_files, _tool_create_directory,
      _tool_delete_file, check_keywords, required, optional, as_str, as_opt_str;
    cbn [List.find existsb fst snd dict_get String.eqb Ascii.eqb Bool.eqb
         negb orb andb value_truthy];
    unfold bind, ret; rewrite Href; reflexivity.
Qed.

End Refusal.

(** X2. When the resolved path of a call does not pass the check of
    [_resolve_path], none of the seven tools that take a path does
    anything: the call returns the error "Path <path> is outside working
    directory" and no result, and the files, the buffer of file changes and
    the killed processes are as before (only the clock was read, twice). *)
Theorem X2_refused_paths_touch_nothing :
  forall (w : World) (self : Toolkit) (name : string) (args : dict)
         (path content old_text new_text pattern : string)
         (s : State) (full : list string),
    resolve (st_fs s) (working_dir self) path = Some full ->
    PyStr.startswith (path_str full) (path_str (working_dir self)) = false ->
    In (name, args) (path_calls path content old_text new_text pattern) ->
    execute_tool w self name args s
    = (Return {| tool_name := name; arguments := args; result := None;
                 error := Some ("Path " +:+ path +:+ " is outside working directory");
                 duration_ms := time_ms w (S (st_clock s)) - time_ms w (st_clock s) |},
       after_two_clock_reads s).
Proof.
  intros w self name args path content old_text new_text pattern s full Hres Hpre Hin.
  destruct (path_call_refused w self name args path content old_text new_text
              pattern (after_clock_read s) full Hres Hpre Hin) as (method & Hm & Hr).
  exact (execute_tool_raise w self name method args _ s Hm Hr).
Qed.

(** X2 at a [delete_file] call on an absolute path outside. *)
Lemma X2_refused_paths_touch_nothing_witness :
  execute_tool Demo.world Demo.toolkit "delete_file" [("path", VStr "/etc/passwd")]
    Demo.state
  = (Return {| tool_name := "delete_file";
               arguments := [("path", VStr "/etc/passwd")];
               result := None;
               error := Some "Path /etc/passwd is outside working directory";
               duration_ms := 1 |},
     after_two_clock_reads Demo.state).
Proof.
  apply (X2_refused_paths_touch_nothing Demo.world Demo.toolkit "delete_file"
           [("path", VStr "/etc/passwd")] "/etc/passwd" EmptyString EmptyString
           EmptyString EmptyString Demo.state ["etc"; "passwd"]).
  - reflexivity.
  - reflexivity.
  - do 6 right. left. reflexivity.
Defined.
(** *** Tools that only read *)

Section ReadOnly.

Lemma read_only_ret {A} (a : A) : read_only (ret a).
Proof. intros s. reflexivity. Qed.

Lemma read_only_raise {A} (msg : string) : read_only (@raise A msg).
Proof. intros s. reflexivity. Qed.

Lemma read_only_get_fs : read_only get_fs.
Proof. intros s. reflexivity. Qed.

Lemma read_only_bind {A B} (m : M A) (k : A -> M B) :
  read_only m -> (forall a, read_only (k a)) -> read_only (bind m k).
Proof.
  intros Hm Hk s. unfold bind. specialize (Hm s).
  destruct (m s) as [[a|msg] s1]; cbn [snd] in *; subst s1.
  - apply Hk.
  - reflexivity.
Qed.

Lemma read_only_try_except {A} (m : M A) (h : string -> M A) :
  read_only m -> (forall e, read_only (h e)) -> read_only (try_except m h).
Proof.
  intros Hm Hh s. unfold try_except. specialize (Hm s).
  destruct (m s) as [[a|msg] s1]; cbn [snd] in *; subst s1.
  - reflexivity.
  - apply Hh.
Qed.

Lemma read_only_of_sum {A} (r : A + string) : read_only (of_sum r).
Proof. destruct r; [apply read_only_ret | apply read_only_raise]. Qed.

Lemma read_only_check_keywords fname allowed args :
  read_only (check_keywords fname allowed args).
Proof.
  unfold check_keywords. destruct (List.find _ args) as [[k v]|];
    [apply read_only_raise | apply read_only_ret].
Qed.

Lemma read_only_required fname key args : read_only (required fname key args).
Proof.
  unfold required. destruct (dict_get key args);
    [apply read_only_ret | apply read_only_raise].
Qed.

Lemma read_only_as_str v : read_only (as_str v).
Proof. destruct v; first [apply read_only_ret | apply read_only_raise]. Qed.

Lemma read_only_as_opt_str v : read_only (as_opt_str v).
Proof. destruct v; first [apply read_only_ret | apply read_only_raise]. Qed.

Lemma read_only_as_opt_int v : read_only (as_opt_int v).
Proof. destruct v; first [apply read_only_ret | apply read_only_raise]. Qed.

Lemma read_only_as_int v : read_only (as_int v).
Proof. destruct v; first [apply read_only_ret | apply read_only_raise]. Qed.

Lemma read_only_resolve_path self path : read_only (_resolve_path self path).
Proof.
  unfold _resolve_path. apply read_only_bind; [apply read_only_get_fs |].
  intros fs. destruct (resolve fs (working_dir self) path) as [p|];
    [| apply read_only_raise].
  destruct (negb _); [apply read_only_raise | apply read_only_ret].
Qed.

End ReadOnly.

Ltac read_only_step :=
  first
    [ apply read_only_ret
    | apply read_only_raise
    | apply read_only_get_fs
    | apply read_only_of_sum
    | apply read_only_check_keywords
    | apply read_only_required
    | apply read_only_as_str
    | apply read_only_as_opt_str
    | apply read_only_as_opt_int
    | apply read_only_as_int
    | apply read_only_resolve_path
    | apply read_only_bind; [| intro]
    | apply read_only_try_except; [| intro] ].

(** X3. Reading a file, listing a directory and signalling completion
    change nothing: not the files, not the buffer of file changes, not the
    clock. *)
Theorem X3_read_tools_change_nothing :
  forall (w : World) (self : Toolkit) (args : dict) (s : State),
    snd (_tool_read_file self args s) = s
    /\ snd (_tool_list_files w self args s) = s
    /\ snd (_tool_complete_task args s) = s.
Proof.
  intros w self args s. split; [| split].
  - revert s. change (read_only (_tool_read_file self args)).
    unfold _tool_read_file. repeat read_only_step.
    destruct (negb _); [read_only_step |].
    destruct (negb _); [read_only_step |].
    repeat read_only_step.
  - revert s. change (read_only (_tool_list_files w self args)).
    unfold _tool_list_files. repeat read_only_step.
    destruct (negb _); [read_only_step |].
    repeat read_only_step.
  - revert s. change (read_only (_tool_complete_task args)).
    unfold _tool_complete_task. repeat read_only_step.
Qed.
(** *** What [write_file] records *)

Section WriteFile.

Lemma mkdir_from_untouched rest :
  forall fs cur fs' err k,
    mkdir_from fs cur rest = (fs', err) ->
    (length cur + length rest < length k)%nat ->
    fs' !! k = fs !! k.
Proof.
  induction rest as [|c r IH]; intros fs cur fs' err k; cbn [mkdir_from]; cbv zeta.
  - intros [= <- _] _. reflexivity.
  - intros H Hlen. cbn [length] in Hlen.
    assert (Hsnoc : length (cur ++ [c])%list = S (length cur))
      by (rewrite length_app; cbn [length]; lia).
    destruct (fs !! (cur ++ [c])%list) as [[| |t]|] eqn:E.
    + injection H as <- _. reflexivity.
    + apply (IH _ _ _ _ k) in H; [exact H | lia].
    + injection H as <- _. reflexivity.
    + apply (IH _ _ _ _ k) in H; [| lia].
      rewrite H. apply lookup_insert_ne. intros Heq. subst k. lia.
Qed.

(** Making the parent directories does not touch the path itself. *)
Lemma mkdir_parent_keeps_node fs full fs1 err :
  mkdir_p fs (removelast full) = (fs1, err) ->
  lookup_node fs1 full = lookup_node fs full.
Proof.
  intros H. destruct full as [|c f]; [reflexivity |].
  unfold lookup_node. unfold mkdir_p in H.
  apply (mkdir_from_untouched _ _ _ _ _ (c :: f) H).
  assert (Hlen : S (length (removelast (c :: f))) = length (c :: f)).
  { rewrite (app_removelast_last EmptyString (l := c :: f)) at 2 by discriminate.
    rewrite length_app. cbn [length]. lia. }
  cbn [length] in *. lia.
Qed.

Lemma pair_eq_inv {A B} (a a' : A) (b b' : B) : (a, b) = (a', b') -> a = a' /\ b = b'.
Proof. intros H. split; congruence. Qed.

(** [_tool_write_file], outcome by outcome. *)
Lemma write_file_outcome w self path content s o s1 :
  _tool_write_file w self (write_args path content) s = (o, s1) ->
  match o with
  | Raise _ => s1 = s
  | Return d =>
      match dict_get "success" d with
      | Some _ =>
          exists full : list string,
            resolve (st_fs s) (working_dir self) path = Some full
            /\ lookup_node (st_fs s1) full = Some (File content)
            /\ d = [("success", VBool true);
                    ("path", VStr path);
                    ("action",
                     VStr (action (write_change path content
                                     (lines_before (st_fs s) full))));
                    ("lines", VInt (line_count content))]
            /\ st_file_changes s1
               = (st_file_changes s
                  ++ [write_change path content (lines_before (st_fs s) full)])%list
            /\ fs_exists (st_fs s) full
               = match lines_before (st_fs s) full with Some _ => true | None => false end
      | None =>
          st_file_changes s1 = st_file_changes s
          /\ exists msg, d = [("error", VStr ("Failed to write file: " +:+ msg))]
      end
  end.
Proof.
  unfold _tool_write_file, write_args.
  unfold check_keywords, required, as_str, _resolve_path, try_except, bind, ret, raise,
    get_fs, fs_op, of_sum, record_change.
  cbn [List.find existsb fst snd dict_get String.eqb Ascii.eqb Bool.eqb negb orb andb].
  destruct (resolve (st_fs s) (working_dir self) path) as [full|] eqn:Eres;
    [| intros H; apply pair_eq_inv in H as [<- <-]; reflexivity].
  destruct (PyStr.startswith (path_str full) (path_str (working_dir self))) eqn:Epre;
    cbn [negb]; [| intros H; apply pair_eq_inv in H as [<- <-]; reflexivity].
  destruct (mkdir_p (st_fs s) (removelast full)) as [fs1 [msg|]] eqn:Emk; cbn [st_fs].
  { intros H. apply pair_eq_inv in H as [<- <-]. cbn. eauto. }
  pose proof (mkdir_parent_keeps_node _ _ _ _ Emk) as Hkeep.
  unfold fs_exists, read_text.
  destruct (lookup_node fs1 full) as [[c0| |t]|] eqn:Enode;
    unfold ret, raise; cbn [st_fs st_file_changes st_killed st_clock].
  - destruct (write_text w fs1 full content) as [fs2 [msg|]] eqn:Ewr;
      intros H; apply pair_eq_inv in H as [<- <-]; cbn [dict_get String.eqb Ascii.eqb Bool.eqb];
      [cbn; eauto |].
    exists full. destruct (write_text_inv _ _ _ _ _ Ewr) as (-> & Hne & _).
    unfold lines_before. rewrite <- Hkeep.
    cbn [st_fs st_file_changes]. repeat split.
    destruct full as [|c f]; [congruence |]. cbn [lookup_node]. apply lookup_insert_eq.
  - intros H. apply pair_eq_inv in H as [<- <-]. cbn. eauto.
  - unfold write_text. rewrite Enode.
    intros H. apply pair_eq_inv in H as [<- <-]. cbn. eauto.
  - destruct (write_text w fs1 full content) as [fs2 [msg|]] eqn:Ewr;
      intros H; apply pair_eq_inv in H as [<- <-]; cbn [dict_get String.eqb Ascii.eqb Bool.eqb];
      [cbn; eauto |].
    exists full. destruct (write_text_inv _ _ _ _ _ Ewr) as (-> & Hne & _).
    unfold lines_before. rewrite <- Hkeep.
    cbn [st_fs st_file_changes]. repeat split.
    destruct full as [|c f]; [congruence |]. cbn [lookup_node]. apply lookup_insert_eq.
Qed.

Lemma take_length_le (n : nat) (t : string) : (String.length (PyStr.take n t) <= n)%nat.
Proof.
  revert t. induction n as [|n IH]; intros t; [destruct t; cbn; lia |].
  destruct t as [|c t]; cbn [PyStr.take String.length]; [lia |].
  specialize (IH t). lia.
Qed.

Lemma line_count_nonneg (t : string) : 0 <= line_count t.
Proof. unfold line_count, PyStr.len. lia. Qed.

End WriteFile.

(** X4. A [write_file] call that reports success has appended exactly one
    record to the buffer of file changes: the path as given, the action
    "create" exactly when nothing was at the resolved path before and
    "modify" otherwise, as preview the first characters of the content (at
    most 200), line counts that are not negative; and the file now holds
    the content. A call that does not report success appends no record. *)
Theorem X4_write_file_accounting :
  forall (w : World) (self : Toolkit) (path content : string) (s s1 : State)
         (o : Outcome dict),
    _tool_write_file w self (write_args path content) s = (o, s1) ->
    if succeeded o then
      exists (full : list string) (fc : FileChange),
        resolve (st_fs s) (working_dir self) path = Some full
        /\ lookup_node (st_fs s1) full = Some (File content)
        /\ st_file_changes s1 = (st_file_changes s ++ [fc])%list
        /\ Models.path fc = path
        /\ action fc = (if fs_exists (st_fs s) full then "modify" else "create")
        /\ content_preview fc = Some (PyStr.take 200 content)
        /\ (String.length (PyStr.take 200 content) <= 200)%nat
        /\ 0 <= lines_added fc
        /\ 0 <= lines_removed fc
    else st_file_changes s1 = st_file_changes s.
Proof.
  intros w self path content s s1 o H.
  pose proof (write_file_outcome w self path content s o s1 H) as Hout.
  destruct o as [d|msg]; cbn [succeeded]; [| now subst s1].
  destruct (dict_get "success" d) as [v|] eqn:Ed.
  - destruct Hout as (full & Hres & Hnode & Hd & Hfc & Hex).
    subst d. change (Some (VBool true) = Some v) in Ed. injection Ed as <-.
    exists full, (write_change path content (lines_before (st_fs s) full)).
    split; [exact Hres |]. split; [exact Hnode |]. split; [exact Hfc |].
    split; [reflexivity |].
    pose proof (line_count_nonneg content) as Hnew.
    split; [rewrite Hex; unfold write_change; cbn [action];
            now destruct (lines_before (st_fs s) full) |].
    split; [reflexivity |].
    split; [apply take_length_le |].
    unfold write_change. destruct (lines_before (st_fs s) full); cbn; lia.
  - destruct Hout as (Hfc & _). exact Hfc.
Qed.

(** X4 at a new file under the working directory. *)
Lemma X4_write_file_accounting_witness :
  let s1 := snd (_tool_write_file Demo.world Demo.toolkit (write_args "docs/notes.txt" "hello")
                   Demo.state) in
  exists fc : FileChange,
    lookup_node (st_fs s1) ["work"; "dir"; "docs"; "notes.txt"] = Some (File "hello")
    /\ st_file_changes s1 = [fc]
    /\ Models.path fc = "docs/notes.txt"
    /\ action fc = "create".
Proof.
  intros s1.
  assert (Hrun : _tool_write_file Demo.world Demo.toolkit (write_args "docs/notes.txt" "hello")
                   Demo.state
                 = (Return [("success", VBool true); ("path", VStr "docs/notes.txt");
                            ("action", VStr "create"); ("lines", VInt 1)], s1))
    by (apply pair_of_fst; vm_compute; reflexivity).
  pose proof (X4_write_file_accounting _ _ _ _ _ _ _ Hrun) as H.
  change (succeeded _) with true in H. cbv iota in H.
  destruct H as (full & fc & Hres & Hnode & Hfc & Hpath & Haction & _).
  assert (Hfull : full = ["work"; "dir"; "docs"; "notes.txt"])
    by (vm_compute in Hres; congruence).
  subst full. exists fc.
  split; [exact Hnode |]. split; [exact Hfc |]. split; [exact Hpath |].
  rewrite Haction. reflexivity.
Defined.
(** *** What [delete_file] records *)

Section DeleteFile.

Lemma state_eta (s : State) :
  {| st_fs := st_fs s; st_file_changes := st_file_changes s;
     st_killed := st_killed s; st_clock := st_clock s |} = s.
Proof. destruct s; reflexivity. Qed.

Lemma delete_same_links (fs : FS) (p : list string) :
  link_at fs p = None -> same_links (delete p fs) fs.
Proof.
  intros Hp k. unfold link_at in *.
  destruct (decide (p = k)) as [->|Hne].
  - rewrite lookup_delete_eq. symmetry. exact Hp.
  - rewrite lookup_delete_ne by exact Hne. reflexivity.
Qed.

(** [_tool_delete_file], outcome by outcome. *)
Lemma delete_file_outcome self path s o s1 :
  _tool_delete_file self (path_args path) s = (o, s1) ->
  if reports_success o then
    exists full : list string,
      resolve (st_fs s) (working_dir self) path = Some full
      /\ PyStr.startswith (path_str full) (path_str (working_dir self)) = true
      /\ full <> []
      /\ st_fs s1 = delete full (st_fs s)
      /\ st_killed s1 = st_killed s /\ st_clock s1 = st_clock s
      /\ match lookup_node (st_fs s) full with
         | Some (File _) =>
             o = Return (Some [("success", VBool true); ("path", VStr path);
                               ("type", VStr "file")])
             /\ st_file_changes s1 = (st_file_changes s ++ [delete_change path])%list
         | Some Dir =>
             o = Return (Some [("success", VBool true); ("path", VStr path);
                               ("type", VStr "directory")])
             /\ st_file_changes s1 = st_file_changes s
             /\ has_children (st_fs s) full = false
         | _ => False
         end
  else s1 = s.
Proof.
  unfold _tool_delete_file, path_args.
  unfold check_keywords, required, as_str, _resolve_path, try_except, bind, ret, raise,
    get_fs, fs_op, of_sum, record_change.
  cbn [List.find existsb fst snd dict_get String.eqb Ascii.eqb Bool.eqb negb orb andb].
  destruct (resolve (st_fs s) (working_dir self) path) as [full|] eqn:Eres;
    [| intros H; apply pair_eq_inv in H as [<- <-]; reflexivity].
  destruct (PyStr.startswith (path_str full) (path_str (working_dir self))) eqn:Epre;
    cbn [negb]; [| intros H; apply pair_eq_inv in H as [<- <-]; reflexivity].
  unfold fs_exists, fs_is_file, fs_is_dir, unlink, rmdir.
  destruct full as [|c f].
  { cbn [lookup_node negb]. intros H; apply pair_eq_inv in H as [<- <-].
    cbn. apply state_eta. }
  cbv beta iota zeta. cbn [lookup_node st_fs st_file_changes st_killed st_clock].
  destruct (st_fs s !! (c :: f)) as [[c0| |t]|] eqn:Enode;
    cbv beta iota zeta; cbn [negb st_fs st_file_changes st_killed st_clock];
    rewrite ?Enode; cbv beta iota zeta; cbn [st_fs st_file_changes st_killed st_clock].
  - intros H; apply pair_eq_inv in H as [<- <-]. cbn [reports_success succeeded dict_get
      String.eqb Ascii.eqb Bool.eqb].
    exists (c :: f). cbn [st_fs st_file_changes st_killed st_clock lookup_node].
    rewrite Enode. repeat split; first [exact Epre | discriminate].
  - destruct (has_children (st_fs s) (c :: f)) eqn:Ech;
      intros H; apply pair_eq_inv in H as [<- <-].
    + cbn. apply state_eta.
    + cbn [reports_success succeeded dict_get String.eqb Ascii.eqb Bool.eqb].
      exists (c :: f). cbn [st_fs st_file_changes st_killed st_clock lookup_node].
      rewrite Enode. repeat split; first [exact Epre | exact Ech | discriminate].
  - intros H; apply pair_eq_inv in H as [<- <-]. reflexivity.
  - intros H; apply pair_eq_inv in H as [<- <-]. reflexivity.
Qed.

End DeleteFile.

(** X5. A [delete_file] call that reports success has removed what the path
    resolved to, a file or an empty directory; only the removal of a file
    is recorded as a file change, the removal of a directory leaves the
    buffer of file changes as it was. A call that does not report success
    leaves the whole state as it was. *)
Theorem X5_delete_file_accounting :
  forall (self : Toolkit) (path : string) (s s1 : State) (o : Outcome (option dict)),
    _tool_delete_file self (path_args path) s = (o, s1) ->
    if reports_success o then
      exists full : list string,
        resolve (st_fs s) (working_dir self) path = Some full
        /\ lookup_node (st_fs s1) full = None
        /\ (forall k : list string, k <> full -> st_fs s1 !! k = st_fs s !! k)
        /\ ((fs_is_file (st_fs s) full = true
             /\ st_file_changes s1 = (st_file_changes s ++ [delete_change path])%list)
            \/ (fs_is_dir (st_fs s) full = true
                /\ has_children (st_fs s) full = false
                /\ st_file_changes s1 = st_file_changes s))
    else s1 = s.
Proof.
  intros self path s s1 o H.
  pose proof (delete_file_outcome self path s o s1 H) as Hout.
  destruct (reports_success o); [| exact Hout].
  destruct Hout as (full & Hres & _ & Hne & Hfs & _ & _ & Hcase).
  exists full. split; [exact Hres |].
  split; [rewrite Hfs; destruct full; [congruence | apply lookup_delete_eq] |].
  split; [intros k Hk; rewrite Hfs; apply lookup_delete_ne; congruence |].
  unfold fs_is_file, fs_is_dir.
  destruct (lookup_node (st_fs s) full) as [[c0| |t]|]; try contradiction.
  - left. split; [reflexivity | apply Hcase].
  - right. split; [reflexivity |]. destruct Hcase as (_ & Hfc & Hch). auto.
Qed.

(** X5 at a file written just before. *)
Lemma X5_delete_file_accounting_witness :
  let s0 := snd (_tool_write_file Demo.world Demo.toolkit (write_args "notes.txt" "hello")
                   Demo.state) in
  let s1 := snd (_tool_delete_file Demo.toolkit (path_args "notes.txt") s0) in
  lookup_node (st_fs s1) ["work"; "dir"; "notes.txt"] = None
  /\ length (st_file_changes s1) = 2%nat.
Proof.
  intros s0 s1.
  assert (Hrun : _tool_delete_file Demo.toolkit (path_args "notes.txt") s0
                 = (Return (Some [("success", VBool true); ("path", VStr "notes.txt");
                                  ("type", VStr "file")]), s1))
    by (apply pair_of_fst; vm_compute; reflexivity).
  pose proof (X5_delete_file_accounting _ _ _ _ _ Hrun) as H.
  change (reports_success _) with true in H. cbv iota in H.
  destruct H as (full & Hres & Hnode & _ & Hcase).
  assert (Hfull : full = ["work"; "dir"; "notes.txt"])
    by (vm_compute in Hres; congruence).
  subst full. split; [exact Hnode |].
  destruct Hcase as [[_ Hfc]|[Hdir _]]; [| vm_compute in Hdir; discriminate].
  rewrite Hfc, length_app. reflexivity.
Defined.

(** X6. After a [delete_file] call that reported success, [read_file] on
    the same path answers that the file is not found, and changes
    nothing. *)
Theorem X6_deleted_file_is_not_found :
  forall (self : Toolkit) (path : string) (s s1 : State) (o : Outcome (option dict)),
    _tool_delete_file self (path_args path) s = (o, s1) ->
    reports_success o = true ->
    _tool_read_file self (read_args path) s1
    = (Return [("error", VStr ("File not found: " +:+ path))], s1).
Proof.
  intros self path s s1 o H Hs.
  pose proof (delete_file_outcome self path s o s1 H) as Hout.
  rewrite Hs in Hout.
  destruct Hout as (full & Hres & Hpre & Hne & Hfs & _ & _ & Hcase).
  assert (Hlink : link_at (st_fs s) full = None).
  { unfold link_at. destruct full as [|c f]; [congruence |]. cbn [lookup_node] in Hcase.
    destruct (st_fs s !! (c :: f)) as [[| |t]|]; try reflexivity. contradiction. }
  assert (Hres1 : resolve (st_fs s1) (working_dir self) path = Some full).
  { unfold resolve. rewrite Hfs.
    rewrite (realpath_same_links _ _ (delete_same_links _ _ Hlink)). exact Hres. }
  unfold _tool_read_file, read_args.
  unfold check_keywords, required, as_str, _resolve_path, try_except, bind, ret, raise,
    get_fs, fs_op, of_sum.
  cbn [List.find existsb fst snd dict_get String.eqb Ascii.eqb Bool.eqb negb orb andb].
  rewrite Hres1, Hpre. cbn [negb fst snd].
  unfold fs_exists. rewrite Hfs.
  destruct full as [|c f]; [congruence |]. cbn [lookup_node].
  rewrite lookup_delete_eq. reflexivity.
Qed.

(** X6 on a file written, then deleted. *)
Lemma X6_deleted_file_is_not_found_witness :
  let s0 := snd (_tool_write_file Demo.world Demo.toolkit (write_args "notes.txt" "hello")
                   Demo.state) in
  let s1 := snd (_tool_delete_file Demo.toolkit (path_args "notes.txt") s0) in
  _tool_read_file Demo.toolkit (read_args "notes.txt") s1
  = (Return [("error", VStr "File not found: notes.txt")], s1).
Proof.
  intros s0 s1.
  eapply (X6_deleted_file_is_not_found Demo.toolkit "notes.txt" s0).
  - apply pair_of_fst. vm_compute. reflexivity.
  - reflexivity.
Defined.
(** *** Creating directories *)

Section CreateDirectory.

(** [mkdir -p] only adds: what was there stays. *)
Lemma mkdir_from_keeps rest :
  forall fs cur fs' err k n,
    mkdir_from fs cur rest = (fs', err) -> fs !! k = Some n -> fs' !! k = Some n.
Proof.
  induction rest as [|c r IH]; intros fs cur fs' err k n; cbn [mkdir_from]; cbv zeta.
  - intros [= <- _] Hk. exact Hk.
  - destruct (fs !! (cur ++ [c])%list) as [[| |t]|] eqn:E.
    + intros [= <- _] Hk. exact Hk.
    + apply IH.
    + intros [= <- _] Hk. exact Hk.
    + intros H Hk. apply (IH _ _ _ _ k n H).
      rewrite lookup_insert_ne; [exact Hk |]. intros Heq. subst k. congruence.
Qed.

(** Once it has succeeded, every directory on the way is there. *)
Lemma mkdir_from_done rest :
  forall fs cur fs',
    mkdir_from fs cur rest = (fs', None) ->
    mkdir_from fs' cur rest = (fs', None)
    /\ (rest <> [] -> fs' !! (cur ++ rest)%list = Some Dir).
Proof.
  induction rest as [|c r IH]; intros fs cur fs'; cbn [mkdir_from]; cbv zeta.
  - intros [= <-]. split; [reflexivity | congruence].
  - intros H.
    assert (Hp : exists fs0, mkdir_from fs0 (cur ++ [c])%list r = (fs', None)
                             /\ fs0 !! (cur ++ [c])%list = Some Dir).
    { destruct (fs !! (cur ++ [c])%list) as [[| |t]|] eqn:E; try discriminate.
      - exists fs. auto.
      - exists (<[(cur ++ [c])%list := Dir]> fs). split; [exact H |].
        apply lookup_insert_eq. }
    destruct Hp as (fs0 & Hrun & Hdir).
    pose proof (mkdir_from_keeps _ _ _ _ _ _ _ Hrun Hdir) as Hdir'.
    destruct (IH _ _ _ Hrun) as (Hidem & Hlast).
    rewrite Hdir'. split; [exact Hidem |]. intros _.
    destruct r as [|c' r'].
    + exact Hdir'.
    + change (cur ++ c :: c' :: r')%list with (cur ++ [c] ++ c' :: r')%list.
      rewrite app_assoc. apply Hlast. discriminate.
Qed.

(** [_tool_create_directory], when it reports success. *)
Lemma create_directory_success self path s o s1 :
  _tool_create_directory self (path_args path) s = (o, s1) ->
  succeeded o = true ->
  exists full : list string,
    resolve (st_fs s) (working_dir self) path = Some full
    /\ PyStr.startswith (path_str full) (path_str (working_dir self)) = true
    /\ mkdir_p (st_fs s) full = (st_fs s1, None)
    /\ st_file_changes s1 = st_file_changes s
    /\ st_killed s1 = st_killed s /\ st_clock s1 = st_clock s
    /\ o = Return [("success", VBool true); ("path", VStr path)].
Proof.
  unfold _tool_create_directory, path_args.
  unfold check_keywords, required, as_str, _resolve_path, try_except, bind, ret, raise,
    get_fs, fs_op, of_sum.
  cbn [List.find existsb fst snd dict_get String.eqb Ascii.eqb Bool.eqb negb orb andb].
  destruct (resolve (st_fs s) (working_dir self) path) as [full|] eqn:Eres;
    [| intros H; apply pair_eq_inv in H as [<- <-]; discriminate].
  destruct (PyStr.startswith (path_str full) (path_str (working_dir self))) eqn:Epre;
    cbn [negb]; [| intros H; apply pair_eq_inv in H as [<- <-]; discriminate].
  destruct (mkdir_p (st_fs s) full) as [fs1 [msg|]] eqn:Emk;
    intros H; apply pair_eq_inv in H as [<- <-]; [discriminate |].
  intros _. exists full. cbn [st_fs st_file_changes st_killed st_clock].
  repeat split; assumption.
Qed.

End CreateDirectory.

(** X7. A [create_directory] call that reports success leaves a directory at
    the resolved path, keeps every file and directory that was there
    before, and records no file change; the same call again reports
    success again and changes nothing. *)
Theorem X7_create_directory_idempotent :
  forall (self : Toolkit) (path : string) (s s1 : State) (o : Outcome dict),
    _tool_create_directory self (path_args path) s = (o, s1) ->
    succeeded o = true ->
    (exists full : list string,
       resolve (st_fs s) (working_dir self) path = Some full
       /\ fs_is_dir (st_fs s1) full = true)
    /\ (forall (k : list string) (n : node),
          st_fs s !! k = Some n -> st_fs s1 !! k = Some n)
    /\ st_file_changes s1 = st_file_changes s
    /\ _tool_create_directory self (path_args path) s1 = (o, s1).
Proof.
  intros self path s s1 o H Hs.
  destruct (create_directory_success self path s o s1 H Hs)
    as (full & Hres & Hpre & Hmk & Hfc & _ & _ & Ho).
  unfold mkdir_p in Hmk.
  destruct (mkdir_from_done _ _ _ _ Hmk) as (Hidem & Hlast).
  split; [exists full; split; [exact Hres |] |].
  { unfold fs_is_dir. destruct full as [|c f]; [reflexivity |].
    cbn [lookup_node]. pose proof (Hlast ltac:(discriminate)) as Hd.
    cbn [app] in Hd. rewrite Hd. reflexivity. }
  split; [intros k n; apply (mkdir_from_keeps _ _ _ _ _ _ _ Hmk) |].
  split; [exact Hfc |].
  assert (Hres1 : resolve (st_fs s1) (working_dir self) path = Some full).
  { unfold resolve.
    rewrite (realpath_same_links _ _ (mkdir_from_same_links _ _ _ _ _ Hmk)). exact Hres. }
  subst o. unfold _tool_create_directory, path_args.
  unfold check_keywords, required, as_str, _resolve_path, try_except, bind, ret, raise,
    get_fs, fs_op, of_sum.
  cbn [List.find existsb fst snd dict_get String.eqb Ascii.eqb Bool.eqb negb orb andb].
  rewrite Hres1, Hpre. cbn [negb]. unfold mkdir_p. rewrite Hidem.
  destruct s1; reflexivity.
Qed.

(** X7 at a nested directory under the working directory. *)
Lemma X7_create_directory_idempotent_witness :
  let r := _tool_create_directory Demo.toolkit (path_args "a/b") Demo.state in
  fs_is_dir (st_fs (snd r)) ["work"; "dir"; "a"; "b"] = true
  /\ _tool_create_directory Demo.toolkit (path_args "a/b") (snd r) = r.
Proof.
  intros r.
  assert (Hrun : _tool_create_directory Demo.toolkit (path_args "a/b") Demo.state
                 = (Return [("success", VBool true); ("path", VStr "a/b")], snd r))
    by (apply pair_of_fst; vm_compute; reflexivity).
  destruct (X7_create_directory_idempotent _ _ _ _ _ Hrun eq_refl)
    as ((full & Hres & Hdir) & _ & _ & Hagain).
  assert (Hfull : full = ["work"; "dir"; "a"; "b"]) by (vm_compute in Hres; congruence).
  subst full. split; [exact Hdir |].
  rewrite Hagain. symmetry. exact Hrun.
Defined.
(** *** What [edit_file] records *)

Section EditFile.

Lemma count_from_contains (sub : string) :
  sub <> EmptyString ->
  forall s, PyStr.contains sub s = true -> (1 <= PyStr.count_from sub 0 s)%nat.
Proof.
  intros Hsub s. induction s as [|c r IH]; cbn [PyStr.contains PyStr.count_from].
  - destruct sub; [congruence | discriminate].
  - destruct (PyStr.startswith (String c r) sub); cbn [orb]; [lia | exact IH].
Qed.

Lemma count_contains (sub s : string) :
  PyStr.contains sub s = true -> (1 <= PyStr.count sub s)%nat.
Proof.
  destruct sub as [|a sub]; [cbn; lia |].
  apply count_from_contains. discriminate.
Qed.

(** [_tool_edit_file], outcome by outcome. *)
Lemma edit_file_outcome w self path old_text new_text all s o s1 :
  _tool_edit_file w self (edit_args path old_text new_text all) s = (o, s1) ->
  if succeeded o then
    exists (full : list string) (c : string),
      resolve (st_fs s) (working_dir self) path = Some full
      /\ lookup_node (st_fs s) full = Some (File c)
      /\ PyStr.contains old_text (PyStr.universal_newlines c) = true
      /\ st_fs s1 = <[full := File (PyStr.replace old_text new_text all
                                      (PyStr.universal_newlines c))]> (st_fs s)
      /\ st_file_changes s1 = (st_file_changes s ++ [edit_change path new_text])%list
      /\ o = Return [("success", VBool true); ("path", VStr path);
                     ("replacements",
                      VInt (if all
                            then Z.of_nat (PyStr.count old_text
                                             (PyStr.universal_newlines c))
                            else 1))]
  else
    s1 = s
    \/ exists (full : list string) (c : string) (written : nat) (msg : string),
         resolve (st_fs s) (working_dir self) path = Some full
         /\ lookup_node (st_fs s) full = Some (File c)
         /\ PyStr.contains old_text (PyStr.universal_newlines c) = true
         /\ write_fault w (st_fs s) full
              (PyStr.replace old_text new_text all (PyStr.universal_newlines c))
            = Some (written, msg)
         /\ s1 = {| st_fs :=
                      <[full := File (PyStr.take written
                                        (PyStr.replace old_text new_text all
                                           (PyStr.universal_newlines c)))]> (st_fs s);
                    st_file_changes := st_file_changes s;
                    st_killed := st_killed s;
                    st_clock := st_clock s |}
         /\ o = Return [("error", VStr ("Failed to edit file: " +:+ msg))].
Proof.
  unfold _tool_edit_file, edit_args.
  unfold check_keywords, required, optional, as_str, _resolve_path, try_except,
    bind, ret, raise, get_fs, fs_op, of_sum, record_change.
  cbn [List.find existsb fst snd dict_get String.eqb Ascii.eqb Bool.eqb negb orb andb
       value_truthy].
  destruct (resolve (st_fs s) (working_dir self) path) as [full|] eqn:Eres;
    [| intros H; apply pair_eq_inv in H as [<- <-]; now left].
  destruct (PyStr.startswith (path_str full) (path_str (working_dir self))) eqn:Epre;
    cbn [negb]; [| intros H; apply pair_eq_inv in H as [<- <-]; now left].
  unfold fs_exists, read_text. cbv beta iota zeta.
  destruct (lookup_node (st_fs s) full) as [[c| |t]|] eqn:Enode; cbn [negb];
    unfold ret, raise; cbv beta iota zeta;
    try (intros H; apply pair_eq_inv in H as [<- <-]; now left).
  destruct (PyStr.contains old_text (PyStr.universal_newlines c)) eqn:Econ; cbn [negb];
    cbv beta iota zeta;
    [| intros H; apply pair_eq_inv in H as [<- <-]; now left].
  cbn [st_fs st_file_changes st_killed st_clock].
  destruct (write_text w (st_fs s) full _) as [fs2 [msg|]] eqn:Ewr;
    cbv beta iota zeta; cbn [st_fs st_file_changes st_killed st_clock];
    intros H; apply pair_eq_inv in H as [<- <-].
  - cbn [succeeded dict_get String.eqb Ascii.eqb Bool.eqb].
    destruct (write_text_failed _ _ _ _ _ _ Ewr) as [-> | (written & Hfault & ->)].
    + left. apply state_eta.
    + right. exists full, c, written, msg. repeat split; assumption.
  - cbn [succeeded dict_get String.eqb Ascii.eqb Bool.eqb].
    destruct (write_text_inv _ _ _ _ _ Ewr) as (-> & _ & _).
    exists full, c. cbn [st_fs st_file_changes]. repeat split; assumption.
Qed.

End EditFile.

(** X8. An [edit_file] call that reports success found the old text in the
    file as it is read (line ends translated), left the file holding that
    text with the old text replaced (every occurrence, or the first one),
    reports at least one replacement, and exactly one when not asked to
    replace all, and has appended one "modify" record to the buffer of file
    changes. A call that does not report success appends no record, and
    leaves the whole state as it was (text not found, no such file, a path
    outside, a file that cannot be opened for writing) unless the write
    failed once the file was open: the file then holds only the characters
    of the new text that had reached it, none of them perhaps, and the
    call returns the error of the write. *)
Theorem X8_edit_file_accounting :
  forall (w : World) (self : Toolkit) (path old_text new_text : string) (all : bool)
         (s s1 : State) (o : Outcome dict),
    _tool_edit_file w self (edit_args path old_text new_text all) s = (o, s1) ->
    if succeeded o then
      exists (full : list string) (c : string) (n : Z),
        resolve (st_fs s) (working_dir self) path = Some full
        /\ lookup_node (st_fs s) full = Some (File c)
        /\ PyStr.contains old_text (PyStr.universal_newlines c) = true
        /\ lookup_node (st_fs s1) full
           = Some (File (PyStr.replace old_text new_text all
                           (PyStr.universal_newlines c)))
        /\ st_file_changes s1 = (st_file_changes s ++ [edit_change path new_text])%list
        /\ o = Return [("success", VBool true); ("path", VStr path);
                       ("replacements", VInt n)]
        /\ 1 <= n
        /\ (all = false -> n = 1)
    else
      st_file_changes s1 = st_file_changes s
      /\ st_killed s1 = st_killed s
      /\ st_clock s1 = st_clock s
      /\ (s1 = s
          \/ exists (full : list string) (c : string) (written : nat) (msg : string),
               resolve (st_fs s) (working_dir self) path = Some full
               /\ lookup_node (st_fs s) full = Some (File c)
               /\ PyStr.contains old_text (PyStr.universal_newlines c) = true
               /\ write_fault w (st_fs s) full
                    (PyStr.replace old_text new_text all (PyStr.universal_newlines c))
                  = Some (written, msg)
               /\ st_fs s1
                  = <[full := File (PyStr.take written
                                      (PyStr.replace old_text new_text all
                                         (PyStr.universal_newlines c)))]> (st_fs s)
               /\ o = Return [("error", VStr ("Failed to edit file: " +:+ msg))]).
Proof.
  intros w self path old_text new_text all s s1 o H.
  pose proof (edit_file_outcome w self path old_text new_text all s o s1 H) as Hout.
  destruct (succeeded o).
  - destruct Hout as (full & c & Hres & Hnode & Hcon & Hfs & Hfc & Ho).
    exists full, c. eexists. split; [exact Hres |]. split; [exact Hnode |].
    split; [exact Hcon |].
    split.
    { rewrite Hfs. destruct full as [|x f]; [discriminate |].
      cbn [lookup_node]. apply lookup_insert_eq. }
    split; [exact Hfc |]. split; [exact Ho |].
    pose proof (count_contains _ _ Hcon) as Hcount.
    destruct all; split; try lia; congruence.
  - destruct Hout as [-> | (full & c & written & msg & Hres & Hnode & Hcon & Hfault & -> & Ho)].
    + do 3 (split; [reflexivity |]). now left.
    + do 3 (split; [reflexivity |]). right. exists full, c, written, msg.
      cbn [st_fs]. repeat split; assumption.
Qed.

(** X8 at a file written just before, where the old text occurs twice, and
    at the same edit when the disk is full: the file is left empty. *)
Lemma X8_edit_file_accounting_witness :
  let s0 := snd (_tool_write_file Demo.world Demo.toolkit (write_args "notes.txt" "a-b-a")
                   Demo.state) in
  let r := _tool_edit_file Demo.world Demo.toolkit
             (edit_args "notes.txt" "a" "xy" true) s0 in
  let r' := _tool_edit_file full_disk Demo.toolkit
              (edit_args "notes.txt" "a" "xy" true) s0 in
  (lookup_node (st_fs (snd r)) ["work"; "dir"; "notes.txt"] = Some (File "xy-b-xy")
   /\ fst r = Return [("success", VBool true); ("path", VStr "notes.txt");
                      ("replacements", VInt 2)])
  /\ (lookup_node (st_fs (snd r')) ["work"; "dir"; "notes.txt"] = Some (File EmptyString)
      /\ st_file_changes (snd r') = st_file_changes s0
      /\ fst r' = Return [("error",
                           VStr "Failed to edit file: [Errno 28] No space left on device")]).
Proof.
  intros s0 r r'. split.
  - assert (Hrun : _tool_edit_file Demo.world Demo.toolkit
                     (edit_args "notes.txt" "a" "xy" true) s0
                   = (Return [("success", VBool true); ("path", VStr "notes.txt");
                              ("replacements", VInt 2)], snd r))
      by (apply pair_of_fst; vm_compute; reflexivity).
    pose proof (X8_edit_file_accounting _ _ _ _ _ _ _ _ _ Hrun) as H.
    change (succeeded _) with true in H. cbv iota in H.
    destruct H as (full & c & n & Hres & Hnode & _ & Hnew & _).
    assert (Hfull : full = ["work"; "dir"; "notes.txt"]) by (vm_compute in Hres; congruence).
    subst full.
    assert (Hc : c = "a-b-a") by (vm_compute in Hnode; congruence).
    subst c. split; [exact Hnew |]. unfold r. rewrite Hrun. reflexivity.
  - assert (Hrun : _tool_edit_file full_disk Demo.toolkit
                     (edit_args "notes.txt" "a" "xy" true) s0
                   = (Return [("error",
                               VStr "Failed to edit file: [Errno 28] No space left on device")],
                      snd r'))
      by (apply pair_of_fst; vm_compute; reflexivity).
    pose proof (X8_edit_file_accounting _ _ _ _ _ _ _ _ _ Hrun) as H.
    change (succeeded _) with false in H. cbv iota in H.
    destruct H as (Hfc & _).
    split; [vm_compute; reflexivity |]. split; [exact Hfc |].
    unfold r'. rewrite Hrun. reflexivity.
Defined.
(** *** Subprocesses *)

Section Shell.

Variable w : World.
Variable self : Toolkit.

(** [_run_shell_command], outcome by outcome of the subprocess. *)
Lemma run_shell_command_outcome command timeout s :
  _run_shell_command w self command timeout s
  = match shell w (st_fs s) (working_dir self) command timeout with
    | (Exited stdout stderr returncode, fs') =>
        (Return [("stdout", VStr (PyStr.take 10000 stdout));
                 ("stderr", VStr (PyStr.take 5000 stderr));
                 ("exit_code", VInt returncode);
                 ("success", VBool (returncode =? 0))],
         after_shell fs' s)
    | (TimedOut _ _, fs') =>
        (Return [("error", VStr ("Command timed out after " +:+ pretty timeout +:+ "s"));
                 ("exit_code", VInt (-1))],
         after_kill command fs' s)
    | (SpawnFailed e, fs') =>
        (Return [("error", VStr ("Command execution failed: " +:+ e))],
         after_shell fs' s)
    end.
Proof.
  unfold _run_shell_command, bind, get_fs. cbn [fst snd].
  destruct (shell w (st_fs s) (working_dir self) command timeout) as [[out err rc|po pe|e] fs'];
    reflexivity.
Qed.

End Shell.

(** X9. [_run_shell_command] never raises, whatever the subprocess does. Its
    result holds at most the first 10000 characters of the standard output
    and the first 5000 of the standard error; it reports success exactly
    when the exit code it reports is 0; and it records no file change,
    whatever the command did to the files. *)
Theorem X9_shell_result_is_capped :
  forall (w : World) (self : Toolkit) (command : string) (timeout : Z) (s : State),
    exists (d : dict) (s1 : State),
      _run_shell_command w self command timeout s = (Return d, s1)
      /\ (String.length (text_of "stdout" d) <= 10000)%nat
      /\ (String.length (text_of "stderr" d) <= 5000)%nat
      /\ (dict_get "success" d = Some (VBool true)
          <-> dict_get "exit_code" d = Some (VInt 0))
      /\ st_file_changes s1 = st_file_changes s.
Proof.
  intros w self command timeout s.
  rewrite run_shell_command_outcome.
  destruct (shell w (st_fs s) (working_dir self) command timeout) as [[out err rc|po pe|e] fs'];
    eexists; eexists; (split; [reflexivity |]).
  - change (text_of "stdout" _) with (PyStr.take 10000 out).
    change (text_of "stderr" _) with (PyStr.take 5000 err).
    split; [apply take_length_le |]. split; [apply take_length_le |].
    split; [| reflexivity].
    change (Some (VBool (rc =? 0)) = Some (VBool true) <-> Some (VInt rc) = Some (VInt 0)).
    destruct (Z.eqb_spec rc 0) as [->|Hne]; split; intros H; try reflexivity;
      try discriminate. congruence.
  - change (text_of "stdout" _) with EmptyString.
    change (text_of "stderr" _) with EmptyString.
    cbn [String.length]. repeat split; try lia; discriminate.
  - change (text_of "stdout" _) with EmptyString.
    change (text_of "stderr" _) with EmptyString.
    cbn [String.length]. repeat split; try lia; discriminate.
Qed.

(** X10. [run_command] does not start a subprocess when shell commands are
    switched off, or when the command contains one of the four denylisted
    texts: it answers with an error, the same in every world, and the state
    is as it was. *)
Theorem X10_run_command_blocked :
  forall (self : Toolkit) (command : string) (timeout : Z) (s : State),
    allow_shell self = false
    \/ (exists d : string, In d dangerous /\ PyStr.contains d command = true) ->
    exists msg : string,
      (msg = "Shell commands are disabled"
       \/ exists d : string, In d dangerous /\ PyStr.contains d command = true
                             /\ msg = "Dangerous command blocked: " +:+ d)
      /\ forall w : World,
           _tool_run_command w self (run_args command timeout) s
           = (Return [("error", VStr msg)], s).
Proof.
  intros self command timeout s H.
  unfold _tool_run_command, run_args.
  unfold check_keywords, required, optional, as_int, as_str, bind, ret, raise.
  cbn [List.find existsb fst snd dict_get String.eqb Ascii.eqb Bool.eqb negb orb andb].
  destruct (allow_shell self) eqn:Eallow; cbn [negb].
  - destruct H as [H|(d & Hin & Hd)]; [discriminate |].
    destruct (List.find (fun d => PyStr.contains d command) dangerous) as [d'|] eqn:Efind.
    + apply find_some in Efind as [Hin' Hd'].
      exists ("Dangerous command blocked: " +:+ d').
      split; [right; exists d'; auto | reflexivity].
    + pose proof (find_none _ _ Efind d Hin) as Hno. cbv beta in Hno. congruence.
  - exists "Shell commands are disabled". split; [left; reflexivity | reflexivity].
Qed.

(** X10 at a command that would wipe the root. *)
Lemma X10_run_command_blocked_witness :
  exists msg : string,
    msg = "Dangerous command blocked: rm -rf /"
    /\ _tool_run_command hanging_world Demo.toolkit
         (run_args "sudo rm -rf / --no-preserve-root" 5) Demo.state
       = (Return [("error", VStr msg)], Demo.state).
Proof.
  destruct (X10_run_command_blocked Demo.toolkit "sudo rm -rf / --no-preserve-root" 5
              Demo.state) as (msg & Hmsg & Hrun).
  - right. exists "rm -rf /". split; [left; reflexivity | reflexivity].
  - exists msg. split; [| apply Hrun].
    specialize (Hrun Demo.world). vm_compute in Hrun. congruence.
Defined.
(** *** Backpressure checks *)

Section Extract.

Lemma excerpts_nil lines : excerpts lines [].
Proof. split; constructor. Qed.

Lemma excerpts_snoc lines l line :
  excerpts lines l ->
  In line lines ->
  (negb (String.eqb (PyStr.take 200 (PyStr.strip line)) EmptyString)
   && negb (existsb (String.eqb (PyStr.take 200 (PyStr.strip line))) l))%bool = true ->
  excerpts lines (l ++ [PyStr.take 200 (PyStr.strip line)])%list.
Proof.
  intros [Hnd Hall] Hin Hnew. apply andb_prop in Hnew as [Hne Hfresh].
  apply negb_true_iff in Hne, Hfresh.
  apply String.eqb_neq in Hne.
  split.
  - apply NoDup_app. split; [exact Hnd |]. split; [| apply NoDup_singleton].
    intros x Hx Hx'. apply list_elem_of_In in Hx. apply list_elem_of_singleton in Hx'. subst x.
    assert (Hex : existsb (String.eqb (PyStr.take 200 (PyStr.strip line))) l = true).
    { apply existsb_exists. eexists. split; [exact Hx | apply String.eqb_refl]. }
    congruence.
  - apply Forall_app. split; [exact Hall |]. constructor; [| constructor].
    split; [exact Hne |]. split; [apply take_length_le |]. eauto.
Qed.

Lemma scan_patterns_inv lines line :
  In line lines ->
  forall patterns errors,
    excerpts lines errors -> (length errors < 20)%nat ->
    excerpts lines (fst (scan_patterns patterns line errors))
    /\ if snd (scan_patterns patterns line errors)
       then (length (fst (scan_patterns patterns line errors)) <= 20)%nat
       else (length (fst (scan_patterns patterns line errors)) < 20)%nat.
Proof.
  intros Hin patterns. induction patterns as [|p rest IH]; intros errors Hinv Hlen;
    cbn [scan_patterns]; [cbn [fst snd]; auto |].
  destruct (_ || _)%bool; [| apply IH; assumption]. cbv zeta.
  destruct (_ && _)%bool eqn:Enew; [| apply IH; assumption].
  pose proof (excerpts_snoc _ _ _ Hinv Hin Enew) as Hinv'.
  assert (Hlen' : length (errors ++ [PyStr.take 200 (PyStr.strip line)])%list
                  = S (length errors)) by (rewrite length_app; cbn [length]; lia).
  unfold PyStr.len. rewrite Hlen'.
  destruct (Z.leb_spec 20 (Z.of_nat (S (length errors)))).
  - cbn [fst snd]. split; [exact Hinv' | lia].
  - apply IH; [exact Hinv' | lia].
Qed.

Lemma scan_error_lines_inv all_lines :
  forall lines errors,
    (forall line, In line lines -> In line all_lines) ->
    excerpts all_lines errors -> (length errors < 20)%nat ->
    excerpts all_lines (scan_error_lines lines errors)
    /\ (length (scan_error_lines lines errors) <= 20)%nat.
Proof.
  induction lines as [|line rest IH]; intros errors Hsub Hinv Hlen;
    cbn [scan_error_lines]; [split; [exact Hinv | lia] |].
  pose proof (scan_patterns_inv all_lines line (Hsub line (or_introl eq_refl))
                error_patterns errors Hinv Hlen) as [Hinv' Hlen'].
  destruct (scan_patterns error_patterns line errors) as [errors' full].
  cbn [fst snd] in *. destruct full; [auto |].
  apply IH; [intros l Hl; apply Hsub; right; exact Hl | exact Hinv' | exact Hlen'].
Qed.

Lemma scan_warning_lines_inv all_lines :
  forall lines warnings,
    (forall line, In line lines -> In line all_lines) ->
    excerpts all_lines warnings -> (length warnings < 10)%nat ->
    excerpts all_lines (scan_warning_lines lines warnings)
    /\ (length (scan_warning_lines lines warnings) <= 10)%nat.
Proof.
  induction lines as [|line rest IH]; intros warnings Hsub Hinv Hlen;
    cbn [scan_warning_lines]; [split; [exact Hinv | lia] |].
  assert (Hrest : forall l, In l rest -> In l all_lines)
    by (intros l Hl; apply Hsub; right; exact Hl).
  destruct (_ || _)%bool; [| apply IH; assumption]. cbv zeta.
  destruct (_ && _)%bool eqn:Enew; [| apply IH; assumption].
  pose proof (excerpts_snoc _ _ _ Hinv (Hsub line (or_introl eq_refl)) Enew) as Hinv'.
  assert (Hlen' : length (warnings ++ [PyStr.take 200 (PyStr.strip line)])%list
                  = S (length warnings)) by (rewrite length_app; cbn [length]; lia).
  unfold PyStr.len. rewrite Hlen'.
  destruct (Z.leb_spec 10 (Z.of_nat (S (length warnings)))).
  - split; [exact Hinv' | lia].
  - apply IH; [exact Hrest | exact Hinv' | lia].
Qed.

Lemma extract_errors_bounded output check_type :
  (length (_extract_errors output check_type) <= 20)%nat
  /\ excerpts (PyStr.split PyStr.LF output) (_extract_errors output check_type).
Proof.
  unfold _extract_errors.
  destruct (scan_error_lines_inv (PyStr.split PyStr.LF output)
              (PyStr.split PyStr.LF output) [] (fun _ H => H) (excerpts_nil _))
    as [Hinv Hlen]; [cbn; lia | auto].
Qed.

Lemma extract_warnings_bounded output :
  (length (_extract_warnings output) <= 10)%nat
  /\ excerpts (PyStr.split PyStr.LF output) (_extract_warnings output).
Proof.
  unfold _extract_warnings.
  destruct (scan_warning_lines_inv (PyStr.split PyStr.LF output)
              (PyStr.split PyStr.LF output) [] (fun _ H => H) (excerpts_nil _))
    as [Hinv Hlen]; [cbn; lia | auto].
Qed.

End Extract.

(** X11. [_extract_errors] returns at most 20 entries and [_extract_warnings]
    at most 10; no entry occurs twice, and every entry is the stripped text
    of a line of the output cut to 200 characters, and is not empty. *)
Theorem X11_extracted_messages_are_bounded :
  forall (output check_type : string),
    (length (_extract_errors output check_type) <= 20)%nat
    /\ NoDup (_extract_errors output check_type)
    /\ Forall (excerpt_of output) (_extract_errors output check_type)
    /\ (length (_extract_warnings output) <= 10)%nat
    /\ NoDup (_extract_warnings output)
    /\ Forall (excerpt_of output) (_extract_warnings output).
Proof.
  intros output check_type.
  destruct (extract_errors_bounded output check_type) as (He & Hnd & Hall).
  destruct (extract_warnings_bounded output) as (Hw & Hnd' & Hall').
  repeat split; assumption.
Qed.

Section Checks.

Variable lw : LoopWorld.
Variable toolkit : Toolkit.

(** [_run_check], outcome by outcome of the subprocess. *)
Lemma run_check_outcome check_type command s :
  exists (r : BackpressureResult) (s1 : State),
    _run_check lw toolkit check_type command s = (Return r, s1)
    /\ Models.check_type r = check_type
    /\ passed r
       = match fst (shell (tool_world lw) (st_fs s) (working_dir toolkit) command 120) with
         | Exited _ _ returncode => returncode =? 0
         | _ => false
         end
    /\ (String.length (output r) <= 5000)%nat
    /\ (length (errors r) <= 20)%nat
    /\ (length (warnings r) <= 10)%nat
    /\ st_file_changes s1 = st_file_changes s.
Proof.
  unfold _run_check, bind, time. cbn [fst snd st_fs st_file_changes st_killed st_clock].
  rewrite run_shell_command_outcome. cbn [st_fs].
  destruct (shell (tool_world lw) (st_fs s) (working_dir toolkit) command 120)
    as [[out err rc|po pe|e] fs']; cbn [fst];
    eexists; eexists; (split; [reflexivity |]);
    cbn [Models.check_type passed output errors warnings st_file_changes after_shell
         after_kill];
    (split; [reflexivity |]).
  - split.
    { change (dict_get "success" _) with (Some (VBool (rc =? 0))).
      change (dict_get "exit_code" _) with (Some (VInt rc)).
      cbn [value_truthy]. apply orb_diag. }
    split; [apply take_length_le |].
    split; [apply extract_errors_bounded | split; [apply extract_warnings_bounded |]].
    reflexivity.
  - split; [reflexivity |]. split; [apply take_length_le |].
    split; [apply extract_errors_bounded | split; [apply extract_warnings_bounded |]].
    reflexivity.
  - split; [reflexivity |]. split; [apply take_length_le |].
    split; [apply extract_errors_bounded | split; [apply extract_warnings_bounded |]].
    reflexivity.
Qed.

Lemma probes_ret {A} wd (a : A) : probes lw wd (ret a).
Proof. intros s. split; [reflexivity | discriminate]. Qed.

Lemma probes_bind {A B} wd (m : M A) (k : A -> M B) :
  probes lw wd m -> (forall a, probes lw wd (k a)) -> probes lw wd (bind m k).
Proof.
  intros Hm Hk s. unfold bind. destruct (Hm s) as [Hs He].
  destruct (m s) as [[a|e] s'] eqn:E; cbn [fst snd] in *; subst s'.
  - apply Hk.
  - split; [reflexivity |]. intros e' [= <-]. apply He. reflexivity.
Qed.

Lemma probes_present wd name : probes lw wd (present lw wd name).
Proof.
  intros s. unfold present, bind, get_fs, ret, raise.
  destruct (PyStr.contains NUL wd); [split; [reflexivity | discriminate] |].
  destruct (stat_fails lw (st_fs s) wd name) as [e|] eqn:E; cbn [fst snd].
  - split; [reflexivity |]. intros e' [= <-]. now exists name.
  - split; [reflexivity | discriminate].
Qed.

Lemma probes_either wd (a b : M bool) :
  probes lw wd a -> probes lw wd b -> probes lw wd (either a b).
Proof.
  intros Ha Hb. unfold either. apply probes_bind; [exact Ha |].
  intros [|]; [apply probes_ret | exact Hb].
Qed.

Ltac probes_step :=
  first [ apply probes_ret
        | apply probes_present
        | apply probes_either
        | apply probes_bind; [| intros [|]] ].

Lemma probes_detect_test wd : probes lw wd (_detect_test_command lw wd).
Proof. unfold _detect_test_command. repeat probes_step. Qed.

Lemma probes_detect_lint wd : probes lw wd (_detect_lint_command lw wd).
Proof. unfold _detect_lint_command. repeat probes_step. Qed.

Lemma probes_detect_typecheck wd : probes lw wd (_detect_typecheck_command lw wd).
Proof. unfold _detect_typecheck_command. repeat probes_step. Qed.

Lemma probes_detect_build wd : probes lw wd (_detect_build_command lw wd).
Proof. unfold _detect_build_command. repeat probes_step. Qed.

(** One stanza of [_run_backpressure] adds no result or one of its type,
    or raises what the look for a project file raised. *)
Lemma run_if_outcome flag check_type command detect wd results s o s1 :
  probes lw wd (detect wd) ->
  run_if lw toolkit flag check_type command detect wd results s = (o, s1) ->
  st_file_changes s1 = st_file_changes s
  /\ match o with
     | Return results' =>
         (results' = results /\ (flag = true -> PyStr.truthy command = false))
         \/ exists r, results' = (results ++ [r])%list
                      /\ Models.check_type r = check_type /\ flag = true
     | Raise e =>
         flag = true /\ PyStr.truthy command = false
         /\ exists name, stat_fails lw (st_fs s) wd name = Some e
     end.
Proof.
  intros Hprobe. unfold run_if.
  destruct flag;
    [| intros H; apply pair_eq_inv in H as [<- <-];
       split; [reflexivity | left; split; [reflexivity | discriminate]]].
  unfold resolve_command. destruct (PyStr.truthy command) eqn:Et.
  - unfold bind at 1. unfold ret at 1. cbv beta iota. rewrite Et.
    unfold bind, ret.
    destruct (run_check_outcome check_type (default EmptyString command) s)
      as (r & s2 & -> & Hct & _ & _ & _ & _ & Hfc).
    intros H; apply pair_eq_inv in H as [<- <-].
    split; [exact Hfc |]. right. exists r. auto.
  - unfold bind at 1. destruct (Hprobe s) as [Hs He].
    destruct (detect wd s) as [[cmd|e] s'] eqn:Ed; cbn [fst snd] in *; subst s'.
    + destruct (PyStr.truthy cmd).
      * unfold bind, ret.
        destruct (run_check_outcome check_type (default EmptyString cmd) s)
          as (r & s2 & -> & Hct & _ & _ & _ & _ & Hfc).
        intros H; apply pair_eq_inv in H as [<- <-].
        split; [exact Hfc |]. right. exists r. auto.
      * unfold ret. intros H; apply pair_eq_inv in H as [<- <-].
        split; [reflexivity |]. left. auto.
    + intros H; apply pair_eq_inv in H as [<- <-].
      split; [reflexivity |]. split; [reflexivity |]. split; [reflexivity |].
      apply He. reflexivity.
Qed.

(** One stanza, for the results and the check types of the stanzas before
    it. *)
Lemma stanza_step (c : RalphTaskConfig) types check_type detect results s o s1 :
  covered c types results ->
  probes lw (working_directory c) (detect (working_directory c)) ->
  run_if lw toolkit (enabled c check_type) check_type (configured c check_type)
    detect (working_directory c) results s = (o, s1) ->
  st_file_changes s1 = st_file_changes s
  /\ match o with
     | Return results' => covered c (types ++ [check_type])%list results'
     | Raise e => refused_probe lw c e
     end.
Proof.
  intros (Hsub & Hall & Hcov) Hprobe Hrun.
  destruct (run_if_outcome _ _ _ _ _ _ _ _ _ Hprobe Hrun) as [Hfc Hout].
  split; [exact Hfc |].
  destruct o as [results'|e].
  - destruct Hout as [[-> Hno] | (r & -> & Hr & Hflag)].
    + split; [| split].
      * now apply sublist_inserts_r.
      * exact Hall.
      * intros ct Hin Hen Hcmd. apply elem_of_app in Hin as [Hin | Hin].
        -- now apply Hcov.
        -- apply list_elem_of_singleton in Hin. subst ct.
           rewrite (Hno Hen) in Hcmd. discriminate.
    + split; [| split].
      * rewrite map_app. apply sublist_app; [exact Hsub |].
        cbn [map]. rewrite Hr. reflexivity.
      * apply Forall_app. split; [exact Hall |].
        constructor; [| constructor]. now rewrite Hr.
      * intros ct Hin Hen Hcmd. rewrite map_app. apply elem_of_app.
        apply elem_of_app in Hin as [Hin | Hin].
        -- left. now apply Hcov.
        -- right. apply list_elem_of_singleton in Hin. subst ct.
           cbn [map]. rewrite Hr. apply list_elem_of_singleton. reflexivity.
  - destruct Hout as (Hflag & Hcmd & name & Hname).
    exists (st_fs s), name, check_type. auto.
Qed.

End Checks.

(** X12. [_run_check] never raises. The check passes exactly when its
    command, run with a timeout of 120 seconds, exited with code 0: a
    command that timed out or could not be started does not pass. The
    result keeps at most 5000 characters of output, 20 errors and 10
    warnings. *)
Theorem X12_run_check_verdict :
  forall (lw : LoopWorld) (toolkit : Toolkit) (check_type command : string) (s : State),
    exists (r : BackpressureResult) (s1 : State),
      _run_check lw toolkit check_type command s = (Return r, s1)
      /\ Models.check_type r = check_type
      /\ (passed r = true
          <-> exists (out err : string) (fs' : FS),
                shell (tool_world lw) (st_fs s) (working_dir toolkit) command 120
                = (Exited out err 0, fs'))
      /\ (String.length (output r) <= 5000)%nat
      /\ (length (errors r) <= 20)%nat
      /\ (length (warnings r) <= 10)%nat.
Proof.
  intros lw toolkit check_type command s.
  destruct (run_check_outcome lw toolkit check_type command s)
    as (r & s1 & Hrun & Hct & Hpass & Hout & Herr & Hwarn & _).
  exists r, s1. split; [exact Hrun |]. split; [exact Hct |].
  split; [| auto].
  rewrite Hpass.
  destruct (shell (tool_world lw) (st_fs s) (working_dir toolkit) command 120)
    as [[out err rc|po pe|e] fs']; cbn [fst].
  - split.
    + intros H. apply Z.eqb_eq in H. subst rc. eauto.
    + intros (out' & err' & fs'' & H). injection H as _ _ -> _. reflexivity.
  - split; [discriminate | intros (? & ? & ? & H); discriminate].
  - split; [discriminate | intros (? & ? & ? & H); discriminate].
Qed.

Section Backpressure.

Variable lw : LoopWorld.
Variable toolkit : Toolkit.

Lemma covered_nil (c : RalphTaskConfig) : covered c [] [].
Proof.
  split; [reflexivity | split; [constructor |]].
  intros ct Hin. apply elem_of_nil in Hin. contradiction.
Qed.

(** [_run_backpressure], stanza by stanza. *)
Lemma run_backpressure_outcome (task : RalphTask) (s : State) o s1 :
  _run_backpressure lw toolkit task s = (o, s1) ->
  st_file_changes s1 = st_file_changes s
  /\ match o with
     | Return results =>
         covered (config task) ["test"; "lint"; "typecheck"; "build"] results
     | Raise e => refused_probe lw (config task) e
     end.
Proof.
  unfold _run_backpressure. cbv zeta. unfold bind.
  set (c := config task).
  destruct (run_if lw toolkit (run_tests c) "test" (test_command c)
              (_detect_test_command lw) (working_directory c) [] s)
    as [[r1|e1] s2] eqn:E1;
    destruct (stanza_step lw toolkit c [] "test" _ _ _ _ _ (covered_nil c) (probes_detect_test lw _) E1) as [F1 H1];
    [| intros H; apply pair_eq_inv in H as [<- <-]; auto].
  destruct (run_if lw toolkit (run_lint c) "lint" (lint_command c)
              (_detect_lint_command lw) (working_directory c) r1 s2)
    as [[r2|e2] s3] eqn:E2;
    destruct (stanza_step lw toolkit c _ "lint" _ _ _ _ _ H1 (probes_detect_lint lw _) E2) as [F2 H2];
    [| intros H; apply pair_eq_inv in H as [<- <-]; split; [congruence | exact H2]].
  destruct (run_if lw toolkit (run_typecheck c) "typecheck" (typecheck_command c)
              (_detect_typecheck_command lw) (working_directory c) r2 s3)
    as [[r3|e3] s4] eqn:E3;
    destruct (stanza_step lw toolkit c _ "typecheck" _ _ _ _ _ H2 (probes_detect_typecheck lw _) E3) as [F3 H3];
    [| intros H; apply pair_eq_inv in H as [<- <-]; split; [congruence | exact H3]].
  intros E4.
  destruct (stanza_step lw toolkit c _ "build" _ _ _ _ _ H3 (probes_detect_build lw _) E4) as [F4 H4].
  split; [congruence | exact H4].
Qed.

End Backpressure.

(** X13. [_run_backpressure] records no file change, whether it returns or
    raises. When it returns, its results come in the order test, lint,
    typecheck, build, at most one of each, only of check types the
    configuration enables, and one for every enabled check whose command
    is configured. It raises only the error of [os.stat] on a project file
    looked for in the working directory, for a check that is switched on
    and has no command configured. *)
Theorem X13_backpressure_order :
  forall (lw : LoopWorld) (toolkit : Toolkit) (task : RalphTask) (s s1 : State)
         (o : Outcome (list BackpressureResult)),
    _run_backpressure lw toolkit task s = (o, s1) ->
    st_file_changes s1 = st_file_changes s
    /\ match o with
       | Return results =>
           map Models.check_type results `sublist_of` ["test"; "lint"; "typecheck"; "build"]
           /\ Forall (fun r => enabled (config task) (Models.check_type r) = true) results
           /\ (forall check_type : string,
                 enabled (config task) check_type = true ->
                 PyStr.truthy (configured (config task) check_type) = true ->
                 check_type ∈ map Models.check_type results)
       | Raise e =>
           exists (fs : FS) (name check_type : string),
             stat_fails lw fs (working_directory (config task)) name = Some e
             /\ enabled (config task) check_type = true
             /\ PyStr.truthy (configured (config task) check_type) = false
       end.
Proof.
  intros lw toolkit task s s1 o H.
  destruct (run_backpressure_outcome lw toolkit task s o s1 H) as [Hfc Hout].
  split; [exact Hfc |].
  destruct o as [results|e]; [| exact Hout].
  destruct Hout as (Hsub & Hall & Hcov).
  split; [exact Hsub |]. split; [exact Hall |].
  intros ct Hen Hcmd. apply Hcov; [| exact Hen | exact Hcmd].
  unfold enabled in Hen.
  destruct (String.eqb ct "test") eqn:E1;
    [apply String.eqb_eq in E1; subst ct; set_solver |].
  destruct (String.eqb ct "lint") eqn:E2;
    [apply String.eqb_eq in E2; subst ct; set_solver |].
  destruct (String.eqb ct "typecheck") eqn:E3;
    [apply String.eqb_eq in E3; subst ct; set_solver |].
  destruct (String.eqb ct "build") eqn:E4;
    [apply String.eqb_eq in E4; subst ct; set_solver | discriminate].
Qed.

(** X13 at a task whose build check has a command and whose tests have
    none: the one result is that of the build; and at the same task where
    the directory may not be looked into. *)
Lemma X13_backpressure_order_witness :
  let task := new_task 0 "Build it" tests_and_build_config in
  let r := _run_backpressure (Demo.scripted (fun _ => Demo.says "ok")) Demo.toolkit
             task Demo.state in
  let r' := _run_backpressure (locked_world (Demo.scripted (fun _ => Demo.says "ok")))
              Demo.toolkit task Demo.state in
  (exists results : list BackpressureResult,
      fst r = Return results
      /\ map Models.check_type results = ["build"]
      /\ st_file_changes (snd r) = [])
  /\ (fst r' = Raise "[Errno 13] Permission denied: 'pytest.ini'"
      /\ st_file_changes (snd r') = []).
Proof.
  intros task r r'. split.
  - destruct (fst r) as [results|e] eqn:Er; [| vm_compute in Er; discriminate].
    pose proof (X13_backpressure_order _ _ _ _ _ _ (pair_of_fst r _ Er)) as [Hfc _].
    exists results. split; [reflexivity |].
    split; [vm_compute in Er; injection Er as <-; reflexivity | exact Hfc].
  - assert (Er : fst r' = Raise "[Errno 13] Permission denied: 'pytest.ini'")
      by (vm_compute; reflexivity).
    pose proof (X13_backpressure_order _ _ _ _ _ _ (pair_of_fst r' _ Er)) as [Hfc _].
    split; [exact Er | exact Hfc].
Defined.
(** *** The completion detector without a promise *)

Section Detector.

Lemma check_for_errors_fold tcs init :
  fold_left (fun critical tc => if PyStr.truthy (error tc) then true else critical)
    tcs init
  = (init || existsb (fun tc => PyStr.truthy (error tc)) tcs)%bool.
Proof.
  revert init. induction tcs as [|tc tcs IH]; intros init; cbn [fold_left existsb].
  - now rewrite orb_false_r.
  - rewrite IH. destruct (PyStr.truthy (error tc)), init; reflexivity.
Qed.

Lemma check_for_errors_false it :
  _check_for_errors it = false ->
  PyStr.truthy (it_error it) = false
  /\ Forall (fun tc => PyStr.truthy (error tc) = false) (tool_calls it).
Proof.
  unfold _check_for_errors. cbv zeta. rewrite check_for_errors_fold.
  intros H. apply orb_false_elim in H as [H1 H2]. split; [exact H1 |].
  apply List.Forall_forall. intros tc Hin.
  destruct (PyStr.truthy (error tc)) eqn:E; [| reflexivity].
  assert (existsb (fun tc => PyStr.truthy (error tc)) (tool_calls it) = true)
    by (apply existsb_exists; eauto).
  congruence.
Qed.

Lemma check_backpressure_flags results :
  all_passed (_check_backpressure results) = forallb passed results
  /\ bp_no_errors (_check_backpressure results)
     = forallb (fun r => PyStr.len (errors r) =? 0) results.
Proof. destruct results; split; reflexivity. Qed.

Lemma score_phrases_hits phrases response w label acc :
  fst (score_phrases phrases response w label acc)
  = Nat.iter (hits phrases response) (fun x => (x + w)%float) (fst acc).
Proof.
  revert acc. unfold score_phrases, hits.
  induction phrases as [|p ps IH]; intros acc; [reflexivity |].
  cbn [fold_left List.filter]. destruct (PyStr.contains p response).
  - rewrite IH. cbn [fst length]. rewrite Nat.iter_succ_r. reflexivity.
  - apply IH.
Qed.

(** The score [_analyze_progress] reports, from the phrases found. *)
Lemma analyze_progress_hits task it :
  exists b1 b2 : bool,
    pc_confidence (_analyze_progress task it)
    = py_min (heuristic_sum
                (hits completion_phrases (PyStr.lower (agent_response it)))
                (hits verification_phrases (PyStr.lower (agent_response it)))
                (hits no_change_phrases (PyStr.lower (agent_response it)))
                b1 b2) 0.7.
Proof.
  unfold _analyze_progress. cbn [pc_confidence].
  set (response := PyStr.lower (agent_response it)).
  set (a1 := score_phrases completion_phrases response 0.15%float "Found: "
               (0%float, [])).
  set (a2 := score_phrases verification_phrases response 0.1%float
               "Verification phrase: " a1).
  set (a3 := score_phrases no_change_phrases response 0.2%float "No changes: " a2).
  assert (E : fst a3 = heuristic_sum (hits completion_phrases response)
                         (hits verification_phrases response)
                         (hits no_change_phrases response) false false).
  { unfold heuristic_sum. subst a3 a2 a1. rewrite !score_phrases_hits. reflexivity. }
  set (a4 := match tool_calls it with [] => a3 | _ => _ end).
  assert (E4 : exists b1, fst a4 = heuristic_sum (hits completion_phrases response)
                                     (hits verification_phrases response)
                                     (hits no_change_phrases response) b1 false).
  { subst a4. destruct (tool_calls it) as [|tc tcs].
    - exists false. exact E.
    - destruct (forallb _ (tc :: tcs)).
      + exists true. cbn [fst]. rewrite E. reflexivity.
      + exists false. exact E. }
  destruct E4 as (b1 & E4).
  set (a5 := if 2 <=? PyStr.len (iterations task) then _ else a4).
  assert (E5 : exists b2, fst a5 = heuristic_sum (hits completion_phrases response)
                                     (hits verification_phrases response)
                                     (hits no_change_phrases response) b1 b2).
  { subst a5. destruct (2 <=? PyStr.len (iterations task)).
    - destruct (second_to_last (iterations task)) as [prev|].
      + destruct (PyStr.len (file_changes it) <? PyStr.len (file_changes prev)).
        * exists true. cbn [fst]. rewrite E4. reflexivity.
        * exists false. exact E4.
      + exists false. exact E4.
    - exists false. exact E4. }
  destruct E5 as (b2 & E5).
  exists b1, b2. rewrite E5. reflexivity.
Qed.

Lemma one_phrase_below_threshold_true : one_phrase_below_threshold = true.
Proof. vm_compute. reflexivity. Qed.

Lemma appears_complete_confident task it :
  appears_complete (_analyze_progress task it) = true ->
  (0.5 <=? pc_confidence (_analyze_progress task it))%float = true
  /\ forallb passed (backpressure_results it) = true.
Proof.
  unfold _analyze_progress. cbn [appears_complete pc_confidence].
  intros H. apply andb_prop in H as [H Hbp]. apply andb_prop in H as [Hconf _].
  auto.
Qed.

End Detector.

(** X14. When [check_completion] declares a task complete without a promise
    in the response, every backpressure result of the iteration has passed
    and lists no error, neither the iteration nor any of its tool calls
    carries an error, and the confidence it reports is at least 0.5 and at
    most 0.7. *)
Theorem X14_heuristic_completion_is_sound :
  forall (det : CompletionDetector) (task : RalphTask) (it : RalphIteration),
    is_complete (check_completion det task it) = true ->
    promise_detected (check_completion det task it) = false ->
    Forall (fun r => passed r = true /\ errors r = []) (backpressure_results it)
    /\ PyStr.truthy (it_error it) = false
    /\ Forall (fun tc => PyStr.truthy (error tc) = false) (tool_calls it)
    /\ (0.5 <=? confidence (check_completion det task it))%float = true
    /\ (confidence (check_completion det task it) <=? 0.7)%float = true.
Proof.
  intros det task it. unfold check_completion. cbv zeta.
  destruct (found _); [discriminate |].
  destruct (check_backpressure_flags (backpressure_results it)) as [-> ->].
  destruct (_check_for_errors it) eqn:Eerr.
  { rewrite andb_false_r. cbn [andb negb is_complete]. discriminate. }
  destruct (check_for_errors_false it Eerr) as [Hit Htc].
  destruct (forallb passed (backpressure_results it)) eqn:Epass;
    [| cbn [andb]; destruct (negb _); discriminate].
  destruct (forallb (fun r => PyStr.len (errors r) =? 0) (backpressure_results it)) eqn:Enoerr;
    [| cbn [andb negb]; discriminate].
  cbn [andb].
  destruct (appears_complete (_analyze_progress task it)) eqn:Eapp;
    [| cbn [negb]; discriminate].
  intros _ _. cbn [confidence].
  destruct (appears_complete_confident task it Eapp) as [Hconf _].
  split.
  { apply List.Forall_forall. intros r Hin.
    pose proof (proj1 (forallb_forall _ _) Epass r Hin) as Hp.
    pose proof (proj1 (forallb_forall _ _) Enoerr r Hin) as He. cbv beta in He.
    split; [exact Hp |]. apply Z.eqb_eq in He. unfold PyStr.len in He.
    destruct (errors r); [reflexivity | cbn [length] in He; lia]. }
  split; [exact Hit |]. split; [exact Htc |]. split; [exact Hconf |].
  apply analyze_progress_capped.
Qed.

(** X14 at an answer with four completion phrases and no checks. *)
Lemma X14_heuristic_completion_is_sound_witness :
  let it := Demo.plain_iteration 1
              "All done: the task is complete, completed successfully, tests pass." in
  let cr := check_completion Demo.detector (new_task 0 "Test task" (Demo.unchecked 5)) it in
  is_complete cr = true
  /\ promise_detected cr = false
  /\ (0.5 <=? confidence cr)%float = true.
Proof.
  intros it cr.
  assert (Hc : is_complete cr = true) by (vm_compute; reflexivity).
  assert (Hp : promise_detected cr = false) by (vm_compute; reflexivity).
  split; [exact Hc |]. split; [exact Hp |].
  exact (proj1 (proj2 (proj2 (proj2
           (X14_heuristic_completion_is_sound Demo.detector
              (new_task 0 "Test task" (Demo.unchecked 5)) it Hc Hp))))).
Defined.

(** X15. A response that holds no completion promise and at most one of the
    eighteen phrases of the progress heuristic never completes the task:
    with both bonuses the score stays below the threshold of 0.5. *)
Theorem X15_one_phrase_is_not_enough :
  forall (det : CompletionDetector) (task : RalphTask) (it : RalphIteration),
    found (_check_completion_promise det (agent_response it)
             (Some (completion_promise (config task)))) = false ->
    (phrase_hits it <= 1)%nat ->
    is_complete (check_completion det task it) = false.
Proof.
  intros det task it Hfound Hhits.
  unfold check_completion. cbv zeta. rewrite Hfound.
  destruct (appears_complete (_analyze_progress task it)) eqn:Eapp.
  2: { rewrite !andb_false_r. destruct (negb _); reflexivity. }
  exfalso.
  destruct (appears_complete_confident task it Eapp) as [Hconf _].
  destruct (analyze_progress_hits task it) as (b1 & b2 & E).
  rewrite E in Hconf. unfold phrase_hits in Hhits. cbv zeta in Hhits.
  set (k1 := hits completion_phrases _) in *.
  set (k2 := hits verification_phrases _) in *.
  set (k3 := hits no_change_phrases _) in *.
  pose proof one_phrase_below_threshold_true as H. unfold one_phrase_below_threshold in H.
  assert (Hk : In (k1, k2, k3) [(0, 0, 0); (1, 0, 0); (0, 1, 0); (0, 0, 1)]%nat).
  { cbn [In].
    destruct k1 as [|[|k1]], k2 as [|[|k2]], k3 as [|[|k3]]; try lia; auto. }
  assert (I1 : In b1 [false; true]) by (destruct b1; simpl; auto).
  assert (I2 : In b2 [false; true]) by (destruct b2; simpl; auto).
  pose proof (proj1 (forallb_forall _ _) H _ Hk) as G1. cbv beta in G1.
  pose proof (proj1 (forallb_forall _ _) G1 _ I1) as G2. cbv beta in G2.
  pose proof (proj1 (forallb_forall _ _) G2 _ I2) as G3. cbv beta in G3.
  cbn [fst snd] in G3. rewrite Hconf in G3. discriminate.
Qed.

(** X15 at an answer with one completion phrase. *)
Lemma X15_one_phrase_is_not_enough_witness :
  is_complete (check_completion Demo.detector (new_task 0 "Test task" (Demo.unchecked 5))
                 (Demo.plain_iteration 1 "I think the task is complete now."))
  = false.
Proof.
  apply X15_one_phrase_is_not_enough.
  - vm_compute. reflexivity.
  - vm_compute. lia.
Defined.
(** *** How a run ends *)

Section Exit.

Variable lw : LoopWorld.
Variable toolkit : Toolkit.
Variable det : CompletionDetector.

(** Every run of the loop that ends leaves it through one of the exits,
    from the task it entered with or from one in flight. *)
Lemma main_loop_exit fuel :
  forall k task s task' s',
    main_loop lw toolkit fuel det k task s = Some (task', s') ->
    exists (t : RalphTask) (k' : nat),
      config t = config task
      /\ iterations task `prefix_of` iterations t
      /\ ((t = task /\ k' = k) \/ in_flight t)
      /\ loop_exit lw det k' t task'
      /\ completion_result t = completion_result task
      /\ prompt t = prompt task.
Proof.
  induction fuel as [|fuel IH]; intros k task s task' s'; cbn [main_loop]; [discriminate |].
  destruct (cancel_requested lw k) eqn:Ec.
  { intros [= <- <-]. exists task, k. repeat split; auto. now constructor. }
  destruct (max_iterations (config task) <=? current_iteration task) eqn:Emax.
  { intros [= <- <-]. exists task, k. apply Z.leb_le in Emax.
    repeat split; auto. now constructor. }
  apply Z.leb_gt in Emax.
  destruct (_run_iteration lw toolkit task det k s) as [[it|e] s1].
  - destruct (after_iteration det task it) as [task1 [|]] eqn:Eafter.
    + intros [= <- <-]. exists task, k. repeat split; auto.
      econstructor; eassumption.
    + intros H.
      destruct (after_iteration_continues det task it task1 Eafter) as (-> & Hroom).
      destruct (IH _ _ _ _ _ H) as (t & k' & Hcfg & Hpre & Hhead & Hexit & Hcr & Hp).
      exists t, k'. split; [exact Hcfg |].
      split; [etrans; [| exact Hpre]; cbn [add_iteration iterations];
              now apply prefix_app_r |].
      split; [| auto]. right.
      destruct Hhead as [[-> _]|Hin]; [| exact Hin].
      split; [reflexivity |].
      cbn [add_iteration current_iteration config].
      unfold PyStr.len in *. rewrite length_app. cbn [length]. lia.
  - intros [= <- <-]. exists task, k. repeat split; auto. now constructor.
Qed.

(** The two ways [after_iteration] leaves the loop. *)
Lemma after_iteration_stops task it task' :
  after_iteration det task it = (task', true) ->
  let cr := check_completion det (add_iteration it task) it in
  (is_complete cr = true
   /\ task' = complete cr (agent_response it) (add_iteration it task))
  \/ (is_complete cr = false
      /\ exists reason : string, task' = fail reason (add_iteration it task)).
Proof.
  unfold after_iteration. cbv zeta.
  destruct (should_stop det (add_iteration it task) _) as [stop reason].
  destruct stop; [| discriminate].
  destruct (is_complete _); intros [= <-]; [left | right]; eauto.
Qed.

End Exit.

(** X16. A run of [run_task] that returns leaves the task in a terminal
    status, never pending or running. A completed task carries a completion
    result that says complete, has at least one iteration, and its final
    output is the response of the last one; a failed or timed-out task
    carries an error text. *)
Theorem X16_run_ends_terminal :
  forall (lw : LoopWorld) (task task' : RalphTask) (s s' : State),
    run_task lw task s = Finished task' s' ->
    terminal (status task') = true
    /\ (status task' = TaskStatus.COMPLETED ->
        exists (cr : CompletionResult) (it : RalphIteration),
          completion_result task' = Some cr
          /\ is_complete cr = true
          /\ last (iterations task') = Some it
          /\ final_output task' = Some (agent_response it))
    /\ (status task' = TaskStatus.FAILED \/ status task' = TaskStatus.TIMEOUT ->
        is_Some (task_error task')).
Proof.
  intros lw task task' s s'. unfold run_task.
  destruct (new_toolkit _ _ _ _ _) as [toolkit|]; [| discriminate].
  destruct (main_loop _ _ _ _ _ _ _) as [[t1 s1]|] eqn:Eloop; [| discriminate].
  intros [= <- <-].
  destruct (main_loop_exit _ _ _ _ _ _ _ _ _ Eloop) as (t & k' & _ & _ & _ & Hexit & _).
  destruct Hexit as [Hc | Hc Hmax | it task' Hc Hmax Hafter | e Hc Hmax].
  - split; [reflexivity |]. split; [discriminate | intros [|]; discriminate].
  - split; [reflexivity |]. split; [discriminate | intros _; cbn; eauto].
  - apply after_iteration_stops in Hafter. cbv zeta in Hafter.
    destruct Hafter as [[Hcr ->]|[Hcr (reason & ->)]].
    + split; [reflexivity |]. split; [| intros [|]; discriminate].
      intros _. eexists _, it. split; [reflexivity |]. split; [exact Hcr |].
      cbn [complete add_iteration iterations final_output].
      split; [apply last_snoc | reflexivity].
    + split; [reflexivity |]. split; [discriminate | intros _; cbn; eauto].
  - split; [reflexivity |]. split; [discriminate | intros _; cbn; eauto].
Qed.

(** X16 at the run of one iteration that ends with the promise. *)
Lemma X16_run_ends_terminal_witness :
  exists (task' : RalphTask) (s' : State),
    run_task (Demo.scripted (fun _ => Demo.says "Done. <promise>COMPLETE</promise>"))
      (new_task 0 "Say done" (Demo.unchecked 5)) Demo.state
    = Finished task' s'
    /\ terminal (status task') = true.
Proof.
  assert (Hrun : exists task' s',
            run_task (Demo.scripted (fun _ => Demo.says "Done. <promise>COMPLETE</promise>"))
              (new_task 0 "Say done" (Demo.unchecked 5)) Demo.state
            = Finished task' s')
    by (eexists _, _; vm_compute; reflexivity).
  destruct Hrun as (task' & s' & Hrun).
  exists task', s'. split; [exact Hrun |].
  exact (proj1 (X16_run_ends_terminal _ _ _ _ _ Hrun)).
Defined.

(** X17. A run started on a task whose counter agrees with its list of
    iterations keeps the iterations the task had, adds at most as many as
    the ceiling leaves room for, and does not touch the configuration. *)
Theorem X17_iteration_ceiling :
  forall (lw : LoopWorld) (task task' : RalphTask) (s s' : State),
    current_iteration task = PyStr.len (iterations task) ->
    run_task lw task s = Finished task' s' ->
    config task' = config task
    /\ iterations task `prefix_of` iterations task'
    /\ PyStr.len (iterations task')
       <= Z.max (PyStr.len (iterations task)) (max_iterations (config task)).
Proof.
  intros lw task task' s s' Hcount. unfold run_task.
  destruct (new_toolkit _ _ _ _ _) as [toolkit|]; [| discriminate].
  destruct (main_loop _ _ _ _ _ _ _) as [[t1 s1]|] eqn:Eloop; [| discriminate].
  intros [= <- <-].
  destruct (main_loop_exit _ _ _ _ _ _ _ _ _ Eloop) as (t & k' & Hcfg & Hpre & Hhead & Hexit & _).
  cbn [start set_status config iterations] in Hcfg, Hpre.
  assert (Hlen : PyStr.len (iterations t)
                 <= Z.max (PyStr.len (iterations task)) (max_iterations (config task))).
  { destruct Hhead as [[-> _]|[Hc Hroom]]; [cbn; lia |]. rewrite Hcfg in Hroom. lia. }
  assert (Hnext : current_iteration t < max_iterations (config t) ->
                  PyStr.len (iterations t) + 1
                  <= Z.max (PyStr.len (iterations task)) (max_iterations (config task))).
  { destruct Hhead as [[-> _]|[Hc Hroom]]; cbn [start set_status config iterations
      current_iteration]; [rewrite Hcount; lia |]. rewrite Hcfg, Hc. lia. }
  destruct Hexit as [Hc | Hc Hmax | it task' Hc Hmax Hafter | e Hc Hmax].
  - repeat split; assumption.
  - repeat split; assumption.
  - apply after_iteration_stops in Hafter. cbv zeta in Hafter.
    assert (Hsnoc : PyStr.len (iterations t ++ [it])%list = PyStr.len (iterations t) + 1)
      by (unfold PyStr.len; rewrite length_app; cbn [length]; lia).
    destruct Hafter as [[Hcr ->]|[Hcr (reason & ->)]];
      cbn [complete fail set_error set_status add_iteration config iterations];
      (split; [exact Hcfg |]);
      (split; [etrans; [exact Hpre | now apply prefix_app_r] |]);
      rewrite Hsnoc; auto.
  - repeat split; assumption.
Qed.

(** X17 at a model that never signals completion, under a ceiling of 3. *)
Lemma X17_iteration_ceiling_witness :
  exists (task' : RalphTask) (s' : State),
    run_task (Demo.scripted (fun k => Demo.says (pretty k)))
      (new_task 0 "Test task" (Demo.unchecked 3)) Demo.state
    = Finished task' s'
    /\ PyStr.len (iterations task') <= 3.
Proof.
  assert (Hrun : exists task' s',
            run_task (Demo.scripted (fun k => Demo.says (pretty k)))
              (new_task 0 "Test task" (Demo.unchecked 3)) Demo.state
            = Finished task' s')
    by (eexists _, _; vm_compute; reflexivity).
  destruct Hrun as (task' & s' & Hrun).
  exists task', s'. split; [exact Hrun |].
  exact (proj2 (proj2 (X17_iteration_ceiling _ (new_task 0 "Test task" (Demo.unchecked 3))
                         _ _ _ eq_refl Hrun))).
Defined.

(** X18. A run ends with the status [timeout] only when the task has no
    room for an iteration when the run begins (and nobody cancels before
    the first pass): once an iteration has run, reaching the ceiling ends
    the task as completed or failed, never as timed out. *)
Theorem X18_timeout_only_without_room :
  forall (lw : LoopWorld) (task task' : RalphTask) (s s' : State),
    run_task lw task s = Finished task' s' ->
    (status task' = TaskStatus.TIMEOUT
     <-> cancel_requested lw 0 = false
         /\ max_iterations (config task) <= current_iteration task).
Proof.
  intros lw task task' s s'. unfold run_task.
  destruct (new_toolkit _ _ _ _ _) as [toolkit|]; [| discriminate].
  destruct (main_loop _ _ _ _ _ _ _) as [[t1 s1]|] eqn:Eloop; [| discriminate].
  intros [= <- <-]. split.
  - intros Hstatus.
    destruct (main_loop_exit _ _ _ _ _ _ _ _ _ Eloop) as (t & k' & Hcfg & _ & Hhead & Hexit & _).
    destruct Hexit as [Hc | Hc Hmax | it task' Hc Hmax Hafter | e Hc Hmax];
      try discriminate.
    + destruct Hhead as [[-> ->]|[_ Hroom]]; [auto | lia].
    + apply after_iteration_stops in Hafter. cbv zeta in Hafter.
      destruct Hafter as [[_ ->]|[_ (reason & ->)]]; discriminate.
  - intros [Hc Hmax]. unfold enough_fuel in Eloop. cbn [main_loop] in Eloop.
    rewrite Hc in Eloop. cbn [start set_status config current_iteration] in Eloop.
    apply Z.leb_le in Hmax. rewrite Hmax in Eloop.
    injection Eloop as <- _. reflexivity.
Qed.

(** X18 at a ceiling of 0: the run ends timed out before any iteration. *)
Lemma X18_timeout_only_without_room_witness :
  exists (task' : RalphTask) (s' : State),
    run_task (Demo.scripted (fun _ => Demo.says "working on it"))
      (new_task 0 "Test task" (Demo.unchecked 0)) Demo.state
    = Finished task' s'
    /\ status task' = TaskStatus.TIMEOUT.
Proof.
  assert (Hrun : exists task' s',
            run_task (Demo.scripted (fun _ => Demo.says "working on it"))
              (new_task 0 "Test task" (Demo.unchecked 0)) Demo.state
            = Finished task' s')
    by (eexists _, _; vm_compute; reflexivity).
  destruct Hrun as (task' & s' & Hrun).
  exists task', s'. split; [exact Hrun |].
  apply (X18_timeout_only_without_room _ _ _ _ _ Hrun). split; [reflexivity |].
  cbn. lia.
Defined.
(** *** A turn with the model *)

Section Rounds.

Variable lw lw' : LoopWorld.
Variable toolkit : Toolkit.
Hypothesis same_tools : tool_world lw = tool_world lw'.

Lemma process_blocks_ext blocks :
  forall acc flag s,
    process_blocks lw toolkit blocks acc flag s
    = process_blocks lw' toolkit blocks acc flag s.
Proof.
  induction blocks as [|b rest IH]; intros acc flag s; [reflexivity |].
  destruct b as [text|bid name input|]; cbn [process_blocks].
  - apply IH.
  - unfold bind. rewrite same_tools.
    destruct (execute_tool (tool_world lw') toolkit name input s) as [[tc|e] s1];
      [apply IH | reflexivity].
  - apply IH.
Qed.

Lemma tool_rounds_ext k rounds :
  forall r acc s,
    (forall r', (r <= r' < r + rounds)%nat -> llm lw k r' = llm lw' k r') ->
    tool_rounds lw toolkit rounds k r acc s = tool_rounds lw' toolkit rounds k r acc s.
Proof.
  induction rounds as [|rounds IH]; intros r acc s Hllm; [reflexivity |].
  cbn [tool_rounds]. unfold bind. rewrite <- (Hllm r) by lia.
  destruct (of_sum (llm lw k r) s) as [[response|e] s1]; [| reflexivity].
  rewrite process_blocks_ext.
  destruct (process_blocks lw' toolkit (content response) acc false s1)
    as [[[acc' flag]|e] s2]; [| reflexivity].
  destruct (negb flag); [reflexivity |].
  destruct (String.eqb (stop_reason response) "end_turn"); [reflexivity |].
  apply IH. intros r' Hr'. apply Hllm. lia.
Qed.

End Rounds.

(** X19. [_call_claude] asks the model at most ten times in an iteration:
    what the model would answer to an eleventh or later request has no
    influence on the turn or on the state it leaves. *)
Theorem X19_call_claude_asks_ten_times :
  forall (lw lw' : LoopWorld) (toolkit : Toolkit) (k : nat) (s : State),
    tool_world lw = tool_world lw' ->
    (forall r : nat, (r < 10)%nat -> llm lw k r = llm lw' k r) ->
    _call_claude lw toolkit k s = _call_claude lw' toolkit k s.
Proof.
  intros lw lw' toolkit k s Htools Hllm. unfold _call_claude, bind.
  rewrite (tool_rounds_ext lw lw' toolkit Htools k max_tool_rounds 0); [reflexivity |].
  intros r Hr. apply Hllm. unfold max_tool_rounds in Hr. lia.
Qed.

(** X19 at a model that keeps asking for a directory listing. *)
Lemma X19_call_claude_asks_ten_times_witness :
  let lw := Demo.scripted
              (fun _ => inl {| content := [ToolUseBlock "id" "list_files" []];
                               stop_reason := "tool_use" |}) in
  _call_claude lw Demo.toolkit 0 Demo.state
  = _call_claude (silent_after 10 lw) Demo.toolkit 0 Demo.state.
Proof.
  intros lw.
  apply (X19_call_claude_asks_ten_times lw (silent_after 10 lw)); [reflexivity |].
  intros r Hr. cbn [silent_after llm].
  destruct (Nat.ltb_spec r 10) as [_|Hge]; [reflexivity | lia].
Defined.

Section PromiseText.

Lemma startswith_app_l (a b p : string) :
  PyStr.startswith a p = true -> PyStr.startswith (a +:+ b) p = true.
Proof.
  revert a. induction p as [|c p IH]; intros a; [destruct (a +:+ b); reflexivity |].
  destruct a as [|d a]; cbn [PyStr.startswith]; [discriminate |].
  change (String d a +:+ b) with (String d (a +:+ b)). cbn [PyStr.startswith].
  destruct (Ascii.eqb c d); [apply IH | discriminate].
Qed.

Lemma contains_app_l (a b p : string) :
  PyStr.contains p a = true -> PyStr.contains p (a +:+ b) = true.
Proof.
  induction a as [|d a IH].
  - cbn [PyStr.contains]. rewrite orb_false_r. intros H.
    destruct p; [destruct b; reflexivity | discriminate].
  - change (String d a +:+ b) with (String d (a +:+ b)).
    cbn [PyStr.contains]. intros H. apply orb_prop in H as [H|H].
    + pose proof (startswith_app_l (String d a) b p H) as H'.
      change (String d a +:+ b) with (String d (a +:+ b)) in H'.
      rewrite H'. reflexivity.
    + rewrite (IH H). apply orb_true_r.
Qed.

Lemma contains_app_r (a b p : string) :
  PyStr.contains p b = true -> PyStr.contains p (a +:+ b) = true.
Proof.
  intros H. induction a as [|d a IH]; [exact H |].
  change (String d a +:+ b) with (String d (a +:+ b)).
  cbn [PyStr.contains]. rewrite IH. apply orb_true_r.
Qed.

Lemma contains_self_app (p b : string) : PyStr.contains p (p +:+ b) = true.
Proof.
  destruct p as [|c p]; [destruct b; reflexivity |].
  change (String c p +:+ b) with (String c (p +:+ b)).
  cbn [PyStr.contains].
  change (String c (p +:+ b)) with (String c p +:+ b).
  rewrite startswith_app. reflexivity.
Qed.

Lemma contains_nonempty (p s : string) :
  p <> EmptyString -> PyStr.contains p s = true -> s <> EmptyString.
Proof.
  intros Hp H ->. destruct p; [congruence | discriminate].
Qed.

Lemma contains_lstrip (c : ascii) (p s : string) :
  PyStr.is_space c = false ->
  PyStr.contains (String c p) s = true ->
  PyStr.contains (String c p) (PyStr.lstrip s) = true.
Proof.
  intros Hc. induction s as [|d s IH]; [discriminate |].
  cbn [PyStr.lstrip]. destruct (PyStr.is_space d) eqn:Ed; [| auto].
  cbn [PyStr.contains PyStr.startswith].
  destruct (Ascii.eqb_spec c d) as [->|_]; [congruence |].
  cbn [orb]. exact IH.
Qed.

Lemma ends_in_text_nonempty (p : string) : ends_in_text p = true -> p <> EmptyString.
Proof. destruct p; [discriminate | discriminate]. Qed.

Lemma startswith_nonempty (p s : string) :
  p <> EmptyString -> PyStr.startswith s p = true -> s <> EmptyString.
Proof.
  intros Hp H ->. destruct p; [congruence | discriminate].
Qed.

Lemma startswith_rstrip (p : string) :
  forall s, ends_in_text p = true ->
            PyStr.startswith s p = true ->
            PyStr.startswith (PyStr.rstrip s) p = true.
Proof.
  induction p as [|a p IH]; intros s Hp; [discriminate |].
  destruct s as [|d s]; [discriminate |].
  cbn [PyStr.startswith]. destruct (Ascii.eqb_spec a d) as [<-|_]; [| discriminate].
  intros Hs. cbn [PyStr.rstrip]. cbv zeta.
  destruct p as [|b p].
  - cbn [ends_in_text] in Hp. apply negb_true_iff in Hp. rewrite Hp. cbn [andb].
    cbn [PyStr.startswith]. rewrite Ascii.eqb_refl.
    destruct (PyStr.rstrip s); reflexivity.
  - pose proof (IH s Hp Hs) as Hr.
    assert (Hne : PyStr.rstrip s <> EmptyString)
      by (eapply startswith_nonempty; [| exact Hr]; discriminate).
    apply String.eqb_neq in Hne. rewrite Hne, andb_false_r.
    cbn [PyStr.startswith]. rewrite Ascii.eqb_refl. exact Hr.
Qed.

Lemma contains_rstrip (p s : string) :
  ends_in_text p = true ->
  PyStr.contains p s = true ->
  PyStr.contains p (PyStr.rstrip s) = true.
Proof.
  intros Hp. pose proof (ends_in_text_nonempty p Hp) as Hne.
  induction s as [|d s IH]; [intros H; exfalso; destruct p; [congruence | discriminate] |].
  cbn [PyStr.contains]. intros H. apply orb_prop in H as [H|H].
  - apply (startswith_rstrip p _ Hp) in H.
    destruct (PyStr.rstrip (String d s)) as [|x r] eqn:E.
    + destruct p; [congruence | discriminate].
    + cbn [PyStr.contains]. rewrite H. reflexivity.
  - pose proof (IH H) as Hr.
    pose proof (contains_nonempty p _ Hne Hr) as Hrne.
    cbn [PyStr.rstrip]. cbv zeta.
    apply String.eqb_neq in Hrne. rewrite Hrne, andb_false_r.
    cbn [PyStr.contains]. rewrite Hr. apply orb_true_r.
Qed.

Lemma contains_strip (c : ascii) (p s : string) :
  PyStr.is_space c = false ->
  ends_in_text (String c p) = true ->
  PyStr.contains (String c p) s = true ->
  PyStr.contains (String c p) (PyStr.strip s) = true.
Proof.
  intros Hc Hp H. unfold PyStr.strip.
  apply contains_rstrip; [exact Hp |]. apply contains_lstrip; assumption.
Qed.

(** The pattern of a literal finds it wherever the text holds it. *)
Lemma match_here_lit (p : string) :
  forall s, PyStr.startswith s p = true -> is_Some (Re.match_here (Re.lit p) s).
Proof.
  induction p as [|a p IH]; intros s; cbn [Re.lit Re.match_here]; [eauto |].
  destruct s as [|d s]; cbn [PyStr.startswith]; [discriminate |].
  destruct (Ascii.eqb_spec a d) as [<-|_]; [| discriminate].
  intros H. rewrite Ascii.eqb_refl.
  destruct (IH s H) as [m ->]. cbn. eauto.
Qed.

Lemma search_lit (p s : string) :
  PyStr.contains p s = true -> is_Some (Re.search (Re.lit p) s).
Proof.
  induction s as [|d s IH]; cbn [PyStr.contains Re.search].
  - rewrite orb_false_r. intros H.
    destruct (match_here_lit p _ H) as [m ->]. eauto.
  - intros H.
    destruct (Re.match_here (Re.lit p) (String d s)) as [m|] eqn:E; [eauto |].
    apply orb_prop in H as [H|H].
    + destruct (match_here_lit p _ H) as [m Hm]. congruence.
    + exact (IH H).
Qed.

(** Every detector [run_task] builds finds the literal, whatever promise
    the task configures. *)
Lemma literal_is_found (promise response : string) (custom : option string) :
  PyStr.contains promise_literal response = true ->
  found (_check_completion_promise (new_detector promise) response custom) = true.
Proof.
  intros H. destruct (search_lit promise_literal response H) as [m Hm].
  unfold promise_literal in Hm.
  assert (Hrest : found (if PyStr.contains promise response
                         then {| found := true; matched := Some promise |}
                         else match first_match (completion_patterns (new_detector promise))
                                      response with
                              | Some m => {| found := true; matched := Some m |}
                              | None => {| found := false; matched := None |}
                              end) = true).
  { destruct (PyStr.contains promise response); [reflexivity |].
    cbn [new_detector completion_patterns first_match]. rewrite Hm. reflexivity. }
  unfold _check_completion_promise. cbv zeta. cbn [new_detector cd_completion_promise].
  destruct custom as [c|]; [| exact Hrest].
  destruct (_ && _)%bool; [reflexivity | exact Hrest].
Qed.

End PromiseText.

Section CompleteTask.

Variable lw : LoopWorld.
Variable toolkit : Toolkit.

Lemma execute_tool_name (w : World) name input s tc s1 :
  execute_tool w toolkit name input s = (Return tc, s1) -> tool_name tc = name.
Proof.
  unfold execute_tool, bind, try_except, time, ret.
  destruct (lookup_method w toolkit name) as [method|].
  - destruct (method input _) as [[r|e] s2]; cbn [fst snd]; intros [= <- _]; reflexivity.
  - intros [= <- _]. reflexivity.
Qed.

Lemma calls_complete_task_snoc tcs tc :
  calls_complete_task (tcs ++ [tc])%list
  = (calls_complete_task tcs || String.eqb (tool_name tc) "complete_task")%bool.
Proof.
  unfold calls_complete_task. rewrite existsb_app. cbn [existsb].
  now rewrite orb_false_r.
Qed.

Lemma process_blocks_signalled blocks :
  forall acc flag s acc' flag' s1,
    signalled acc ->
    process_blocks lw toolkit blocks acc flag s = (Return (acc', flag'), s1) ->
    signalled acc'.
Proof.
  induction blocks as [|b rest IH]; intros acc flag s acc' flag' s1 Hacc;
    cbn [process_blocks].
  - intros [= <- _ _]. exact Hacc.
  - destruct b as [text|bid name input|].
    + apply IH. unfold signalled in *. cbn [turn_tool_calls full_response].
      intros H. apply contains_app_l. exact (Hacc H).
    + unfold bind.
      destruct (execute_tool (tool_world lw) toolkit name input s) as [[tc|e] s2] eqn:Ex;
        [| discriminate].
      apply IH. unfold signalled in *. cbn [turn_tool_calls full_response].
      rewrite calls_complete_task_snoc, (execute_tool_name _ _ _ _ _ _ Ex).
      destruct (String.eqb name "complete_task").
      * intros _. apply contains_app_r. apply contains_app_r.
        apply contains_self_app.
      * rewrite orb_false_r. exact Hacc.
    + apply IH. exact Hacc.
Qed.

Lemma tool_rounds_signalled k rounds :
  forall r acc s acc' s1,
    signalled acc ->
    tool_rounds lw toolkit rounds k r acc s = (Return acc', s1) ->
    signalled acc'.
Proof.
  induction rounds as [|rounds IH]; intros r acc s acc' s1 Hacc; cbn [tool_rounds].
  - intros [= <- _]. exact Hacc.
  - unfold bind.
    destruct (of_sum (llm lw k r) s) as [[response|e] s2]; [| discriminate].
    destruct (process_blocks lw toolkit (content response) acc false s2)
      as [[[acc1 flag]|e] s3] eqn:Ep; [| discriminate].
    pose proof (process_blocks_signalled _ _ _ _ _ _ _ Hacc Ep) as H1.
    destruct (negb flag); [intros [= <- _]; exact H1 |].
    destruct (String.eqb (stop_reason response) "end_turn");
      [intros [= <- _]; exact H1 |].
    apply IH. exact H1.
Qed.

Lemma call_claude_signalled k s turn s1 :
  _call_claude lw toolkit k s = (Return turn, s1) ->
  calls_complete_task (turn_tool_calls turn) = true ->
  PyStr.contains promise_literal (full_response turn) = true.
Proof.
  unfold _call_claude, bind.
  destruct (tool_rounds lw toolkit max_tool_rounds k 0 _ s) as [[acc|e] s2] eqn:Er;
    [| discriminate].
  intros [= <- _]. cbn [turn_tool_calls full_response]. intros H.
  apply contains_strip; [reflexivity | reflexivity |].
  refine (tool_rounds_signalled _ _ _ _ _ _ _ _ Er H).
  intros Hno. discriminate.
Qed.

(** An iteration that records a call of [complete_task] carries the
    flag. *)
Lemma run_iteration_signalled promise task k s it s1 :
  _run_iteration lw toolkit task (new_detector promise) k s = (Return it, s1) ->
  calls_complete_task (tool_calls it) = true ->
  completion_promise_found it = true.
Proof.
  unfold _run_iteration.
  destruct (build_prompt lw k) as [prompt|e]; [| intros [= <- _]; discriminate].
  unfold try_except, bind.
  destruct (_call_claude lw toolkit k s) as [[turn|e] s2] eqn:Ec;
    [| intros [= <- _]; discriminate].
  destruct (get_file_changes s2) as [[changes|e] s3]; cbn [fst snd];
    [| intros [= <- _]; discriminate].
  destruct (if (_ || _)%bool then _ else _) as [[bp|e] s4];
    intros [= <- _];
    cbn [iteration_complete iteration_failed tool_calls completion_promise_found];
    intros H; apply literal_is_found;
    exact (call_claude_signalled _ _ _ _ Ec H).
Qed.

End CompleteTask.

(** X20. When the model uses the tool [complete_task] in an iteration, the
    loop is left in that pass with the task completed at confidence 1.0,
    whatever completion promise the task configures, whatever else the
    response says, whether the checks pass and whether the call of the tool
    itself succeeded. *)
Theorem X20_complete_task_tool_completes :
  forall (lw : LoopWorld) (toolkit : Toolkit) (promise : string) (fuel k : nat)
         (task : RalphTask) (s s' : State) (it : RalphIteration),
    cancel_requested lw k = false ->
    (max_iterations (config task) <=? current_iteration task) = false ->
    _run_iteration lw toolkit task (new_detector promise) k s = (Return it, s') ->
    calls_complete_task (tool_calls it) = true ->
    exists (task' : RalphTask) (cr : CompletionResult),
      main_loop lw toolkit (S fuel) (new_detector promise) k task s = Some (task', s')
      /\ status task' = TaskStatus.COMPLETED
      /\ completion_result task' = Some cr
      /\ is_complete cr = true
      /\ confidence cr = 1.0%float.
Proof.
  intros lw toolkit promise fuel k task s s' it Hcancel Hmax Hrun Hcall.
  pose proof (run_iteration_signalled lw toolkit promise task k s it s' Hrun Hcall) as Hflag.
  pose proof (run_iteration_promise lw toolkit _ task k s it s' Hrun Hflag) as Hfound.
  destruct (check_completion_promise (new_detector promise) (add_iteration it task) it Hfound)
    as (Hc & Hconf & _).
  eexists _, _. cbn [main_loop]. rewrite Hcancel, Hmax, Hrun.
  rewrite (after_iteration_complete (new_detector promise) task it Hc).
  split; [reflexivity |]. repeat split; assumption.
Qed.

(** X20 at a model that voices doubt and calls [complete_task] without a
    summary, under a detector built for a promise of its own. *)
Lemma X20_complete_task_tool_completes_witness :
  let lw := Demo.scripted
              (fun _ => inl {| content := [TextBlock "Not sure about this.";
                                           ToolUseBlock "id" "complete_task" []];
                               stop_reason := "end_turn" |}) in
  let task := start (new_task 0 "Test task" (Demo.unchecked 5)) in
  exists (task' : RalphTask) (cr : CompletionResult),
    main_loop lw Demo.toolkit 1 (new_detector "ALL FINISHED") 0 task Demo.state
    = Some (task', snd (_run_iteration lw Demo.toolkit task (new_detector "ALL FINISHED")
                          0 Demo.state))
    /\ status task' = TaskStatus.COMPLETED
    /\ completion_result task' = Some cr
    /\ is_complete cr = true
    /\ confidence cr = 1.0%float.
Proof.
  intros lw task.
  eapply (X20_complete_task_tool_completes lw Demo.toolkit "ALL FINISHED" 0 0 task Demo.state).
  - reflexivity.
  - reflexivity.
  - apply pair_of_fst. reflexivity.
  - vm_compute. reflexivity.
Defined.
(** *** The iterations of a run, and tasks created through the API *)

Section Recorded.

Variable lw : LoopWorld.
Variable toolkit : Toolkit.
Variable det : CompletionDetector.

(** What a run adds to the task: iterations [_run_iteration] made for the
    task's configuration, behind the ones it had. *)
Lemma main_loop_iterations fuel :
  forall k task s task' s',
    main_loop lw toolkit fuel det k task s = Some (task', s') ->
    config task' = config task
    /\ exists added : list RalphIteration,
         iterations task' = (iterations task ++ added)%list
         /\ Forall (made_by lw toolkit det (config task)) added.
Proof.
  induction fuel as [|fuel IH]; intros k task s task' s'; cbn [main_loop]; [discriminate |].
  assert (Hnone : config task = config task
                  /\ exists added, iterations task = (iterations task ++ added)%list
                                   /\ Forall (made_by lw toolkit det (config task)) added)
    by (split; [reflexivity |]; exists []; split; [now rewrite app_nil_r | constructor]).
  destruct (cancel_requested lw k); [intros [= <- <-]; exact Hnone |].
  destruct (max_iterations (config task) <=? current_iteration task);
    [intros [= <- <-]; exact Hnone |].
  destruct (_run_iteration lw toolkit task det k s) as [[it|e] s1] eqn:Erun;
    [| intros [= <- <-]; exact Hnone].
  assert (Hmade : made_by lw toolkit det (config task) it)
    by (exists task, k, s, s1; auto).
  destruct (after_iteration det task it) as [task1 [|]] eqn:Eafter.
  - intros [= <- <-]. unfold after_iteration in Eafter. cbv zeta in Eafter.
    destruct (should_stop det (add_iteration it task) _) as [stop reason].
    destruct stop; [| discriminate].
    destruct (is_complete _); injection Eafter as <-;
      (split; [reflexivity |]); exists [it]; split; auto.
  - intros H. destruct (after_iteration_continues det task it task1 Eafter) as (-> & _).
    destruct (IH _ _ _ _ _ H) as (Hcfg & added & Hits & Hall).
    split; [exact Hcfg |]. exists (it :: added).
    split; [rewrite Hits; cbn [add_iteration iterations]; now rewrite <- app_assoc |].
    constructor; assumption.
Qed.

End Recorded.

Section Shapes.

Variable lw : LoopWorld.
Variable toolkit : Toolkit.


End Shapes.



Section ApiTask.

Lemma override_nonempty (requested : option string) (current : string) :
  current <> EmptyString -> Api.override requested current <> EmptyString.
Proof.
  intros Hc. unfold Api.override, PyStr.truthy.
  destruct requested as [v|]; [| exact Hc].
  destruct (String.eqb_spec v EmptyString); cbn [negb]; assumption.
Qed.

Lemma build_config_checked (request : Api.CreateTaskRequest) :
  Api.validates request = true ->
  1 <= max_iterations (Api.build_config request) <= 1000
  /\ run_build (Api.build_config request) = false
  /\ completion_promise (Api.build_config request) <> EmptyString.
Proof.
  unfold Api.validates. intros H. apply andb_prop in H as [_ H].
  split; [| split; [reflexivity | apply override_nonempty; discriminate]].
  cbn [Api.build_config max_iterations default_config].
  destruct (Api.max_iterations request) as [n|]; [| lia].
  apply andb_prop in H as [H1 H2]. apply Z.leb_le in H1, H2.
  destruct (Z.eqb_spec n 0); lia.
Qed.

Variable lw : LoopWorld.
Variable toolkit : Toolkit.

(** With the build check switched off, no result is of type "build". *)
Lemma no_build_result task s results s1 :
  run_build (config task) = false ->
  _run_backpressure lw toolkit task s = (Return results, s1) ->
  Forall (fun r => check_type r <> "build") results.
Proof.
  intros Hoff Hrun.
  destruct (run_backpressure_outcome _ _ _ _ _ _ Hrun) as [_ (_ & Hall & _)].
  eapply Forall_impl; [exact Hall |].
  intros r Hen Hbuild. cbv beta in Hen. rewrite Hbuild in Hen. unfold enabled in Hen.
  cbn [String.eqb Ascii.eqb Bool.eqb] in Hen. congruence.
Qed.

Lemma run_iteration_no_build det task k s it s' :
  run_build (config task) = false ->
  _run_iteration lw toolkit task det k s = (Return it, s') ->
  Forall (fun r => check_type r <> "build") (backpressure_results it).
Proof.
  intros Hoff. unfold _run_iteration.
  destruct (build_prompt lw k) as [prompt|e]; [| intros [= <- _]; constructor].
  unfold try_except, bind.
  destruct (_call_claude lw toolkit k s) as [[turn|e] s1];
    [| intros [= <- _]; constructor].
  destruct (get_file_changes s1) as [[changes|e] s2]; cbn [fst snd];
    [| intros [= <- _]; constructor].
  destruct (_ || _)%bool.
  - destruct (_run_backpressure lw toolkit task s2) as [[bp|e] s3] eqn:Ebp;
      intros [= <- _]; [| constructor].
    exact (no_build_result _ _ _ _ Hoff Ebp).
  - intros [= <- _]. constructor.
Qed.

End ApiTask.

(** X22. A task created through [POST /tasks] from a request that passes
    validation has a ceiling between 1 and 1000 iterations and a completion
    promise that is not empty, and its build check is off. So a run of it
    never ends with the status [timeout], and no iteration of it carries
    the result of a build check. *)
Theorem X22_api_task_runs :
  forall (request : Api.CreateTaskRequest) (i : nat) (lw : LoopWorld)
         (task' : RalphTask) (s s' : State),
    Api.validates request = true ->
    run_task lw (Api.create_task request i) s = Finished task' s' ->
    1 <= max_iterations (config task') <= 1000
    /\ completion_promise (config task') <> EmptyString
    /\ status task' <> TaskStatus.TIMEOUT
    /\ Forall (fun it => Forall (fun r => check_type r <> "build")
                           (backpressure_results it))
         (iterations task').
Proof.
  intros request i lw task' s s' Hvalid.
  destruct (build_config_checked request Hvalid) as (Hmax & Hbuild & Hpromise).
  unfold run_task.
  destruct (new_toolkit _ _ _ _ _) as [toolkit|]; [| discriminate].
  destruct (main_loop _ _ _ _ _ _ _) as [[t1 s1]|] eqn:Eloop; [| discriminate].
  intros [= <- <-].
  destruct (main_loop_iterations _ _ _ _ _ _ _ _ _ Eloop) as (Hcfg & added & Hits & Hall).
  cbn [start set_status config iterations Api.create_task] in Hcfg, Hits, Hall.
  rewrite Hcfg. split; [exact Hmax |]. split; [exact Hpromise |].
  split.
  - destruct (main_loop_exit _ _ _ _ _ _ _ _ _ Eloop) as (t & k' & Hcfg' & _ & Hhead & Hexit & _).
    destruct Hexit as [Hc | Hc Hroom | it task' Hc Hroom Hafter | e Hc Hroom];
      try discriminate.
    + exfalso. destruct Hhead as [[-> ->]|[_ Hlt]]; [| lia].
      cbn [start set_status config current_iteration Api.create_task] in Hroom. lia.
    + apply after_iteration_stops in Hafter. cbv zeta in Hafter.
      destruct Hafter as [[_ ->]|[_ (reason & ->)]]; discriminate.
  - rewrite Hits. cbn [app]. eapply Forall_impl; [exact Hall |].
    intros it (t & k & s0 & s0' & Hc & Hrun).
    eapply run_iteration_no_build; [| exact Hrun].
    rewrite Hc. exact Hbuild.
Qed.

(** X22 at a request that leaves every option open. *)
Lemma X22_api_task_runs_witness :
  exists (task' : RalphTask) (s' : State),
    run_task (Demo.scripted (fun k => Demo.says "Done. <promise>COMPLETE</promise>"))
      (Api.create_task (plain_request "Write the release notes") 0) Demo.state
    = Finished task' s'
    /\ 1 <= max_iterations (config task') <= 1000
    /\ status task' <> TaskStatus.TIMEOUT.
Proof.
  assert (Hrun : exists task' s',
            run_task (Demo.scripted (fun k => Demo.says "Done. <promise>COMPLETE</promise>"))
              (Api.create_task (plain_request "Write the release notes") 0) Demo.state
            = Finished task' s')
    by (eexists _, _; vm_compute; reflexivity).
  destruct Hrun as (task' & s' & Hrun).
  destruct (X22_api_task_runs (plain_request "Write the release notes") 0 _ _ _ _
              eq_refl Hrun) as (Hmax & _ & Hst & _).
  exists task', s'. split; [exact Hrun |]. split; [exact Hmax | exact Hst].
Defined.
(** *** The buffer of file changes *)

Section Preserves.

Variable R : State -> State -> Prop.
Hypothesis R_frame : forall s s', st_file_changes s' = st_file_changes s -> R s s'.
Hypothesis R_trans : forall s1 s2 s3, R s1 s2 -> R s2 s3 -> R s1 s3.

Lemma preserves_frame {A} (m : M A) :
  (forall s, st_file_changes (snd (m s)) = st_file_changes s) -> preserves R m.
Proof. intros H s. apply R_frame, H. Qed.

Lemma preserves_ret {A} (a : A) : preserves R (ret a).
Proof. now apply preserves_frame. Qed.

Lemma preserves_raise {A} (msg : string) : preserves R (@raise A msg).
Proof. now apply preserves_frame. Qed.

Lemma preserves_get_fs : preserves R get_fs.
Proof. now apply preserves_frame. Qed.

Lemma preserves_put_fs fs : preserves R (put_fs fs).
Proof. now apply preserves_frame. Qed.

Lemma preserves_kill command : preserves R (kill command).
Proof. now apply preserves_frame. Qed.

Lemma preserves_time w : preserves R (time w).
Proof. now apply preserves_frame. Qed.

Lemma preserves_fs_op op : preserves R (fs_op op).
Proof.
  apply preserves_frame. intros s. unfold fs_op.
  destruct (op (st_fs s)) as [fs' [msg|]]; reflexivity.
Qed.

Lemma preserves_bind {A B} (m : M A) (k : A -> M B) :
  preserves R m -> (forall a, preserves R (k a)) -> preserves R (bind m k).
Proof.
  intros Hm Hk s. unfold bind. specialize (Hm s).
  destruct (m s) as [[a|msg] s1]; cbn [snd] in *; [| exact Hm].
  exact (R_trans _ _ _ Hm (Hk a s1)).
Qed.

Lemma preserves_try_except {A} (m : M A) (h : string -> M A) :
  preserves R m -> (forall e, preserves R (h e)) -> preserves R (try_except m h).
Proof.
  intros Hm Hh s. unfold try_except. specialize (Hm s).
  destruct (m s) as [[a|msg] s1]; cbn [snd] in *; [exact Hm |].
  exact (R_trans _ _ _ Hm (Hh msg s1)).
Qed.

Lemma preserves_of_sum {A} (r : A + string) : preserves R (of_sum r).
Proof. destruct r; [apply preserves_ret | apply preserves_raise]. Qed.

Lemma preserves_check_keywords fname allowed args :
  preserves R (check_keywords fname allowed args).
Proof.
  unfold check_keywords. destruct (List.find _ args) as [[k v]|];
    [apply preserves_raise | apply preserves_ret].
Qed.

Lemma preserves_required fname key args : preserves R (required fname key args).
Proof.
  unfold required. destruct (dict_get key args);
    [apply preserves_ret | apply preserves_raise].
Qed.

Lemma preserves_as_str v : preserves R (as_str v).
Proof. destruct v; first [apply preserves_ret | apply preserves_raise]. Qed.

Lemma preserves_as_opt_str v : preserves R (as_opt_str v).
Proof. destruct v; first [apply preserves_ret | apply preserves_raise]. Qed.

Lemma preserves_as_opt_int v : preserves R (as_opt_int v).
Proof. destruct v; first [apply preserves_ret | apply preserves_raise]. Qed.

Lemma preserves_as_int v : preserves R (as_int v).
Proof. destruct v; first [apply preserves_ret | apply preserves_raise]. Qed.

Lemma preserves_resolve_path self path : preserves R (_resolve_path self path).
Proof.
  unfold _resolve_path. apply preserves_bind; [apply preserves_get_fs |].
  intros fs. destruct (resolve fs (working_dir self) path) as [p|];
    [| apply preserves_raise].
  destruct (negb _); [apply preserves_raise | apply preserves_ret].
Qed.

Lemma preserves_run_shell_command w self command timeout :
  preserves R (_run_shell_command w self command timeout).
Proof.
  apply preserves_frame. intros s. rewrite run_shell_command_outcome.
  destruct (shell w (st_fs s) (working_dir self) command timeout) as [[out err rc|po pe|e] fs'];
    reflexivity.
Qed.

Ltac preserves_step :=
  first
    [ apply preserves_ret
    | apply preserves_raise
    | apply preserves_get_fs
    | apply preserves_put_fs
    | apply preserves_kill
    | apply preserves_time
    | apply preserves_fs_op
    | apply preserves_of_sum
    | apply preserves_check_keywords
    | apply preserves_required
    | apply preserves_as_str
    | apply preserves_as_opt_str
    | apply preserves_as_opt_int
    | apply preserves_as_int
    | apply preserves_resolve_path
    | apply preserves_run_shell_command
    | assumption
    | apply preserves_bind; [| intro]
    | apply preserves_try_except; [| intro]
    | match goal with
      | |- preserves _ (if ?b then _ else _) => destruct b
      | |- preserves _ (match ?x with _ => _ end) => destruct x
      end ].

Variable w : World.
Variable self : Toolkit.

Lemma preserves_read_file args : preserves R (_tool_read_file self args).
Proof. unfold _tool_read_file. repeat preserves_step. Qed.

Lemma preserves_list_files args : preserves R (_tool_list_files w self args).
Proof. unfold _tool_list_files. repeat preserves_step. Qed.

Lemma preserves_search_files args : preserves R (_tool_search_files w self args).
Proof. unfold _tool_search_files. repeat preserves_step. Qed.

Lemma preserves_run_command args : preserves R (_tool_run_command w self args).
Proof. unfold _tool_run_command. repeat preserves_step. Qed.

Lemma preserves_git_status args : preserves R (_tool_git_status w self args).
Proof. unfold _tool_git_status. repeat preserves_step. Qed.

Lemma preserves_git_diff args : preserves R (_tool_git_diff w self args).
Proof. unfold _tool_git_diff. repeat preserves_step. Qed.

Lemma preserves_git_commit args : preserves R (_tool_git_commit w self args).
Proof. unfold _tool_git_commit. cbv zeta. repeat preserves_step. Qed.

Lemma preserves_create_directory args : preserves R (_tool_create_directory self args).
Proof. unfold _tool_create_directory. repeat preserves_step. Qed.

Lemma preserves_complete_task args : preserves R (_tool_complete_task args).
Proof. unfold _tool_complete_task. repeat preserves_step. Qed.

Section Recording.

Hypothesis R_record : forall c, preserves R (record_change c).




End Recording.

Lemma preserves_some_dict (m : M dict) : preserves R m -> preserves R (some_dict m).
Proof. intros H. unfold some_dict. repeat preserves_step. Qed.

(** [execute_tool] around a method that preserves [R]. *)
Lemma preserves_execute_tool name args :
  (forall method, lookup_method w self name = Some method -> preserves R (method args)) ->
  preserves R (execute_tool w self name args).
Proof.
  intros Hm. unfold execute_tool.
  apply preserves_bind; [apply preserves_time | intros t0].
  apply preserves_bind; [| intros o; repeat preserves_step].
  apply preserves_try_except; [| intros e; apply preserves_ret].
  destruct (lookup_method w self name) as [method|]; [| apply preserves_ret].
  apply preserves_bind; [apply Hm; reflexivity | intros r; apply preserves_ret].
Qed.

End Preserves.

Section Buffer.

Lemma buffer_kept_frame s s' :
  st_file_changes s' = st_file_changes s -> buffer_kept s s'.
Proof. auto. Qed.

Lemma buffer_kept_trans s1 s2 s3 :
  buffer_kept s1 s2 -> buffer_kept s2 s3 -> buffer_kept s1 s3.
Proof. unfold buffer_kept. congruence. Qed.




Variable w : World.
Variable self : Toolkit.


(** The methods other than the three recording ones leave the buffer. *)
Lemma method_keeps name args method :
  ~ In name recording_tools ->
  lookup_method w self name = Some method -> preserves buffer_kept (method args).
Proof.
  intros Hname. unfold lookup_method.
  destruct (String.eqb_spec name "write_file") as [->|_];
    [exfalso; apply Hname; cbn; auto |].
  destruct (String.eqb_spec name "edit_file") as [->|_];
    [exfalso; apply Hname; cbn; auto |].
  destruct (String.eqb_spec name "delete_file") as [->|_];
    [exfalso; apply Hname; cbn; auto |].
  repeat match goal with
         | |- (if ?b then _ else _) = Some _ -> _ => destruct b
         end;
    intros [= <-];
    try apply (preserves_some_dict _ buffer_kept_frame buffer_kept_trans);
    first
      [ apply (preserves_read_file _ buffer_kept_frame buffer_kept_trans)
      | apply (preserves_list_files _ buffer_kept_frame buffer_kept_trans)
      | apply (preserves_search_files _ buffer_kept_frame buffer_kept_trans)
      | apply (preserves_run_command _ buffer_kept_frame buffer_kept_trans)
      | apply (preserves_git_status _ buffer_kept_frame buffer_kept_trans)
      | apply (preserves_git_diff _ buffer_kept_frame buffer_kept_trans)
      | apply (preserves_git_commit _ buffer_kept_frame buffer_kept_trans)
      | apply (preserves_create_directory _ buffer_kept_frame buffer_kept_trans)
      | apply (preserves_complete_task _ buffer_kept_frame buffer_kept_trans) ].
Qed.

End Buffer.

Section Turn.

Variable lw : LoopWorld.
Variable toolkit : Toolkit.





End Turn.

(** X23. The tools other than [write_file], [edit_file] and [delete_file]
    record no file change, whatever they do to the files: what a shell
    command run through [run_command] or one of the git tools writes or
    deletes never reaches the buffer of file changes. *)
Theorem X23_shell_changes_are_not_recorded :
  forall (w : World) (self : Toolkit) (name : string) (args : dict) (s : State),
    ~ In name recording_tools ->
    st_file_changes (snd (execute_tool w self name args s)) = st_file_changes s.
Proof.
  intros w self name args s Hname.
  apply (preserves_execute_tool _ buffer_kept_frame buffer_kept_trans).
  intros method. now apply method_keeps.
Qed.

(** X23 at a command that creates a file. *)
Lemma X23_shell_changes_are_not_recorded_witness :
  let s1 := snd (execute_tool touching_world Demo.toolkit "run_command"
                   (run_args "touch made.txt" 5) Demo.state) in
  lookup_node (st_fs s1) ["work"; "dir"; "made.txt"] = Some (File EmptyString)
  /\ st_file_changes s1 = [].
Proof.
  intros s1. split; [vm_compute; reflexivity |].
  apply (X23_shell_changes_are_not_recorded touching_world Demo.toolkit "run_command"
           (run_args "touch made.txt" 5) Demo.state).
  cbn. intros [H|[H|[H|[]]]]; discriminate.
Defined.


(** *** Listings and searches *)

Section Listing.

Lemma ltb_asym (a b : string) : String.ltb a b = true -> String.ltb b a = false.
Proof.
  unfold String.ltb. rewrite (String.compare_antisym b a).
  destruct (String.compare a b); cbn; congruence.
Qed.

Lemma insert_by_path_sorted e l :
  Sorted (fun a b => path_le (fst a) (fst b)) l ->
  Sorted (fun a b => path_le (fst a) (fst b)) (insert_by_path e l).
Proof.
  induction l as [|x l IH]; intros Hs; cbn [insert_by_path].
  - repeat constructor.
  - destruct (String.ltb (fst e) (fst x)) eqn:E.
    + constructor; [exact Hs |]. constructor. unfold path_le. now apply ltb_asym.
    + inversion Hs as [|? ? Hs' Hhd]; subst. constructor; [apply IH, Hs' |].
      destruct l as [|y l]; cbn [insert_by_path].
      * constructor. exact E.
      * destruct (String.ltb (fst e) (fst y)); constructor.
        -- exact E.
        -- inversion Hhd; subst. assumption.
Qed.

Lemma insert_by_path_length e l :
  length (insert_by_path e l) = S (length l).
Proof.
  induction l as [|x l IH]; cbn [insert_by_path]; [reflexivity |].
  destruct (String.ltb _ _); cbn [length]; [reflexivity | now rewrite IH].
Qed.

Lemma sort_by_path_spec l :
  forall acc,
    Sorted (fun a b => path_le (fst a) (fst b)) acc ->
    Sorted (fun a b => path_le (fst a) (fst b))
      (fold_left (fun acc e => insert_by_path e acc) l acc)
    /\ length (fold_left (fun acc e => insert_by_path e acc) l acc)
       = (length l + length acc)%nat.
Proof.
  induction l as [|e l IH]; intros acc Hacc; cbn [fold_left]; [auto |].
  destruct (IH (insert_by_path e acc) (insert_by_path_sorted e acc Hacc)) as [Hs Hl].
  split; [exact Hs |]. rewrite Hl, insert_by_path_length. cbn [length]. lia.
Qed.

Lemma sort_by_path_sorted l :
  Sorted (fun a b => path_le (fst a) (fst b)) (sort_by_path l)
  /\ length (sort_by_path l) = length l.
Proof.
  unfold sort_by_path. destruct (sort_by_path_spec l [] (Sorted_nil _)) as [Hs Hl].
  split; [exact Hs |]. rewrite Hl. cbn [length]. lia.
Qed.

Lemma sort_by_path_Forall (P : string * dict -> Prop) l :
  Forall P l -> Forall P (sort_by_path l).
Proof.
  unfold sort_by_path. cut (forall acc, Forall P acc -> Forall P l ->
    Forall P (fold_left (fun acc e => insert_by_path e acc) l acc)).
  { intros H Hl. apply H; [constructor | exact Hl]. }
  induction l as [|e l IH]; intros acc Hacc Hl; cbn [fold_left]; [exact Hacc |].
  inversion Hl as [|? ? He Hl']; subst. apply IH; [| exact Hl'].
  clear IH Hl Hl'. induction Hacc as [|x acc Hx Hacc IH]; cbn [insert_by_path].
  - repeat constructor. exact He.
  - destruct (String.ltb _ _); repeat constructor; assumption.
Qed.

Lemma sorted_map_fst (l : list (string * dict)) :
  Sorted (fun a b => path_le (fst a) (fst b)) l -> Sorted path_le (map fst l).
Proof.
  induction 1 as [|x l Hs IH Hhd]; cbn [map]; constructor; [exact IH |].
  destruct Hhd; cbn [map]; constructor. assumption.
Qed.

Lemma length_omap_le {A B} (f : A -> option B) (l : list A) :
  (length (omap f l) <= length l)%nat.
Proof.
  induction l as [|x l IH]; cbn; [lia |]. destruct (f x); cbn [length]; lia.
Qed.

End Listing.

Section ListFiles.

Variable w : World.
Variable self : Toolkit.

(** [_tool_list_files], when it returns a listing. *)
Lemma list_files_outcome args s d s1 :
  _tool_list_files w self args s = (Return d, s1) ->
  dict_get "error" d = None ->
  exists (path : string) (found : list (list string)) (entries : list (string * dict)),
    d = [("path", VStr path);
         ("files", VList (map (fun e => VDict (snd e)) entries));
         ("total", VInt (PyStr.len entries));
         ("truncated", VBool (100 <? PyStr.len found))]
    /\ (length entries <= 100)%nat
    /\ (length entries <= length found)%nat
    /\ Sorted (fun a b => path_le (fst a) (fst b)) entries
    /\ Forall (fun e => text_of "path" (snd e) = fst e) entries.
Proof.
  unfold _tool_list_files, bind, try_except.
  destruct (check_keywords _ _ args s) as [[[]|e] s0]; [| discriminate].
  destruct (as_str _ s0) as [[path|e] s2]; [| discriminate].
  destruct (as_opt_str _ s2) as [[pattern|e] s3]; [| discriminate].
  destruct (_resolve_path self path s3) as [[full|e] s4]; [| discriminate].
  unfold get_fs. cbn [fst snd].
  destruct (negb (fs_exists (st_fs s4) full)); [intros [= <- _]; discriminate |].
  set (pat := if PyStr.truthy pattern then pattern else None).
  destruct (of_sum (listing w (st_fs s4) full pat _) s4) as [[found|e] s5];
    [| intros [= <- _]; discriminate].
  cbv zeta. unfold ret. intros [= <- _] _.
  set (files := match pat with
                | None => if value_truthy (optional "recursive" (VBool false) args)
                          then filter (fun f => entry_is_file (st_fs s4) f = true) found
                          else found
                | Some _ => found
                end).
  exists path, files. eexists. split; [reflexivity |].
  match goal with |- context [sort_by_path ?l] => set (unsorted := l) end.
  destruct (sort_by_path_sorted unsorted) as [Hs Hl].
  assert (Hlen : (length unsorted <= length (take 100 files))%nat)
    by apply length_omap_le.
  rewrite length_take in Hlen.
  split; [rewrite Hl; lia |]. split; [rewrite Hl; lia |]. split; [exact Hs |].
  apply sort_by_path_Forall. subst unsorted.
  apply List.Forall_forall. intros e He. apply list_elem_of_In in He.
  apply list_elem_of_omap in He as (f & _ & Hf).
  destruct (relative_to (working_dir self) f) as [rel|]; [| discriminate].
  injection Hf as <-. reflexivity.
Qed.

End ListFiles.

(** X25. A listing [list_files] returns holds at most 100 entries, sorted by
    their path, and its total is the number of entries it holds. *)
Theorem X25_list_files_is_capped :
  forall (w : World) (self : Toolkit) (args : dict) (s s1 : State) (d : dict),
    _tool_list_files w self args s = (Return d, s1) ->
    dict_get "error" d = None ->
    exists entries : list value,
      dict_get "files" d = Some (VList entries)
      /\ dict_get "total" d = Some (VInt (PyStr.len entries))
      /\ (length entries <= 100)%nat
      /\ Sorted path_le (map entry_path entries).
Proof.
  intros w self args s s1 d H Hok.
  destruct (list_files_outcome w self args s d s1 H Hok)
    as (path & found & entries & -> & Hcap & _ & Hsorted & Hpaths).
  exists (map (fun e => VDict (snd e)) entries).
  split; [reflexivity |].
  split; [unfold PyStr.len; now rewrite length_map |].
  split; [now rewrite length_map |].
  assert (E : map entry_path (map (fun e => VDict (snd e)) entries) = map fst entries)
    by (rewrite map_map; apply map_ext_Forall; exact Hpaths).
  rewrite E. now apply sorted_map_fst.
Qed.

(** X25 at a directory whose two files the system yields in reverse order. *)
Lemma X25_list_files_is_capped_witness :
  exists entries : list value,
    dict_get "files" (match fst (_tool_list_files unordered_world Demo.toolkit [] Demo.state) with
                      | Return d => d
                      | Raise _ => []
                      end)
    = Some (VList entries)
    /\ map entry_path entries = ["a.txt"; "b.txt"].
Proof.
  assert (Hrun : exists d, _tool_list_files unordered_world Demo.toolkit [] Demo.state
                           = (Return d, Demo.state) /\ dict_get "error" d = None)
    by (eexists; split; vm_compute; reflexivity).
  destruct Hrun as (d & Hrun & Hok).
  destruct (X25_list_files_is_capped _ _ _ _ _ _ Hrun Hok) as (entries & Hfiles & _).
  exists entries. rewrite Hrun. cbn [fst]. split; [exact Hfiles |].
  pose proof (f_equal fst Hrun) as E. vm_compute in E. injection E as <-.
  vm_compute in Hfiles. injection Hfiles as <-. reflexivity.
Defined.

Section SearchFiles.

Variable w : World.
Variable self : Toolkit.

Lemma search_lines_capped pattern f lines :
  forall i matches,
    (length matches < 50)%nat ->
    (length (search_lines w self pattern f i lines matches) <= 50)%nat.
Proof.
  induction lines as [|line rest IH]; intros i matches Hlen; cbn [search_lines]; [lia |].
  destruct (re_search w pattern line); [| now apply IH].
  destruct (relative_to (working_dir self) f) as [rel|]; [| lia]. cbv zeta.
  match goal with |- context [(matches ++ [?m])%list] => set (hit := m) end.
  assert (Hsnoc : length (matches ++ [hit])%list = S (length matches))
    by (rewrite length_app; cbn [length]; lia).
  unfold PyStr.len. rewrite Hsnoc.
  destruct (Z.leb_spec 50 (Z.of_nat (S (length matches)))); [lia |].
  apply IH. lia.
Qed.

Lemma search_in_files_capped fs pattern files :
  forall matches,
    (length matches < 50)%nat ->
    (length (search_in_files w self fs pattern files matches) <= 50)%nat.
Proof.
  induction files as [|f rest IH]; intros matches Hlen; cbn [search_in_files]; [lia |].
  destruct (negb (entry_is_file fs f)); [now apply IH |]. cbv zeta.
  set (matches' := match entry_read_text fs f with inl _ => _ | inr _ => matches end).
  assert (Hcap : (length matches' <= 50)%nat).
  { subst matches'. destruct (entry_read_text fs f); [now apply search_lines_capped | lia]. }
  unfold PyStr.len.
  destruct (Z.leb_spec 50 (Z.of_nat (length matches'))); [exact Hcap |].
  apply IH. lia.
Qed.

(** [_tool_search_files], when it returns matches. *)
Lemma search_files_outcome args s d s1 :
  _tool_search_files w self args s = (Return d, s1) ->
  dict_get "error" d = None ->
  exists (pattern : string) (matches : list value),
    d = [("pattern", VStr pattern); ("matches", VList matches);
         ("total", VInt (PyStr.len matches))]
    /\ (length matches <= 50)%nat.
Proof.
  unfold _tool_search_files, bind, try_except.
  destruct (check_keywords _ _ args s) as [[[]|e] s0]; [| discriminate].
  destruct (required _ _ args s0) as [[pattern_v|e] s2]; [| discriminate].
  destruct (as_str (optional "path" _ args) s2) as [[path|e] s3]; [| discriminate].
  destruct (_resolve_path self path s3) as [[full|e] s4]; [| discriminate].
  destruct (as_str pattern_v s4) as [[pattern|e] s5]; [| intros [= <- _]; discriminate].
  destruct (as_opt_str _ s5) as [[file_pattern|e] s6]; [| intros [= <- _]; discriminate].
  destruct (as_int _ s6) as [[context_lines|e] s7]; [| intros [= <- _]; discriminate].
  cbv zeta.
  assert (Hfallback : forall s8,
            (let (o, s') :=
               (if negb (re_compiles w pattern)
                then raise ("error: bad pattern " +:+ pattern)
                else
                  bind get_fs (fun fs =>
                    bind (of_sum (listing w fs full
                                    (if PyStr.truthy file_pattern then file_pattern
                                     else Some "*") true))
                      (fun files =>
                         ret [("pattern", VStr pattern);
                              ("matches", VList (search_in_files w self fs pattern files []));
                              ("total",
                               VInt (PyStr.len (search_in_files w self fs pattern files [])))])))
                 s8 in
             match o with
             | Return a => (Return a, s')
             | Raise msg => ret [("error", VStr ("Search failed: " +:+ msg))] s'
             end) = (Return d, s1) ->
            dict_get "error" d = None ->
            exists (pattern : string) (matches : list value),
              d = [("pattern", VStr pattern); ("matches", VList matches);
                   ("total", VInt (PyStr.len matches))]
              /\ (length matches <= 50)%nat).
  { intros s8.
    destruct (negb (re_compiles w pattern)); [intros [= <- _]; discriminate |].
    unfold bind, get_fs. cbn [fst snd].
    destruct (of_sum (listing w (st_fs s8) full _ true) s8) as [[files|e] s9];
      [| intros [= <- _]; discriminate].
    unfold ret. intros [= <- _] _. eexists _, _. split; [reflexivity |].
    apply search_in_files_capped. cbn. lia. }
  destruct (allow_shell self); [| exact (Hfallback s7)].
  destruct (_run_shell_command w self _ 30 s7) as [[result|e] s8];
    [| intros [= <- _]; discriminate].
  destruct (dict_get "stdout" result) as [[|b|n|out|l|dd]|]; try exact (Hfallback s8).
  destruct (String.eqb out EmptyString); [exact (Hfallback s8) |].
  unfold ret. intros [= <- _] _.
  exists pattern, (map VStr (take 50 (PyStr.split PyStr.LF out))).
  split; [unfold PyStr.len; now rewrite length_map |].
  rewrite length_map, length_take. lia.
Qed.

End SearchFiles.

(** X26. [search_files] returns at most 50 matches, from grep as from the
    search in the process itself, and its total is the number of matches
    it returns. *)
Theorem X26_search_files_is_capped :
  forall (w : World) (self : Toolkit) (args : dict) (s s1 : State) (d : dict),
    _tool_search_files w self args s = (Return d, s1) ->
    dict_get "error" d = None ->
    exists matches : list value,
      dict_get "matches" d = Some (VList matches)
      /\ dict_get "total" d = Some (VInt (PyStr.len matches))
      /\ (length matches <= 50)%nat.
Proof.
  intros w self args s s1 d H Hok.
  destruct (search_files_outcome w self args s d s1 H Hok) as (pattern & matches & -> & Hcap).
  exists matches. repeat split. exact Hcap.
Qed.

(** X26 at a search with no match. *)
Lemma X26_search_files_is_capped_witness :
  exists matches : list value,
    fst (_tool_search_files Demo.world Demo.toolkit [("pattern", VStr "TODO")] Demo.state)
    = Return [("pattern", VStr "TODO"); ("matches", VList matches);
              ("total", VInt (PyStr.len matches))]
    /\ (length matches <= 50)%nat.
Proof.
  assert (Hrun : exists d, _tool_search_files Demo.world Demo.toolkit
                             [("pattern", VStr "TODO")] Demo.state
                           = (Return d, Demo.state) /\ dict_get "error" d = None)
    by (eexists; split; vm_compute; reflexivity).
  destruct Hrun as (d & Hrun & Hok).
  destruct (X26_search_files_is_capped _ _ _ _ _ _ Hrun Hok) as (matches & Hm & _ & Hcap).
  exists matches. split; [| exact Hcap].
  rewrite Hrun. cbn [fst].
  pose proof (f_equal fst Hrun) as E. vm_compute in E. injection E as <-.
  vm_compute in Hm. injection Hm as <-. reflexivity.
Defined.
(** *** The summary of a task *)

Section SummaryOfRun.

Lemma length_append (a b : string) :
  String.length (a +:+ b) = (String.length a + String.length b)%nat.
Proof.
  induction a as [|c a IH]; [reflexivity |].
  change (String c a +:+ b) with (String c (a +:+ b)). cbn [String.length].
  now rewrite IH.
Qed.

Lemma prompt_preview_short (t : RalphTask) :
  (String.length (Summary.prompt_preview (Summary.get_summary t)) <= 103)%nat.
Proof.
  cbn [Summary.get_summary Summary.prompt_preview].
  destruct (Z.ltb_spec 100 (Z.of_nat (String.length (prompt t)))).
  - rewrite length_append. pose proof (take_length_le 100 (prompt t)). cbn [String.length]. lia.
  - lia.
Qed.

End SummaryOfRun.

(** X27. The summary of a task a run has returned, for a task that was
    fresh when the run began: it says complete exactly when its status is
    "completed", its count of iterations is the number of iterations the
    task lists, and its preview of the prompt has at most 103
    characters. *)
Theorem X27_summary_of_a_run :
  forall (lw : LoopWorld) (task task' : RalphTask) (s s' : State),
    completion_result task = None ->
    current_iteration task = PyStr.len (iterations task) ->
    run_task lw task s = Finished task' s' ->
    (Summary.sm_is_complete (Summary.get_summary task') = true
     <-> Summary.sm_status (Summary.get_summary task') = "completed")
    /\ Summary.iterations_completed (Summary.get_summary task')
       = PyStr.len (iterations task')
    /\ (String.length (Summary.prompt_preview (Summary.get_summary task')) <= 103)%nat.
Proof.
  intros lw task task' s s' Hfresh Hcount. unfold run_task.
  destruct (new_toolkit _ _ _ _ _) as [toolkit|]; [| discriminate].
  destruct (main_loop _ _ _ _ _ _ _) as [[t1 s1]|] eqn:Eloop; [| discriminate].
  intros [= <- <-].
  split; [| split; [| apply prompt_preview_short]].
  - destruct (main_loop_exit _ _ _ _ _ _ _ _ _ Eloop)
      as (t & k' & _ & _ & _ & Hexit & Hcr & _).
    cbn [start set_status completion_result] in Hcr. rewrite Hfresh in Hcr.
    cbn [Summary.get_summary Summary.sm_is_complete Summary.sm_status].
    destruct Hexit as [Hc | Hc Hmax | it task' Hc Hmax Hafter | e Hc Hmax].
    + cbn. rewrite Hcr. split; discriminate.
    + cbn. rewrite Hcr. split; discriminate.
    + apply after_iteration_stops in Hafter. cbv zeta in Hafter.
      destruct Hafter as [[Hok ->]|[_ (reason & ->)]]; cbn.
      * rewrite Hok. split; reflexivity.
      * rewrite Hcr. split; discriminate.
    + cbn. rewrite Hcr. split; discriminate.
  - destruct (main_loop_exit _ _ _ _ _ _ _ _ _ Eloop)
      as (t & k' & _ & _ & Hhead & Hexit & _).
    assert (Ht : current_iteration t = PyStr.len (iterations t)).
    { destruct Hhead as [[-> _]|[Hc _]]; [exact Hcount | exact Hc]. }
    cbn [Summary.get_summary Summary.iterations_completed].
    destruct Hexit as [Hc | Hc Hmax | it task' Hc Hmax Hafter | e Hc Hmax];
      try exact Ht.
    apply after_iteration_stops in Hafter. cbv zeta in Hafter.
    destruct Hafter as [[_ ->]|[_ (reason & ->)]]; reflexivity.
Qed.

(** X27 at a run that completes in its first iteration. *)
Lemma X27_summary_of_a_run_witness :
  exists (task' : RalphTask) (s' : State),
    run_task (Demo.scripted (fun _ => Demo.says "Done. <promise>COMPLETE</promise>"))
      (new_task 0 "Say done" (Demo.unchecked 5)) Demo.state
    = Finished task' s'
    /\ Summary.sm_status (Summary.get_summary task') = "completed"
    /\ Summary.sm_is_complete (Summary.get_summary task') = true
    /\ Summary.iterations_completed (Summary.get_summary task') = 1.
Proof.
  assert (Hrun : exists task' s',
            run_task (Demo.scripted (fun _ => Demo.says "Done. <promise>COMPLETE</promise>"))
              (new_task 0 "Say done" (Demo.unchecked 5)) Demo.state
            = Finished task' s'
            /\ Summary.sm_status (Summary.get_summary task') = "completed"
            /\ PyStr.len (iterations task') = 1)
    by (eexists _, _; vm_compute; repeat split; reflexivity).
  destruct Hrun as (task' & s' & Hrun & Hst & Hlen).
  destruct (X27_summary_of_a_run _ (new_task 0 "Say done" (Demo.unchecked 5)) _ _ _
              eq_refl eq_refl Hrun) as (Hiff & Hcount & _).
  exists task', s'. split; [exact Hrun |]. split; [exact Hst |].
  split; [apply Hiff; exact Hst | now rewrite Hcount].
Defined.
(** *** The completion patterns *)

Section LooseMatch.

Lemma lower_char_idem (c : ascii) :
  PyStr.lower_char (PyStr.lower_char c) = PyStr.lower_char c.
Proof. destruct c as [[] [] [] [] [] [] [] []]; vm_compute; reflexivity. Qed.

Lemma lower_char_blank (d : ascii) :
  PyStr.lower_char d = " "%char -> d = " "%char.
Proof. destruct d as [[] [] [] [] [] [] [] []]; vm_compute; congruence. Qed.

(** A literal pattern matches at the start of every text that begins with
    the literal once both are put in lower case, and a pattern after it
    goes on behind it. *)
Lemma match_here_lit_then (p : string) (q : Re.pattern) :
  forall s,
    PyStr.startswith (PyStr.lower s) (PyStr.lower p) = true ->
    (forall s', PyStr.lower s = PyStr.lower p +:+ PyStr.lower s' ->
                is_Some (Re.match_here q s')) ->
    is_Some (Re.match_here (Re.lit p ++ q)%list s).
Proof.
  induction p as [|a p IH]; intros s Hs Hq.
  - cbn [Re.lit app]. apply Hq. reflexivity.
  - destruct s as [|d s]; [discriminate |].
    cbn [PyStr.lower PyStr.startswith] in Hs.
    destruct (Ascii.eqb_spec (PyStr.lower_char a) (PyStr.lower_char d)) as [E|_];
      [| discriminate].
    cbn [Re.lit app Re.match_here]. rewrite E, Ascii.eqb_refl.
    destruct (IH s Hs) as [m Hm].
    + intros s' Hs'. apply Hq. cbn [PyStr.lower]. rewrite Hs', E. reflexivity.
    + rewrite Hm. cbn. eauto.
Qed.

Lemma startswith_app_inv (a b : string) :
  forall l, PyStr.startswith l (a +:+ b) = true -> PyStr.startswith l a = true.
Proof.
  induction a as [|x a IH]; intros l; [destruct l; reflexivity |].
  change (String x a +:+ b) with (String x (a +:+ b)).
  destruct l as [|y l]; cbn [PyStr.startswith]; [discriminate |].
  destruct (Ascii.eqb x y); [apply IH | discriminate].
Qed.

Lemma lower_app_inv (a : string) :
  forall s s', PyStr.lower s = a +:+ PyStr.lower s' ->
               forall b, PyStr.startswith (PyStr.lower s) (a +:+ b) = true ->
                         PyStr.startswith (PyStr.lower s') b = true.
Proof.
  induction a as [|x a IH]; intros s s' Hs b Hb.
  - cbn in Hs. rewrite Hs in Hb. exact Hb.
  - destruct (PyStr.lower s) as [|y r] eqn:El; [discriminate |].
    change (String x a +:+ PyStr.lower s') with (String x (a +:+ PyStr.lower s')) in Hs.
    injection Hs as -> Hr.
    change (String x a +:+ b) with (String x (a +:+ b)) in Hb.
    cbn [PyStr.startswith] in Hb. rewrite Ascii.eqb_refl in Hb.
    destruct s as [|d s0]; [discriminate |]. cbn [PyStr.lower] in El.
    injection El as _ El. subst r. exact (IH s0 s' Hr b Hb).
Qed.

(** The second completion pattern, [TASK[_\s]?COMPLETE] without regard to
    case, at the start of a text. *)
Lemma task_complete_here (s : string) :
  PyStr.startswith (PyStr.lower s) task_complete_text = true ->
  is_Some (Re.match_here
             (Re.lit "TASK" ++ [Re.OptClass Re.underscore_or_space] ++ Re.lit "COMPLETE")%list s).
Proof.
  intros Hs. apply match_here_lit_then.
  - change (PyStr.lower "TASK") with "task".
    exact (startswith_app_inv "task" " complete" _ Hs).
  - intros s' Hs'. change (PyStr.lower "TASK") with "task" in Hs'.
    pose proof (lower_app_inv "task" s s' Hs' " complete" Hs) as Hrest.
    destruct s' as [|d s'']; [discriminate |].
    cbn [PyStr.lower PyStr.startswith] in Hrest.
    destruct (Ascii.eqb_spec " "%char (PyStr.lower_char d)) as [E|_]; [| discriminate].
    symmetry in E. apply lower_char_blank in E. subst d.
    cbn [app Re.match_here]. cbv zeta.
    change (Re.underscore_or_space " "%char) with true. cbv iota.
    assert (Hlit : is_Some (Re.match_here (Re.lit "COMPLETE") s'')).
    { rewrite <- (app_nil_r (Re.lit "COMPLETE")).
      apply match_here_lit_then; [exact Hrest |]. intros; cbn; eauto. }
    destruct Hlit as [m Hm]. rewrite Hm. cbn. eauto.
Qed.

Lemma task_complete_search (s : string) :
  PyStr.contains task_complete_text (PyStr.lower s) = true ->
  is_Some (Re.search
             (Re.lit "TASK" ++ [Re.OptClass Re.underscore_or_space] ++ Re.lit "COMPLETE")%list s).
Proof.
  induction s as [|d s IH]; [discriminate |].
  cbn [PyStr.lower PyStr.contains]. intros H.
  cbn [Re.search].
  destruct (Re.match_here _ (String d s)) as [m|] eqn:E; [eauto |].
  apply orb_prop in H as [H|H].
  - destruct (task_complete_here (String d s) H) as [m Hm]. congruence.
  - exact (IH H).
Qed.

End LooseMatch.

(** X28. A response that holds the words "task complete" anywhere, in any
    letter case (as in "this task completely failed"), is taken as the
    completion promise by every detector [run_task] builds:
    [check_completion] declares the task complete at confidence 1.0,
    whatever promise the task configures and whatever the checks and the
    tools returned. *)
Theorem X28_task_complete_words_complete :
  forall (promise : string) (task : RalphTask) (it : RalphIteration),
    PyStr.contains task_complete_text (PyStr.lower (agent_response it)) = true ->
    is_complete (check_completion (new_detector promise) task it) = true
    /\ promise_detected (check_completion (new_detector promise) task it) = true
    /\ confidence (check_completion (new_detector promise) task it) = 1.0%float.
Proof.
  intros promise task it H.
  assert (Hfound : found (_check_completion_promise (new_detector promise)
                            (agent_response it)
                            (Some (completion_promise (config task)))) = true).
  { destruct (task_complete_search _ H) as [m Hm].
    unfold _check_completion_promise. cbv zeta.
    destruct (_ && _)%bool; [reflexivity |].
    destruct (PyStr.contains _ (agent_response it)); [reflexivity |].
    cbn [new_detector completion_patterns first_match].
    destruct (Re.search (Re.lit "<promise>COMPLETE</promise>") (agent_response it));
      [reflexivity |].
    rewrite Hm. reflexivity. }
  unfold check_completion. cbv zeta. rewrite Hfound. repeat split.
Qed.

(** X28 at an answer that reports a failure. *)
Lemma X28_task_complete_words_complete_witness :
  let it := Demo.plain_iteration 1 "Sorry, this task completely failed." in
  let cr := check_completion Demo.detector (new_task 0 "Test task" (Demo.unchecked 5)) it in
  is_complete cr = true /\ confidence cr = 1.0%float.
Proof.
  intros it cr.
  destruct (X28_task_complete_words_complete "<promise>COMPLETE</promise>"
              (new_task 0 "Test task" (Demo.unchecked 5)) it) as (Hc & _ & Hconf).
  - vm_compute. reflexivity.
  - split; [exact Hc | exact Hconf].
Defined.
